(** * Bill extraction core: row grouping, row parsing and item validation

    A shallow embedding of the three components of the extraction core,

    - [OCRExtractor.group_by_row]   (src/services/ocr_extractor.py),
    - [TableParser.parse_rows]      (src/services/table_parser.py),
    - [BillValidator.validate_and_clean] (src/services/services_validator.py),

    together with the properties that the specification states about them.

    Modelling conventions.

    - A Python [str] is a [string]: the UTF-8 bytes of the text.  The rupee
      sign is the three bytes E2 82 B9; since UTF-8 is self-synchronising,
      removing that byte sequence is removing the character.  Case mapping,
      white space and digits are those of the ASCII range; letters, spaces
      and digits of other scripts are plain bytes here.  A lone surrogate
      stands by its three bytes in the same scheme; [BillValidator] takes
      the names as texts without one, [RawValidator] takes any text.
    - A Python [float] is an IEEE 754 binary64 number, [spec_float] with
      [prec = 53] and [emax = 1024]; the arithmetic is the one of the
      standard specification [SpecFloat], rounding to nearest even, and
      [float(s)] is the correctly rounded value of the decimal text.  The
      real number that a float stands for ([FloatValue.value]) serves to
      state what the rounding of a sum, a difference or a quotient keeps.
    - An exception is a value of [exn]; code that may raise returns a
      [result], and a [try]/[except] is a match on it.
    - A dictionary holding an item is a record whose four required fields
      are optional: [None] stands for a missing key as well as for the
      value [None].  The fields that are present hold what the parser puts
      there: a string for the name, floats for the figures.
    - Calls to the logger return nothing and change nothing that the
      functions return; they are left out.
    - The MD5 digest that identifies an item is modelled by the key that is
      hashed (see [BillValidator._create_hash]). *)

From Stdlib Require Import ZArith List String Ascii Bool Lia PeanoNat.
From Stdlib Require Import Sorting.Sorted Sorting.Permutation.
From Stdlib Require Import Floats.SpecFloat.
From Stdlib Require Reals Lra.
Import ListNotations.

Local Open Scope string_scope.
Local Open Scope list_scope.

(** ** Exceptions *)

Inductive exn : Type :=
| ValueError
| ZeroDivisionError
| IndexError
| KeyError (key : string)
| AttributeError
| UnicodeEncodeError.

Inductive result (A : Type) : Type :=
| Ok (a : A)
| Raise (e : exn).

Arguments Ok {A} a.
Arguments Raise {A} e.

Definition bind {A B : Type} (r : result A) (k : A -> result B) : result B :=
  match r with
  | Ok a => k a
  | Raise e => Raise e
  end.

Notation "x <- r ;; k" := (bind r (fun x => k))
  (at level 61, r at next level, right associativity).

(** ** Python strings *)

Module PyStr.

(** [str.isspace] on the ASCII range: tab, line feed, vertical tab, form
    feed, carriage return, the four separators 0x1c-0x1f, and space. *)
Definition is_space (c : ascii) : bool :=
  let n := nat_of_ascii c in
  (((9 <=? n) && (n <=? 13)) || ((28 <=? n) && (n <=? 32)))%nat.

(** Drops the leading characters that [sp] accepts. *)
Fixpoint lstrip_by (sp : ascii -> bool) (s : string) : string :=
  match s with
  | EmptyString => EmptyString
  | String c s' => if sp c then lstrip_by sp s' else s
  end.

(** Drops the trailing characters that [sp] accepts: a character is kept
    when [sp] rejects it or when something is kept after it. *)
Fixpoint rstrip_by (sp : ascii -> bool) (s : string) : string :=
  match s with
  | EmptyString => EmptyString
  | String c s' =>
      match rstrip_by sp s' with
      | EmptyString => if sp c then EmptyString else String c EmptyString
      | r => String c r
      end
  end.

Definition strip_by (sp : ascii -> bool) (s : string) : string :=
  rstrip_by sp (lstrip_by sp s).

(** [s.strip()] *)
Definition strip (s : string) : string := strip_by is_space s.

(** [s.replace(old, new)] for a non-empty [old]: one pass from the left,
    occurrences do not overlap.  [skip] counts the characters of a matched
    occurrence that are still to be passed over. *)
Fixpoint replace_from (old new : string) (skip : nat) (s : string) : string :=
  match s with
  | EmptyString => EmptyString
  | String c s' =>
      match skip with
      | S k => replace_from old new k s'
      | O =>
          if prefix old s
          then new ++ replace_from old new (String.length old - 1) s'
          else String c (replace_from old new 0 s')
      end
  end.

Definition replace (old new s : string) : string := replace_from old new 0 s.

Definition lower_char (c : ascii) : ascii :=
  let n := nat_of_ascii c in
  if ((65 <=? n) && (n <=? 90))%nat then ascii_of_nat (n + 32) else c.

(** [s.lower()] *)
Fixpoint lower (s : string) : string :=
  match s with
  | EmptyString => EmptyString
  | String c s' => String (lower_char c) (lower s')
  end.

(** [sep.join(parts)] *)
Fixpoint join (sep : string) (parts : list string) : string :=
  match parts with
  | [] => EmptyString
  | [p] => p
  | p :: ps => p ++ sep ++ join sep ps
  end.

(** [sub in s] *)
Fixpoint contains (sub s : string) : bool :=
  prefix sub s ||
  match s with
  | EmptyString => false
  | String _ s' => contains sub s'
  end.

(** A text stands for a [str] by its UTF-8 bytes.  A [str] may hold a lone
    surrogate U+D800-U+DFFF (a decoding with [surrogateescape] makes them);
    it stands by the three bytes that the same scheme gives it, 0xED,
    0xA0-0xBF, 0x80-0xBF, which is what [encode('utf-8', 'surrogatepass')]
    returns.  No other character starts with 0xED and such a second byte. *)
Definition surrogate_start (a b : ascii) : bool :=
  ((nat_of_ascii a =? 237) && (160 <=? nat_of_ascii b)
   && (nat_of_ascii b <=? 191))%nat.

Fixpoint has_surrogate (s : string) : bool :=
  match s with
  | String a ((String b _) as s') => surrogate_start a b || has_surrogate s'
  | _ => false
  end.

(** [s.encode()]: strict UTF-8, which refuses a lone surrogate. *)
Definition encode (s : string) : result string :=
  if has_surrogate s then Raise UnicodeEncodeError else Ok s.

End PyStr.

(** ** Python floats *)

Module PyFloat.

Definition prec : Z := 53.
Definition emax : Z := 1024.

Definition float : Type := spec_float.

Definition zero : float := S754_zero false.
Definition nan : float := S754_nan.

Definition add : float -> float -> float := SFadd prec emax.
Definition sub : float -> float -> float := SFsub prec emax.
Definition mul : float -> float -> float := SFmul prec emax.
Definition abs : float -> float := SFabs.

(** [x == y], [x < y], [x <= y], [x > y]; every comparison with a NaN is
    false. *)
Definition eqb : float -> float -> bool := SFeqb.
Definition ltb : float -> float -> bool := SFltb.
Definition leb : float -> float -> bool := SFleb.
Definition gtb (x y : float) : bool := SFltb y x.

(** The float of an integer, rounded to nearest. *)
Definition of_Z (z : Z) : float := binary_normalize prec emax z 0 false.
Definition of_nat (n : nat) : float := of_Z (Z.of_nat n).

Definition one : float := Eval cbv in of_Z 1.

(** [x / y] on Python floats raises when the divisor compares equal to
    zero (either sign); numpy's division does not raise. *)
Definition np_div : float -> float -> float := SFdiv prec emax.

Definition truediv (x y : float) : result float :=
  if eqb y zero then Raise ZeroDivisionError else Ok (np_div x y).

(** The builtin [max(a, b)]: the first argument stays unless the second
    compares greater. *)
Definition max (a b : float) : float := if gtb b a then b else a.

(** [np.mean] of a list of floats: the elements are summed from left to
    right, starting from zero, and the sum is divided by the count.  This is
    the order in which numpy adds fewer than eight elements; it adds longer
    arrays in blocks, which may round otherwise. *)
Definition np_sum (l : list float) : float := fold_left add l zero.

Definition np_mean (l : list float) : float :=
  np_div (np_sum l) (of_nat (List.length l)).

(** *** [float(s)]: decimal text to the nearest binary64 *)

Definition is_digit (c : ascii) : bool :=
  let n := nat_of_ascii c in ((48 <=? n) && (n <=? 57))%nat.

Definition digit_val (c : ascii) : Z := Z.of_nat (nat_of_ascii c) - 48.

(** Reads the longest run of digits at the head of [s]: the value
    accumulated on top of [acc], the number of digits read on top of [n],
    and the remainder. *)
Fixpoint digits (acc : Z) (n : nat) (s : string) : Z * nat * string :=
  match s with
  | EmptyString => (acc, n, s)
  | String c s' =>
      if is_digit c then digits (10 * acc + digit_val c) (S n) s'
      else (acc, n, s)
  end.

Definition sign_of (s : string) : bool * string :=
  match s with
  | String "-" s' => (true, s')
  | String "+" s' => (false, s')
  | _ => (false, s)
  end.

(** What follows the mantissa: nothing, or [e]/[E], an optional sign and at
    least one digit, up to the end of the text. *)
Definition exponent (s : string) : option Z :=
  match s with
  | EmptyString => Some 0%Z
  | String c s' =>
      if (Ascii.eqb c "e" || Ascii.eqb c "E")%bool then
        let (sg, s'') := sign_of s' in
        match digits 0 0 s'' with
        | (v, S _, EmptyString) => Some (if sg then (- v)%Z else v)
        | _ => None
        end
      else None
  end.

(** An unsigned decimal number as an integer mantissa and a power of ten:
    digits, an optional point and digits, at least one digit in all. *)
Definition decimal (s : string) : option (Z * Z) :=
  let '(i, ni, r1) := digits 0 0 s in
  let '(m, nf, r2) :=
    match r1 with
    | String "." r => digits i 0 r
    | _ => (i, O, r1)
    end in
  if (ni + nf =? 0)%nat then None
  else
    match exponent r2 with
    | Some e => Some (m, (e - Z.of_nat nf)%Z)
    | None => None
    end.

(** The binary64 nearest to [(-1)^sg * m * 10^e], for [0 <= m]. *)
Definition of_decimal (sg : bool) (m e : Z) : float :=
  match m with
  | Zpos p =>
      match e with
      | Zneg k =>
          let '(q, e', l) :=
            SFdiv_core_binary prec emax (Zpos p) 0 (Z.pow_pos 10 k) 0 in
          binary_round_aux prec emax sg q e' l
      | _ =>
          match (Zpos p * 10 ^ e)%Z with
          | Zpos n => binary_round prec emax sg n 0
          | _ => S754_zero sg
          end
      end
  | _ => S754_zero sg
  end.

(** Underscores may only stand between two digits. *)
Fixpoint underscores_ok (prev : ascii) (s : string) : bool :=
  match s with
  | EmptyString => negb (Ascii.eqb prev "_")
  | String c s' =>
      (if Ascii.eqb c "_" then is_digit prev
       else if Ascii.eqb prev "_" then is_digit c else true)
      && underscores_ok c s'
  end.

(** The white space that [float] passes over at both ends of an ASCII
    text: tab, line feed, vertical tab, form feed, carriage return, space. *)
Definition is_c_space (c : ascii) : bool :=
  let n := nat_of_ascii c in
  (((9 <=? n) && (n <=? 13)) || (n =? 32))%nat.

(** [float(s)]; [None] is [ValueError]. *)
Definition of_string (s : string) : option float :=
  let t := PyStr.strip_by is_c_space s in
  if underscores_ok Ascii.zero t then
    let (sg, u) := sign_of (PyStr.replace "_" "" t) in
    let w := PyStr.lower u in
    if String.eqb w "inf" || String.eqb w "infinity" then Some (S754_infinity sg)
    else if String.eqb w "nan" then Some S754_nan
    else
      match decimal u with
      | Some (m, e) => Some (of_decimal sg m e)
      | None => None
      end
  else None.

End PyFloat.

(** ** Python lists *)

Module PyList.

(** [l[i]] for a Python integer [i]: a negative index counts from the end,
    an index out of range raises [IndexError]. *)
Definition index {A : Type} (l : list A) (i : Z) : result A :=
  let n := Z.of_nat (List.length l) in
  let j := if (i <? 0)%Z then (i + n)%Z else i in
  if ((j <? 0) || (n <=? j))%Z then Raise IndexError
  else
    match nth_error l (Z.to_nat j) with
    | Some a => Ok a
    | None => Raise IndexError
    end.

(** [l[:k]]: a negative bound counts from the end, bounds are clipped. *)
Definition slice_to {A : Type} (l : list A) (k : Z) : list A :=
  let n := Z.of_nat (List.length l) in
  let j := if (k <? 0)%Z then (k + n)%Z else k in
  firstn (Z.to_nat j) l.

(** [sorted(l, key=key)] for float keys.  Python's sort is stable and
    compares keys with [<]; on keys without NaN every stable sort returns
    the same list, the one built here by insertion: an element goes in
    front of the first element of the sorted tail that is not smaller. *)
Fixpoint insert {A : Type} (key : A -> PyFloat.float) (x : A) (l : list A)
  : list A :=
  match l with
  | [] => [x]
  | y :: l' =>
      if PyFloat.ltb (key y) (key x) then y :: insert key x l'
      else x :: l
  end.

Fixpoint sorted {A : Type} (key : A -> PyFloat.float) (l : list A) : list A :=
  match l with
  | [] => []
  | x :: l' => insert key x (sorted key l')
  end.

End PyList.

(** ** Data model *)

(** A text region returned by the OCR engine: the dictionary built in
    [OCRExtractor.extract]. *)
Module Token.
Record t : Type := mk {
  text : string;
  confidence : PyFloat.float;
  bbox : list (PyFloat.float * PyFloat.float);
  center : PyFloat.float * PyFloat.float
}.
End Token.

Definition Row : Type := list Token.t.

(** A bill item: the dictionary built in [TableParser._parse_row] and read
    by the validator.  The four fields the validator requires are optional. *)
Module Item.
Record t : Type := mk {
  item_name : option string;
  item_quantity : option PyFloat.float;
  item_rate : option PyFloat.float;
  item_amount : option PyFloat.float;
  confidence : PyFloat.float;
  row_idx : nat
}.
End Item.

(** ** OCR extractor: grouping tokens into rows *)

Module OCRExtractor.

Definition center_x (it : Token.t) : PyFloat.float := fst (Token.center it).
Definition center_y (it : Token.t) : PyFloat.float := snd (Token.center it).

Section Grouping.

(** [np.mean], the one function of numpy that the grouping calls. *)
Variable mean : list PyFloat.float -> PyFloat.float.

(** The test of the loop body: [abs(item_y - current_y) <= y_tolerance],
    where [current_y] is the mean of the row built so far. *)
Definition belongs (y_tolerance : PyFloat.float) (current_row : Row)
           (item : Token.t) : bool :=
  let current_y := mean (map center_y current_row) in
  let item_y := center_y item in
  PyFloat.leb (PyFloat.abs (PyFloat.sub item_y current_y)) y_tolerance.

(** The loop over [sorted_items[1:]] and the closing of the last row. *)
Fixpoint group_loop (y_tolerance : PyFloat.float) (rows : list Row)
         (current_row : Row) (rest : list Token.t) : list Row :=
  match rest with
  | [] =>
      match current_row with
      | [] => rows
      | _ => rows ++ [current_row]
      end
  | item :: rest' =>
      if belongs y_tolerance current_row item
      then group_loop y_tolerance rows (current_row ++ [item]) rest'
      else group_loop y_tolerance (rows ++ [current_row]) [item] rest'
  end.

Definition group_by_row_with (items : list Token.t) (y_tolerance : PyFloat.float)
  : list Row :=
  match items with
  | [] => []
  | _ =>
      match PyList.sorted center_y items with
      | [] => []
      | first :: others =>
          let rows := group_loop y_tolerance [] [first] others in
          map (PyList.sorted center_x) rows
      end
  end.

End Grouping.

(** [group_by_row], with the mean of numpy. *)
Definition group_by_row : list Token.t -> PyFloat.float -> list Row :=
  group_by_row_with PyFloat.np_mean.

(** The default [y_tolerance = 10]. *)
Definition default_y_tolerance : PyFloat.float := Eval cbv in PyFloat.of_Z 10.

(** One line of the result of the OCR engine: the four corners of the box,
    the text and its confidence. *)
Definition ocr_line : Type :=
  list (PyFloat.float * PyFloat.float) * (string * PyFloat.float).

(** The token built from a line in the loop of [extract]: the text is
    stripped, the centre is the mean of the corners, coordinate by
    coordinate. *)
Definition token_of_line (line : ocr_line) : Token.t :=
  let '(bbox, (text, confidence)) := line in
  let center_x := PyFloat.np_mean (map fst bbox) in
  let center_y := PyFloat.np_mean (map snd bbox) in
  Token.mk (PyStr.strip text) confidence bbox (center_x, center_y).

(** [extract], as a function of what the OCR engine returns for the image:
    a list of pages, a page being [None] or a list of lines.  Only the first
    page is read. *)
Definition extract (results : list (option (list ocr_line))) : list Token.t :=
  match results with
  | [] => []
  | None :: _ => []
  | Some lines :: _ => map token_of_line lines
  end.

End OCRExtractor.

(** ** Table parser: rows into raw items *)

Module TableParser.

(** The rupee sign U+20B9, as its UTF-8 bytes. *)
Definition rupee : string :=
  String (ascii_of_nat 226) (String (ascii_of_nat 130)
    (String (ascii_of_nat 185) EmptyString)).

Definition _is_numeric (text : string) : bool :=
  let text := PyStr.strip text in
  if String.eqb text "" then false
  else
    let cleaned :=
      PyStr.replace "," "" (PyStr.replace "$" "" (PyStr.replace rupee "" text)) in
    match PyFloat.of_string cleaned with
    | Some _ => true
    | None => false
    end.

Definition _parse_float (text : string) : PyFloat.float :=
  let text := PyStr.strip text in
  let text :=
    PyStr.replace "Rs" "" (PyStr.replace "$" "" (PyStr.replace rupee "" text)) in
  let text := PyStr.replace "," "" text in
  match PyFloat.of_string text with
  | Some x => x
  | None => PyFloat.zero
  end.

(** The list [numeric_cols]: the positions, counted from [i], of the texts
    that [_is_numeric] accepts. *)
Fixpoint numeric_cols_from (i : nat) (texts : list string) : list nat :=
  match texts with
  | [] => []
  | text :: rest =>
      if _is_numeric text then i :: numeric_cols_from (S i) rest
      else numeric_cols_from (S i) rest
  end.

(** The confidence [0.5] of an incomplete row. *)
Definition half : PyFloat.float := Eval cbv in PyFloat.of_decimal false 5 (-1).

(** The body of the [try] block of [_parse_row]. *)
Definition _parse_row_try (row : Row) (row_idx : nat) : result (option Item.t) :=
  let texts := map Token.text row in
  let confidences := map Token.confidence row in
  let numeric_cols := numeric_cols_from 0 texts in
  if (3 <=? List.length numeric_cols)%nat then
    qty_idx <- PyList.index numeric_cols (-3) ;;
    rate_idx <- PyList.index numeric_cols (-2) ;;
    amount_idx <- PyList.index numeric_cols (-1) ;;
    let name_parts := PyList.slice_to texts (Z.of_nat qty_idx) in
    let name := PyStr.strip (PyStr.join " " name_parts) in
    qty_text <- PyList.index texts (Z.of_nat qty_idx) ;;
    rate_text <- PyList.index texts (Z.of_nat rate_idx) ;;
    amount_text <- PyList.index texts (Z.of_nat amount_idx) ;;
    let qty := _parse_float qty_text in
    let rate := _parse_float rate_text in
    let amount := _parse_float amount_text in
    qty_conf <- PyList.index confidences (Z.of_nat qty_idx) ;;
    rate_conf <- PyList.index confidences (Z.of_nat rate_idx) ;;
    amount_conf <- PyList.index confidences (Z.of_nat amount_idx) ;;
    let confidence := PyFloat.np_mean [qty_conf; rate_conf; amount_conf] in
    Ok (Some (Item.mk (Some name) (Some qty) (Some rate) (Some amount)
                      confidence row_idx))
  else if (1 <=? List.length numeric_cols)%nat then
    last_idx <- PyList.index numeric_cols (-1) ;;
    amount_text <- PyList.index texts (Z.of_nat last_idx) ;;
    let amount := _parse_float amount_text in
    let name := PyStr.strip (PyStr.join " " (PyList.slice_to texts (-1))) in
    Ok (Some (Item.mk (Some name) (Some PyFloat.one) (Some amount) (Some amount)
                      half row_idx))
  else Ok None.

Definition _parse_row (row : Row) (row_idx : nat) : result (option Item.t) :=
  if (List.length row <? 2)%nat then Ok None
  else
    match _parse_row_try row row_idx with
    | Ok r => Ok r
    | Raise _ => Ok None
    end.

(** The loop of [parse_rows] over [enumerate(rows)], for any per-row
    parser [parse]: a row whose parse raises is passed over. *)
Fixpoint parse_rows_from (parse : Row -> nat -> result (option Item.t))
         (row_idx : nat) (rows : list Row) : list Item.t :=
  match rows with
  | [] => []
  | row :: rest =>
      match parse row row_idx with
      | Ok (Some item) => item :: parse_rows_from parse (S row_idx) rest
      | Ok None => parse_rows_from parse (S row_idx) rest
      | Raise _ => parse_rows_from parse (S row_idx) rest
      end
  end.

Definition parse_rows (rows : list Row) : list Item.t :=
  parse_rows_from _parse_row 0 rows.

End TableParser.

(** ** Validator: field check, deduplication, subtotal filtering *)

Module BillValidator.

(** The lines of the returned message list, one constructor per format
    string of the source. *)
Inductive Msg : Type :=
| MsgStarting (n : nat)              (* Starting validation with {n} items *)
| MsgMissing (field : string) (item : Item.t)  (* Item missing {field}: {item} *)
| MsgZeroAmount (name : string)      (* Zero amount item: {name} *)
| MsgValid (name : string)           (* Valid: {name} *)
| MsgValidationError (e : exn)       (* Validation error: {e} *)
| MsgAfterAmount (n : nat)           (* After amount validation: {n} items *)
| MsgDuplicateRemoved (name : string) (qty rate : PyFloat.float)
                                     (* Duplicate removed: {name} (qty=.., rate=..) *)
| MsgRemovedDuplicates (n : nat)     (* Removed {n} duplicate items *)
| MsgAfterSubtotal (n : nat).        (* After subtotal filtering: {n} items *)

(** [item[key]] for a required key. *)
Definition get {A : Type} (key : string) (field : option A) : result A :=
  match field with
  | Some a => Ok a
  | None => Raise (KeyError key)
  end.

(** The body of the [try] block of [_validate_item].  The comparison of
    the relative error with the tolerance only decides whether a debug
    line is logged; the division before it may raise. *)
Definition _validate_item_try (item : Item.t) : result (bool * Msg) :=
  match Item.item_name item with
  | None => Ok (false, MsgMissing "item_name" item)
  | Some name =>
  match Item.item_quantity item with
  | None => Ok (false, MsgMissing "item_quantity" item)
  | Some qty =>
  match Item.item_rate item with
  | None => Ok (false, MsgMissing "item_rate" item)
  | Some rate =>
  match Item.item_amount item with
  | None => Ok (false, MsgMissing "item_amount" item)
  | Some amount =>
      if PyFloat.eqb amount PyFloat.zero && PyFloat.eqb qty PyFloat.zero
      then Ok (false, MsgZeroAmount name)
      else if PyFloat.gtb qty PyFloat.zero && PyFloat.gtb rate PyFloat.zero
      then
        let calculated_amount := PyFloat.mul qty rate in
        relative_error <-
          PyFloat.truediv (PyFloat.abs (PyFloat.sub amount calculated_amount))
                          (PyFloat.max amount calculated_amount) ;;
        Ok (true, MsgValid name)
      else Ok (true, MsgValid name)
  end end end end.

Definition _validate_item (item : Item.t) : bool * Msg :=
  match _validate_item_try item with
  | Ok r => r
  | Raise e => (false, MsgValidationError e)
  end.

(** The key hashed by [_create_hash]: the lower-cased, stripped name with
    the quantity and the rate.  The digest stands for the key (collisions
    of MD5 are left out), and the key text stands for the triple: a float
    prints without a bar, and two floats print alike exactly when they are
    the same float, all NaN printing alike. *)
Record fingerprint : Type := mk_fingerprint {
  fp_name : string;
  fp_qty : PyFloat.float;
  fp_rate : PyFloat.float
}.

Definition _create_hash (name : string) (qty rate : PyFloat.float) : fingerprint :=
  mk_fingerprint (PyStr.strip (PyStr.lower name)) qty rate.

Definition float_same (x y : PyFloat.float) : bool :=
  match x, y with
  | S754_zero s1, S754_zero s2 => Bool.eqb s1 s2
  | S754_infinity s1, S754_infinity s2 => Bool.eqb s1 s2
  | S754_nan, S754_nan => true
  | S754_finite s1 m1 e1, S754_finite s2 m2 e2 =>
      Bool.eqb s1 s2 && Pos.eqb m1 m2 && Z.eqb e1 e2
  | _, _ => false
  end.

Definition fingerprint_eqb (h1 h2 : fingerprint) : bool :=
  String.eqb (fp_name h1) (fp_name h2)
  && float_same (fp_qty h1) (fp_qty h2)
  && float_same (fp_rate h1) (fp_rate h2).

(** [hash_key in seen_hashes] *)
Definition seen (hash_key : fingerprint) (seen_hashes : list fingerprint) : bool :=
  existsb (fingerprint_eqb hash_key) seen_hashes.

(** The state of the loop of [_remove_duplicates]. *)
Record dedup_state : Type := mk_dedup {
  messages : list Msg;
  seen_hashes : list fingerprint;
  deduplicated : list Item.t;
  duplicates_found : nat
}.

Definition dedup_step (st : dedup_state) (item : Item.t) : result dedup_state :=
  name <- get "item_name" (Item.item_name item) ;;
  qty <- get "item_quantity" (Item.item_quantity item) ;;
  rate <- get "item_rate" (Item.item_rate item) ;;
  let hash_key := _create_hash name qty rate in
  if negb (seen hash_key (seen_hashes st)) then
    Ok (mk_dedup (messages st) (hash_key :: seen_hashes st)
                 (deduplicated st ++ [item]) (duplicates_found st))
  else
    Ok (mk_dedup (messages st ++ [MsgDuplicateRemoved name qty rate])
                 (seen_hashes st) (deduplicated st)
                 (duplicates_found st + 1)).

Fixpoint dedup_loop (st : dedup_state) (items : list Item.t) : result dedup_state :=
  match items with
  | [] => Ok st
  | item :: rest => st' <- dedup_step st item ;; dedup_loop st' rest
  end.

Definition _remove_duplicates (items : list Item.t)
  : result (list Item.t * list Msg) :=
  st <- dedup_loop (mk_dedup [] [] [] 0) items ;;
  let messages :=
    if (0 <? duplicates_found st)%nat
    then messages st ++ [MsgRemovedDuplicates (duplicates_found st)]
    else messages st in
  Ok (deduplicated st, messages).

Definition subtotal_keywords : list string :=
  ["subtotal"; "sub-total"; "total"; "tax"; "gst"; "discount"].

Fixpoint filter_loop (filtered : list Item.t) (items : list Item.t)
  : result (list Item.t) :=
  match items with
  | [] => Ok filtered
  | item :: rest =>
      item_name <- get "item_name" (Item.item_name item) ;;
      let name := PyStr.lower item_name in
      qty <- get "item_quantity" (Item.item_quantity item) ;;
      rate <- get "item_rate" (Item.item_rate item) ;;
      if existsb (fun keyword => PyStr.contains keyword name) subtotal_keywords
      then filter_loop filtered rest
      else if PyFloat.eqb qty PyFloat.zero
              || (PyFloat.eqb qty PyFloat.one && PyFloat.eqb rate PyFloat.zero)
      then filter_loop filtered rest
      else filter_loop (filtered ++ [item]) rest
  end.

Definition _filter_subtotals (items : list Item.t) : result (list Item.t) :=
  filter_loop [] items.

(** Step 1 of [validate_and_clean]: the loop over [_validate_item]. *)
Fixpoint validate_loop (validated_items : list Item.t) (messages : list Msg)
         (items : list Item.t) : list Item.t * list Msg :=
  match items with
  | [] => (validated_items, messages)
  | item :: rest =>
      let (is_valid, msg) := _validate_item item in
      if is_valid then validate_loop (validated_items ++ [item]) messages rest
      else validate_loop validated_items (messages ++ [msg]) rest
  end.

Definition validate_and_clean (items : list Item.t)
  : result (list Item.t * list Msg) :=
  let messages := [MsgStarting (List.length items)] in
  let (validated_items, messages) := validate_loop [] messages items in
  let messages := messages ++ [MsgAfterAmount (List.length validated_items)] in
  r <- _remove_duplicates validated_items ;;
  let (deduplicated, dup_msgs) := r in
  let messages := messages ++ dup_msgs in
  final_items <- _filter_subtotals deduplicated ;;
  let messages := messages ++ [MsgAfterSubtotal (List.length final_items)] in
  Ok (final_items, messages).

(** [calculate_total]: the amounts added from left to right, starting from
    zero. *)
Definition calculate_total (items : list Item.t) : result PyFloat.float :=
  fold_left (fun acc item =>
               total <- acc ;;
               amount <- get "item_amount" (Item.item_amount item) ;;
               Ok (PyFloat.add total amount))
            items (Ok PyFloat.zero).

End BillValidator.

(** ** The core of the request handler: steps 4 to 6 of [extract_bill_data] *)

Definition extract_core (ocr_results : list Token.t)
  : result (list Item.t * list BillValidator.Msg) :=
  let rows := OCRExtractor.group_by_row ocr_results OCRExtractor.default_y_tolerance in
  let raw_items := TableParser.parse_rows rows in
  BillValidator.validate_and_clean raw_items.

(** ** Subsequences *)

(** [subseq l1 l2]: [l1] is [l2] with some elements left out, the others
    in their order. *)
Inductive subseq {A : Type} : list A -> list A -> Prop :=
| subseq_nil : subseq [] []
| subseq_skip : forall x l1 l2, subseq l1 l2 -> subseq l1 (x :: l2)
| subseq_keep : forall x l1 l2, subseq l1 l2 -> subseq (x :: l1) (x :: l2).

(** ** The stages of the validator as functions of the input *)

Module ValidatorStages.
Import BillValidator.

(** The outcome and the message of the field/amount check. *)
Definition valid (item : Item.t) : bool := fst (_validate_item item).
Definition reason (item : Item.t) : Msg := snd (_validate_item item).
Definition invalid (item : Item.t) : bool := negb (valid item).

(** An item that carries its name, quantity and rate. *)
Definition complete (item : Item.t) : Prop :=
  exists name qty rate,
    Item.item_name item = Some name
    /\ Item.item_quantity item = Some qty
    /\ Item.item_rate item = Some rate.

(** The fingerprint of an item; the defaults are never used on a complete
    item. *)
Definition fp (item : Item.t) : fingerprint :=
  _create_hash (match Item.item_name item with Some n => n | None => "" end)
               (match Item.item_quantity item with Some q => q | None => PyFloat.zero end)
               (match Item.item_rate item with Some r => r | None => PyFloat.zero end).

Definition dup_msg (item : Item.t) : Msg :=
  MsgDuplicateRemoved
    (match Item.item_name item with Some n => n | None => "" end)
    (match Item.item_quantity item with Some q => q | None => PyFloat.zero end)
    (match Item.item_rate item with Some r => r | None => PyFloat.zero end).

(** What the deduplication loop keeps, what it reports, and what it has
    seen at the end, given the fingerprints seen before. *)
Fixpoint dedup_keep (sn : list fingerprint) (items : list Item.t) : list Item.t :=
  match items with
  | [] => []
  | item :: rest =>
      if seen (fp item) sn then dedup_keep sn rest
      else item :: dedup_keep (fp item :: sn) rest
  end.

Fixpoint dedup_dropped (sn : list fingerprint) (items : list Item.t) : list Item.t :=
  match items with
  | [] => []
  | item :: rest =>
      if seen (fp item) sn then item :: dedup_dropped sn rest
      else dedup_dropped (fp item :: sn) rest
  end.

Fixpoint dedup_seen (sn : list fingerprint) (items : list Item.t) : list fingerprint :=
  match items with
  | [] => sn
  | item :: rest =>
      if seen (fp item) sn then dedup_seen sn rest
      else dedup_seen (fp item :: sn) rest
  end.

(** The test of the loop body of [_filter_subtotals], on the fields of
    an item. *)
Definition is_subtotal (item : Item.t) : bool :=
  match Item.item_name item, Item.item_quantity item, Item.item_rate item with
  | Some item_name, Some qty, Some rate =>
      existsb (fun keyword => PyStr.contains keyword (PyStr.lower item_name))
              subtotal_keywords
      || (PyFloat.eqb qty PyFloat.zero
          || (PyFloat.eqb qty PyFloat.one && PyFloat.eqb rate PyFloat.zero))
  | _, _, _ => false
  end.

Definition kept (item : Item.t) : bool := negb (is_subtotal item).

Definition validated (items : list Item.t) : list Item.t := filter valid items.

Definition deduped (items : list Item.t) : list Item.t :=
  dedup_keep [] (validated items).

Definition duplicates (items : list Item.t) : list Item.t :=
  dedup_dropped [] (validated items).

Definition final (items : list Item.t) : list Item.t :=
  filter kept (deduped items).

Definition dup_msgs (items : list Item.t) : list Msg :=
  map dup_msg (duplicates items)
  ++ (if (0 <? List.length (duplicates items))%nat
      then [MsgRemovedDuplicates (List.length (duplicates items))]
      else []).

End ValidatorStages.

(** ** The validator on any text *)

(** [BillValidator] above takes the names as texts that [str.encode]
    accepts, and the fingerprint as always there.  Here a name is any text:
    [key.encode()] in [_create_hash] raises on a lone surrogate, and nothing
    in [_remove_duplicates] or in [validate_and_clean] catches it.  The
    quantity and the rate print in ASCII, so the key is refused exactly when
    the lower-cased, stripped name is. *)
Module RawValidator.
Import BillValidator.

Definition _create_hash (name : string) (qty rate : PyFloat.float)
  : result fingerprint :=
  key <- PyStr.encode (PyStr.strip (PyStr.lower name)) ;;
  Ok (mk_fingerprint key qty rate).

Definition dedup_step (st : dedup_state) (item : Item.t) : result dedup_state :=
  name <- get "item_name" (Item.item_name item) ;;
  qty <- get "item_quantity" (Item.item_quantity item) ;;
  rate <- get "item_rate" (Item.item_rate item) ;;
  hash_key <- _create_hash name qty rate ;;
  if negb (seen hash_key (seen_hashes st)) then
    Ok (mk_dedup (messages st) (hash_key :: seen_hashes st)
                 (deduplicated st ++ [item]) (duplicates_found st))
  else
    Ok (mk_dedup (messages st ++ [MsgDuplicateRemoved name qty rate])
                 (seen_hashes st) (deduplicated st)
                 (duplicates_found st + 1)).

Fixpoint dedup_loop (st : dedup_state) (items : list Item.t) : result dedup_state :=
  match items with
  | [] => Ok st
  | item :: rest => st' <- dedup_step st item ;; dedup_loop st' rest
  end.

Definition _remove_duplicates (items : list Item.t)
  : result (list Item.t * list Msg) :=
  st <- dedup_loop (mk_dedup [] [] [] 0) items ;;
  let messages :=
    if (0 <? duplicates_found st)%nat
    then messages st ++ [MsgRemovedDuplicates (duplicates_found st)]
    else messages st in
  Ok (deduplicated st, messages).

Definition validate_and_clean (items : list Item.t)
  : result (list Item.t * list Msg) :=
  let messages := [MsgStarting (List.length items)] in
  let (validated_items, messages) := validate_loop [] messages items in
  let messages := messages ++ [MsgAfterAmount (List.length validated_items)] in
  r <- _remove_duplicates validated_items ;;
  let (deduplicated, dup_msgs) := r in
  let messages := messages ++ dup_msgs in
  final_items <- _filter_subtotals deduplicated ;;
  let messages := messages ++ [MsgAfterSubtotal (List.length final_items)] in
  Ok (final_items, messages).

(** Steps 4 to 6 of [extract_bill_data]. *)
Definition extract_core (ocr_results : list Token.t)
  : result (list Item.t * list Msg) :=
  let rows := OCRExtractor.group_by_row ocr_results OCRExtractor.default_y_tolerance in
  let raw_items := TableParser.parse_rows rows in
  validate_and_clean raw_items.

End RawValidator.

(** ** The wording of the specification *)

Module Spec.
Import BillValidator.

(** The subtotal rule as the specification words it: the lower-cased name
    contains one of the six keywords, or the quantity is 0, or the quantity
    is exactly 1 and the rate is 0. *)
Definition subtotal_rule (name : string) (qty rate : PyFloat.float) : bool :=
  (PyStr.contains "subtotal" (PyStr.lower name)
   || PyStr.contains "sub-total" (PyStr.lower name)
   || PyStr.contains "total" (PyStr.lower name)
   || PyStr.contains "tax" (PyStr.lower name)
   || PyStr.contains "gst" (PyStr.lower name)
   || PyStr.contains "discount" (PyStr.lower name))
  || PyFloat.eqb qty PyFloat.zero
  || (PyFloat.eqb qty PyFloat.one && PyFloat.eqb rate PyFloat.zero).

Definition dropped_by_subtotal_rule (item : Item.t) : bool :=
  match Item.item_name item, Item.item_quantity item, Item.item_rate item with
  | Some name, Some qty, Some rate => subtotal_rule name qty rate
  | _, _, _ => false
  end.

(** A line of the audit trail that reports the drop of one item with its
    reason. *)
Definition is_drop_line (m : Msg) : bool :=
  match m with
  | MsgMissing _ _ | MsgZeroAmount _ | MsgValidationError _
  | MsgDuplicateRemoved _ _ _ => true
  | _ => false
  end.

(** A line of the audit trail that reports how many items there are: at the
    start, or left after a stage. *)
Definition is_count_line (m : Msg) : bool :=
  match m with
  | MsgStarting _ | MsgAfterAmount _ | MsgAfterSubtotal _ => true
  | _ => false
  end.

(** The audit trail the specification asks for: the initial count and the
    count left after each of the three stages, and one line per dropped
    item. *)
Definition audit_trail_complete (items final_items : list Item.t)
           (messages : list Msg) : Prop :=
  4 <= List.length (filter is_count_line messages)
  /\ List.length items - List.length final_items
     <= List.length (filter is_drop_line messages).

(** Numeric-token detection as the specification words it: the text, with
    the currency markers (rupee sign, dollar sign, Rs) and the commas taken
    out, parses as a float. *)
Definition numeric_rule (text : string) : bool :=
  let cleaned :=
    PyStr.replace "," ""
      (PyStr.replace "Rs" ""
         (PyStr.replace "$" "" (PyStr.replace TableParser.rupee "" text))) in
  match PyFloat.of_string cleaned with
  | Some _ => true
  | None => false
  end.

(** The positions of the numeric tokens of a row, from left to right. *)
Definition numeric_positions (texts : list string) : list nat :=
  filter (fun j => TableParser._is_numeric (nth j texts ""))
         (seq 0 (List.length texts)).

(** The item that the specification describes for a row whose last three
    numeric tokens stand at [qty_idx], [rate_idx] and [amount_idx], with the
    name passed as an argument. *)
Definition three_column_item (row : Row) (row_idx : nat) (name : string)
           (qty_idx rate_idx amount_idx : nat) : Item.t :=
  let texts := map Token.text row in
  let confidences := map Token.confidence row in
  Item.mk (Some name)
          (Some (TableParser._parse_float (nth qty_idx texts "")))
          (Some (TableParser._parse_float (nth rate_idx texts "")))
          (Some (TableParser._parse_float (nth amount_idx texts "")))
          (PyFloat.np_mean [nth qty_idx confidences PyFloat.zero;
                            nth rate_idx confidences PyFloat.zero;
                            nth amount_idx confidences PyFloat.zero])
          row_idx.

(** The hypothesis of the row-grouping property as the specification words
    it: the [center.y] of any two tokens differ by at most the tolerance. *)
Definition pairwise_within (y_tolerance : PyFloat.float) (items : list Token.t)
  : bool :=
  forallb (fun a =>
             forallb (fun b =>
                        PyFloat.leb
                          (PyFloat.abs (PyFloat.sub (OCRExtractor.center_y a)
                                                    (OCRExtractor.center_y b)))
                          y_tolerance)
                     items)
          items.

(** Every token of [rest], taken in turn, lies within the tolerance of the
    mean of the tokens before it, [current] included. *)
Fixpoint within_running_mean (mean : list PyFloat.float -> PyFloat.float)
         (y_tolerance : PyFloat.float) (current : Row) (rest : list Token.t)
  : bool :=
  match rest with
  | [] => true
  | item :: rest' =>
      OCRExtractor.belongs mean y_tolerance current item
      && within_running_mean mean y_tolerance (current ++ [item]) rest'
  end.

Definition all_within_running_mean (mean : list PyFloat.float -> PyFloat.float)
           (y_tolerance : PyFloat.float) (sorted_items : list Token.t) : bool :=
  match sorted_items with
  | [] => true
  | first :: others => within_running_mean mean y_tolerance [first] others
  end.

(** A row in ascending order of [center.x]. *)
Definition ascending_x (row : Row) : Prop :=
  Sorted (fun a b => PyFloat.leb (OCRExtractor.center_x a) (OCRExtractor.center_x b) = true)
         row.

(** [x >= 0] on floats. *)
Definition non_negative (x : PyFloat.float) : bool := PyFloat.leb PyFloat.zero x.

(** A float that is not negative and not NaN: a zero, a finite number or an
    infinity with the sign bit clear. *)
Definition positive_or_zero (x : PyFloat.float) : Prop :=
  match x with
  | S754_zero s => s = false
  | S754_infinity s => s = false
  | S754_finite s _ _ => s = false
  | S754_nan => False
  end.

(** The figures of an item. *)
Definition figures (item : Item.t) : list (option PyFloat.float) :=
  [Item.item_quantity item; Item.item_rate item; Item.item_amount item].

(** The text that [_parse_float] hands to [float], less the white space
    that [float] passes over at both ends. *)
Definition cleaned_text (text : string) : string :=
  PyStr.strip_by PyFloat.is_c_space
    (PyStr.replace "," ""
       (PyStr.replace "Rs" ""
          (PyStr.replace "$" ""
             (PyStr.replace TableParser.rupee "" (PyStr.strip text))))).

(** A token with a leading minus sign, once the currency markers are
    removed. *)
Definition leading_minus (text : string) : bool :=
  match cleaned_text text with
  | String "-" _ => true
  | _ => false
  end.

(** A text that does not start with a character that [sp] accepts. *)
Definition clean_start (sp : ascii -> bool) (s : string) : Prop :=
  match s with
  | EmptyString => True
  | String c _ => sp c = false
  end.

(** The item that [_parse_row] builds for an incomplete row whose last
    numeric token stands at [last_idx]. *)
Definition fallback_item (row : Row) (row_idx : nat) (last_idx : nat) : Item.t :=
  let texts := map Token.text row in
  let amount := TableParser._parse_float (nth last_idx texts "") in
  Item.mk (Some (PyStr.strip (PyStr.join " " (removelast texts))))
          (Some PyFloat.one) (Some amount) (Some amount)
          TableParser.half row_idx.

(** The character [c] stands somewhere in the text [s]. *)
Definition occurs (c : ascii) (s : string) : Prop :=
  In c (list_ascii_of_string s).

End Spec.

(** ** The real value of a float *)

Module FloatValue.
Import Reals.
Local Open Scope R_scope.

(** The power of two [2^e], for any integer [e]. *)
Definition bpow (e : Z) : R := powerRZ 2 e.

(** The real number that a float stands for; zero for what is no number. *)
Definition value (x : PyFloat.float) : R :=
  match x with
  | S754_finite s m e =>
      (if s then - IZR (Zpos m) else IZR (Zpos m)) * bpow e
  | _ => 0
  end.

(** A binary64 number that is zero or positive: the mantissa and the
    exponent of a finite number are those of the format. *)
Definition nonneg_finite (x : PyFloat.float) : Prop :=
  match x with
  | S754_zero _ => True
  | S754_finite false m e => SpecFloat.bounded PyFloat.prec PyFloat.emax m e = true
  | _ => False
  end.

(** [r] is what a real [v >= 0] rounds to: a binary64 number or
    [+infinity], on the same side as [v] of every binary64 number. *)
Definition rounds_to (v : R) (r : PyFloat.float) : Prop :=
  (r = S754_infinity false \/ nonneg_finite r)
  /\ (forall w, nonneg_finite w -> v <= value w ->
                nonneg_finite r /\ value r <= value w)
  /\ (forall w, nonneg_finite w -> value w <= v ->
                r = S754_infinity false \/ value w <= value r).

(** The record [mrs] at exponent [e] locates the real [v]: [v] lies in the
    interval of length [2^e] that starts at the mantissa, at its start
    exactly when neither the round bit nor the sticky bit is set. *)
Definition encloses (mrs : shr_record) (e : Z) (v : R) : Prop :=
  (0 <= shr_m mrs)%Z
  /\ IZR (shr_m mrs) * bpow e <= v < IZR (shr_m mrs + 1) * bpow e
  /\ (if shr_r mrs || shr_s mrs
      then IZR (shr_m mrs) * bpow e < v
      else v = IZR (shr_m mrs) * bpow e).

(** The exponent [e] is the one the format gives to the mantissa [m]. *)
Definition canonical (m e : Z) : Prop :=
  fexp PyFloat.prec PyFloat.emax (Zdigits2 m + e) = e.

(** A binary64 number whose value lies between the whole numbers [lo] and
    [hi]. *)
Definition in_band (lo hi : Z) (y : PyFloat.float) : Prop :=
  nonneg_finite y /\ IZR lo <= value y <= IZR hi.

(** The same with the comparisons of the code. *)
Definition within_band (lo hi : Z) (y : PyFloat.float) : bool :=
  valid_binary PyFloat.prec PyFloat.emax y
  && PyFloat.leb (PyFloat.of_Z lo) y
  && PyFloat.leb y (PyFloat.of_Z hi).

(** [s] is the sum of the numbers of [l], added in some order: two by two,
    in blocks or from left to right, from zero or from the first number. *)
Inductive summed : list PyFloat.float -> PyFloat.float -> Prop :=
| summed_nil : summed [] PyFloat.zero
| summed_one : forall y, summed [y] y
| summed_add : forall l l1 l2 s1 s2,
    Permutation l (l1 ++ l2) -> summed l1 s1 -> summed l2 s2 ->
    summed l (PyFloat.add s1 s2).

(** A mean that adds the numbers in some order and divides the sum by
    their count, as [np.mean] does on a list of floats. *)
Definition sums_and_divides (mean : list PyFloat.float -> PyFloat.float) : Prop :=
  forall ys, ys <> [] ->
    exists s, summed ys s
              /\ mean ys = PyFloat.np_div s (PyFloat.of_nat (List.length ys)).

End FloatValue.

(** ** Concrete inputs *)

Module Examples.

(** The float written [s] in decimal; NaN when [s] is no number. *)
Definition fl (s : string) : PyFloat.float :=
  match PyFloat.of_string s with
  | Some x => x
  | None => PyFloat.nan
  end.

Definition item (name qty rate amount : string) : Item.t :=
  Item.mk (Some name) (Some (fl qty)) (Some (fl rate)) (Some (fl amount))
          (fl "0.9") 0.

(** A tax line with plausible figures. *)
Definition gst_item : Item.t := item "GST 18%" "2" "9" "18".

Definition paracetamol : Item.t := item "Paracetamol" "10" "5" "50".

(** A token with text [text] and confidence 0.9, centred at ([x], [y]). *)
Definition tok (text x y : string) : Token.t :=
  Token.mk text (fl "0.9") [] (fl x, fl y).

(** An item whose quantity and rate are positive while their product is
    below the smallest positive float, and the row it is parsed from. *)
Definition underflow_item : Item.t :=
  Item.mk (Some "x") (Some (fl "1e-200")) (Some (fl "1e-200")) (Some (fl "0"))
          (fl "0.9") 0.

Definition underflow_row : Row :=
  [tok "x" "10" "50"; tok "1e-200" "100" "50"; tok "1e-200" "150" "50";
   tok "0" "200" "50"].

(** A row whose figures carry the marker Rs. *)
Definition rs_row : Row :=
  [tok "Consultation" "10" "50"; tok "1" "100" "50"; tok "Rs500" "150" "50";
   tok "Rs500" "200" "50"].

(** A row whose first token is empty. *)
Definition empty_first_row : Row :=
  [tok "" "10" "50"; tok "A" "50" "50"; tok "1" "100" "50"; tok "2" "150" "50";
   tok "3" "200" "50"].

Definition consultation_row : Row :=
  [tok "Consultation" "10" "50"; tok "Fee" "50" "50"; tok "1" "100" "50";
   tok "500" "150" "50"; tok "500" "200" "50"].

(** Four tokens whose [center.y] are pairwise within 10: three at 10.7 and
    one at 20.7. *)
Definition drift_tokens : list Token.t :=
  [tok "a" "10" "10.7"; tok "b" "60" "10.7"; tok "c" "110" "10.7";
   tok "d" "160" "20.7"].

(** Three tokens at the same, very large, [center.y]. *)
Definition huge_tokens : list Token.t :=
  [tok "a" "10" "1e308"; tok "b" "60" "1e308"; tok "c" "110" "1e308"].

(** The four tokens of one printed line, out of order. *)
Definition line_tokens : list Token.t :=
  [tok "10" "100" "50"; tok "Paracetamol" "10" "50"; tok "50" "200" "51";
   tok "5" "150" "49"].

(** A row whose figures carry a leading minus sign. *)
Definition negative_row : Row :=
  [tok "Refund" "10" "50"; tok "-1" "100" "50"; tok "5" "150" "50";
   tok "-5" "200" "50"].

(** The eight tokens of two printed lines, thirty pixels apart. *)
Definition two_line_tokens : list Token.t :=
  [tok "10" "100" "50"; tok "Paracetamol" "10" "50"; tok "50" "200" "51";
   tok "5" "150" "49"; tok "2" "100" "80"; tok "Syringe" "10" "80";
   tok "30" "200" "81"; tok "15" "150" "79"].

(** What the OCR engine may return: a first page of two lines with white
    space around the texts, and a second page. *)
Definition ocr_pages : list (option (list OCRExtractor.ocr_line)) :=
  [Some [([(fl "0", fl "0"); (fl "40", fl "0"); (fl "40", fl "10"); (fl "0", fl "10")],
          (" Consultation ", fl "0.98"));
         ([(fl "100", fl "1"); (fl "120", fl "1"); (fl "120", fl "11"); (fl "100", fl "11")],
          ("500 ", fl "0.91"))];
   Some [([], ("second page", fl "0.5"))]].

(** An incomplete row: the amount stands before a unit. *)
Definition incomplete_row : Row :=
  [tok "Dressing" "10" "50"; tok "250" "100" "50"; tok "INR" "150" "50"].

(** An item whose amount is far from quantity times rate. *)
Definition mismatch_item : Item.t := item "Consultation" "2" "100" "500".

(** The same purchase twice, in other letter case and with white space
    around the name, then another purchase; and the first purchase once
    more, with another amount. *)
Definition repeated_items : list Item.t :=
  [paracetamol; item " PARACETAMOL " "10" "5" "50"; item "Syringe" "2" "15" "30"].

Definition late_duplicate : Item.t := item "paracetamol" "10" "5" "55".

(** A line printed twice on a bill: the same texts, read lower on the page
    and with less confidence the second time. *)
Definition repeated_rows : list Row :=
  [consultation_row;
   map (fun t => Token.mk (Token.text t) (fl "0.5") []
                          (fst (Token.center t), fl "90"))
       consultation_row].

(** A row of figures without a description. *)
Definition figures_row : Row :=
  [tok "2" "100" "50"; tok "15" "150" "50"; tok "30" "200" "50"].

(** The name Caf followed by the lone surrogate U+DCE9, as a decoding with
    [surrogateescape] gives for the Latin-1 bytes of a name ending in e
    acute; and a row and a bill that hold it. *)
Definition surrogate_name : string :=
  "Caf" ++ String (ascii_of_nat 237) (String (ascii_of_nat 179)
             (String (ascii_of_nat 169) EmptyString)).

Definition surrogate_tokens : list Token.t :=
  [tok surrogate_name "10" "50"; tok "2" "100" "50"; tok "15" "150" "50";
   tok "30" "200" "50"].

Definition surrogate_item : Item.t :=
  Item.mk (Some surrogate_name) (Some (fl "2")) (Some (fl "15")) (Some (fl "30"))
          (PyFloat.np_mean [fl "0.9"; fl "0.9"; fl "0.9"]) 0.

End Examples.

(** * Properties *)

(** ** Subsequences *)

Lemma subseq_refl {A : Type} (l : list A) : subseq l l.
Proof. induction l; constructor; assumption. Qed.

Lemma subseq_trans {A : Type} (l1 l2 l3 : list A) :
  subseq l1 l2 -> subseq l2 l3 -> subseq l1 l3.
Proof.
  intros H12 H23. revert l1 H12.
  induction H23 as [| x l2 l3 H23 IH | x l2 l3 H23 IH]; intros l1 H12.
  - assumption.
  - apply subseq_skip. apply IH. assumption.
  - inversion H12; subst.
    + apply subseq_skip. apply IH. assumption.
    + apply subseq_keep. apply IH. assumption.
Qed.

Lemma subseq_filter {A : Type} (f : A -> bool) (l : list A) :
  subseq (filter f l) l.
Proof.
  induction l as [| x l IH]; simpl.
  - constructor.
  - destruct (f x); constructor; assumption.
Qed.

Lemma subseq_In {A : Type} (l1 l2 : list A) (x : A) :
  subseq l1 l2 -> In x l1 -> In x l2.
Proof.
  induction 1 as [| y l1 l2 H IH | y l1 l2 H IH]; simpl; intuition.
Qed.

Lemma subseq_Forall {A : Type} (P : A -> Prop) (l1 l2 : list A) :
  subseq l1 l2 -> Forall P l2 -> Forall P l1.
Proof.
  intros Hs Hall. rewrite Forall_forall in *.
  intros x Hx. apply Hall. eapply subseq_In; eassumption.
Qed.

(** ** Facts about the validator *)

Module ValidatorFacts.
Import BillValidator ValidatorStages.

Lemma valid_complete (item : Item.t) : valid item = true -> complete item.
Proof.
  unfold valid, _validate_item, _validate_item_try, complete.
  destruct (Item.item_name item) as [name|]; [| discriminate].
  destruct (Item.item_quantity item) as [qty|]; [| discriminate].
  destruct (Item.item_rate item) as [rate|]; [| discriminate].
  intros _. exists name, qty, rate. auto.
Qed.

Lemma validate_loop_spec (items validated_items : list Item.t) (msgs : list Msg) :
  validate_loop validated_items msgs items
  = (validated_items ++ filter valid items,
     msgs ++ map reason (filter invalid items)).
Proof.
  revert validated_items msgs.
  induction items as [| item rest IH]; intros acc msgs.
  - simpl. now rewrite !app_nil_r.
  - cbn [validate_loop filter].
    assert (Hv : valid item = fst (_validate_item item)) by reflexivity.
    assert (Hr : reason item = snd (_validate_item item)) by reflexivity.
    unfold invalid at 1.
    destruct (_validate_item item) as [is_valid msg]. simpl in Hv, Hr.
    rewrite Hv. destruct is_valid; cbn [negb map]; rewrite IH, <- app_assoc.
    + reflexivity.
    + now rewrite Hr.
Qed.

(** *** Fingerprints *)

Lemma float_same_eq (x y : PyFloat.float) : float_same x y = true <-> x = y.
Proof.
  destruct x as [s1|s1| |s1 m1 e1], y as [s2|s2| |s2 m2 e2]; simpl;
    try (split; [discriminate | congruence]).
  - rewrite Bool.eqb_true_iff. split; congruence.
  - rewrite Bool.eqb_true_iff. split; congruence.
  - split; reflexivity.
  - rewrite !andb_true_iff, Bool.eqb_true_iff, Pos.eqb_eq, Z.eqb_eq.
    split; [intros [[-> ->] ->]; reflexivity | intros H; inversion H; auto].
Qed.

Lemma fingerprint_eqb_eq (h1 h2 : fingerprint) :
  fingerprint_eqb h1 h2 = true <-> h1 = h2.
Proof.
  destruct h1 as [n1 q1 r1], h2 as [n2 q2 r2].
  unfold fingerprint_eqb; simpl.
  rewrite !andb_true_iff, String.eqb_eq, !float_same_eq.
  split; [intros [[-> ->] ->]; reflexivity | intros H; inversion H; auto].
Qed.

Lemma seen_In (h : fingerprint) (l : list fingerprint) :
  seen h l = true <-> In h l.
Proof.
  unfold seen. rewrite existsb_exists. split.
  - intros [x [Hin Heq]]. apply fingerprint_eqb_eq in Heq. now subst.
  - intros Hin. exists h. split; [assumption | now apply fingerprint_eqb_eq].
Qed.

Lemma dedup_loop_spec (items : list Item.t) (st : dedup_state) :
  Forall complete items ->
  dedup_loop st items
  = Ok (mk_dedup (messages st ++ map dup_msg (dedup_dropped (seen_hashes st) items))
                 (dedup_seen (seen_hashes st) items)
                 (deduplicated st ++ dedup_keep (seen_hashes st) items)
                 (duplicates_found st
                  + List.length (dedup_dropped (seen_hashes st) items))).
Proof.
  revert st. induction items as [| item rest IH]; intros st Hall.
  - simpl. rewrite !app_nil_r, Nat.add_0_r. now destruct st.
  - inversion Hall as [| ? ? Hc Hrest]; subst.
    destruct Hc as (name & qty & rate & Hn & Hq & Hr).
    assert (Hfp : fp item = _create_hash name qty rate)
      by (unfold fp; now rewrite Hn, Hq, Hr).
    assert (Hdm : dup_msg item = MsgDuplicateRemoved name qty rate)
      by (unfold dup_msg; now rewrite Hn, Hq, Hr).
    cbn [dedup_loop dedup_dropped dedup_keep dedup_seen].
    unfold dedup_step. rewrite Hn, Hq, Hr. cbn [get bind]. rewrite Hfp.
    destruct (seen (_create_hash name qty rate) (seen_hashes st)) eqn:Hs;
      cbn [negb bind]; rewrite IH by assumption;
      cbn [messages seen_hashes deduplicated duplicates_found map List.length].
    + rewrite Hdm, <- app_assoc. cbn [app]. do 2 f_equal. lia.
    + rewrite <- app_assoc. reflexivity.
Qed.

Lemma dedup_keep_subseq (sn : list fingerprint) (items : list Item.t) :
  subseq (dedup_keep sn items) items.
Proof.
  revert sn. induction items as [| item rest IH]; intros sn; simpl.
  - constructor.
  - destruct (seen (fp item) sn); constructor; apply IH.
Qed.

Lemma dedup_keep_dropped_length (sn : list fingerprint) (items : list Item.t) :
  List.length (dedup_keep sn items) + List.length (dedup_dropped sn items)
  = List.length items.
Proof.
  revert sn. induction items as [| item rest IH]; intros sn; simpl.
  - reflexivity.
  - destruct (seen (fp item) sn); simpl.
    + specialize (IH sn). lia.
    + specialize (IH (fp item :: sn)). lia.
Qed.

(** *** The subtotal filter *)

Lemma filter_loop_spec (items filtered : list Item.t) :
  Forall complete items ->
  filter_loop filtered items = Ok (filtered ++ filter kept items).
Proof.
  revert filtered. induction items as [| item rest IH]; intros filtered Hall.
  - simpl. now rewrite app_nil_r.
  - inversion Hall as [| ? ? Hc Hrest]; subst.
    destruct Hc as (name & qty & rate & Hn & Hq & Hr).
    assert (Hk : is_subtotal item
                 = (existsb (fun keyword => PyStr.contains keyword (PyStr.lower name))
                            subtotal_keywords
                    || (PyFloat.eqb qty PyFloat.zero
                        || (PyFloat.eqb qty PyFloat.one
                            && PyFloat.eqb rate PyFloat.zero))))
      by (unfold is_subtotal; now rewrite Hn, Hq, Hr).
    cbn [filter_loop filter]. rewrite Hn, Hq, Hr. cbn [get bind].
    unfold kept at 1. rewrite Hk.
    destruct (existsb (fun keyword => PyStr.contains keyword (PyStr.lower name))
                      subtotal_keywords); cbn [orb negb].
    + apply IH; assumption.
    + destruct (PyFloat.eqb qty PyFloat.zero
                || PyFloat.eqb qty PyFloat.one && PyFloat.eqb rate PyFloat.zero);
        cbn [negb].
      * apply IH; assumption.
      * rewrite IH by assumption. now rewrite <- app_assoc.
Qed.

(** *** The three stages as functions of the input *)

Lemma validated_complete (items : list Item.t) :
  Forall complete (validated items).
Proof.
  apply Forall_forall. intros x Hx. apply filter_In in Hx.
  apply valid_complete. tauto.
Qed.

Lemma deduped_complete (items : list Item.t) :
  Forall complete (deduped items).
Proof.
  eapply subseq_Forall; [apply dedup_keep_subseq | apply validated_complete].
Qed.

Lemma remove_duplicates_spec (items : list Item.t) :
  _remove_duplicates (validated items) = Ok (deduped items, dup_msgs items).
Proof.
  unfold _remove_duplicates.
  rewrite dedup_loop_spec by apply validated_complete.
  cbn [bind messages seen_hashes deduplicated duplicates_found app Nat.add].
  unfold deduped, dup_msgs, duplicates.
  destruct (0 <? List.length (dedup_dropped [] (validated items)))%nat.
  - reflexivity.
  - now rewrite app_nil_r.
Qed.

Theorem validate_and_clean_spec (items : list Item.t) :
  validate_and_clean items
  = Ok (final items,
        [MsgStarting (List.length items)]
        ++ map reason (filter invalid items)
        ++ [MsgAfterAmount (List.length (validated items))]
        ++ dup_msgs items
        ++ [MsgAfterSubtotal (List.length (final items))]).
Proof.
  unfold validate_and_clean.
  rewrite validate_loop_spec. cbn [app].
  fold (validated items).
  rewrite remove_duplicates_spec. cbn [bind].
  unfold _filter_subtotals.
  rewrite filter_loop_spec by apply deduped_complete.
  cbn [bind app]. fold (final items).
  rewrite <- !app_assoc. reflexivity.
Qed.

(** *** Deduplication leaves distinct fingerprints *)

Lemma dedup_keep_fresh (sn : list fingerprint) (items : list Item.t) (x : Item.t) :
  In x (dedup_keep sn items) -> ~ In (fp x) sn.
Proof.
  revert sn. induction items as [| item rest IH]; intros sn; simpl.
  - tauto.
  - destruct (seen (fp item) sn) eqn:Hs.
    + apply IH.
    + intros [<- | Hin].
      * intros Hin. apply seen_In in Hin. congruence.
      * intros Hsn. apply (IH _ Hin). now right.
Qed.

Lemma dedup_keep_NoDup (sn : list fingerprint) (items : list Item.t) :
  NoDup (map fp (dedup_keep sn items)).
Proof.
  revert sn. induction items as [| item rest IH]; intros sn; simpl.
  - constructor.
  - destruct (seen (fp item) sn) eqn:Hs.
    + apply IH.
    + simpl. constructor; [| apply IH].
      intros Hin. apply in_map_iff in Hin. destruct Hin as [y [Hy Hin]].
      apply dedup_keep_fresh in Hin. apply Hin. rewrite Hy. now left.
Qed.

Lemma NoDup_map_subseq {A B : Type} (f : A -> B) (l1 l2 : list A) :
  subseq l1 l2 -> NoDup (map f l2) -> NoDup (map f l1).
Proof.
  induction 1 as [| x l1 l2 H IH | x l1 l2 H IH]; simpl; intros Hnd.
  - constructor.
  - inversion Hnd; subst. auto.
  - inversion Hnd as [| ? ? Hnot Hrest]; subst. constructor; [| auto].
    intros Hin. apply Hnot. apply in_map_iff in Hin.
    destruct Hin as [y [Hy Hin]]. apply in_map_iff. exists y. split; [assumption |].
    eapply subseq_In; eassumption.
Qed.

(** A list whose fingerprints are distinct and unseen goes through the
    deduplication unchanged. *)
Lemma dedup_distinct (sn : list fingerprint) (items : list Item.t) :
  NoDup (map fp items) ->
  (forall x, In x items -> ~ In (fp x) sn) ->
  dedup_keep sn items = items /\ dedup_dropped sn items = [].
Proof.
  revert sn. induction items as [| item rest IH]; intros sn Hnd Hfresh; simpl.
  - auto.
  - inversion Hnd as [| ? ? Hnot Hrest]; subst.
    destruct (seen (fp item) sn) eqn:Hs.
    + apply seen_In in Hs. exfalso. apply (Hfresh item); simpl; auto.
    + destruct (IH (fp item :: sn) Hrest) as [Hk Hd].
      * intros x Hx [Heq | Hin].
        -- apply Hnot. rewrite Heq. now apply in_map.
        -- apply (Hfresh x); simpl; auto.
      * now rewrite Hk, Hd.
Qed.

Lemma filter_all {A : Type} (f : A -> bool) (l : list A) :
  (forall x, In x l -> f x = true) -> filter f l = l.
Proof.
  induction l as [| x l IH]; simpl; intros H.
  - reflexivity.
  - rewrite (H x) by auto. f_equal. apply IH. auto.
Qed.

Lemma filter_none {A : Type} (f : A -> bool) (l : list A) :
  (forall x, In x l -> f x = false) -> filter f l = [].
Proof.
  induction l as [| x l IH]; simpl; intros H.
  - reflexivity.
  - rewrite (H x) by auto. apply IH. auto.
Qed.

Lemma final_subseq (items : list Item.t) : subseq (final items) items.
Proof.
  unfold final, deduped, validated.
  eapply subseq_trans; [apply subseq_filter |].
  eapply subseq_trans; [apply dedup_keep_subseq | apply subseq_filter].
Qed.

(** The output of a run is a fixed point of each stage. *)
Lemma final_fixed (items : list Item.t) :
  validated (final items) = final items
  /\ deduped (final items) = final items
  /\ duplicates (final items) = []
  /\ final (final items) = final items.
Proof.
  assert (Hv : validated (final items) = final items).
  { unfold validated. apply filter_all. intros x Hx.
    unfold final, deduped in Hx. apply filter_In in Hx. destruct Hx as [Hx _].
    apply (subseq_In _ _ _ (dedup_keep_subseq _ _)) in Hx.
    unfold validated in Hx. apply filter_In in Hx. tauto. }
  assert (Hd : dedup_keep [] (final items) = final items
               /\ dedup_dropped [] (final items) = []).
  { apply dedup_distinct.
    - apply NoDup_map_subseq with (l2 := deduped items).
      + apply subseq_filter.
      + apply dedup_keep_NoDup.
    - intros x _ []. }
  destruct Hd as [Hk Hdrop].
  assert (Hf : filter kept (final items) = final items).
  { apply filter_all. intros x Hx. unfold final in Hx.
    apply filter_In in Hx. tauto. }
  assert (Hdd : deduped (final items) = final items)
    by (unfold deduped; now rewrite Hv).
  repeat split.
  - assumption.
  - assumption.
  - unfold duplicates. now rewrite Hv.
  - unfold final at 1. now rewrite Hdd.
Qed.

End ValidatorFacts.

(** ** The validator: claims *)

Section ValidatorClaims.
Import BillValidator ValidatorStages ValidatorFacts.

Lemma filter_invalid_nil (items : list Item.t) :
  validated items = items -> filter invalid items = [].
Proof.
  unfold validated. intros H. apply filter_none. intros x Hx.
  rewrite <- H in Hx. apply filter_In in Hx. unfold invalid.
  destruct Hx as [_ ->]. reflexivity.
Qed.

Lemma is_subtotal_rule (item : Item.t) :
  is_subtotal item = Spec.dropped_by_subtotal_rule item.
Proof.
  unfold is_subtotal, Spec.dropped_by_subtotal_rule, Spec.subtotal_rule.
  destruct (Item.item_name item) as [name|]; [| reflexivity].
  destruct (Item.item_quantity item) as [qty|]; [| reflexivity].
  destruct (Item.item_rate item) as [rate|]; [| reflexivity].
  unfold subtotal_keywords. cbn [existsb].
  rewrite orb_false_r, !orb_assoc. reflexivity.
Qed.



(** C8: on items that carry a name, a quantity and a rate, the subtotal
    filter returns, in their order, exactly the items that the rule of the
    specification does not drop; an item named "GST 18%" goes whatever its
    figures, and so does an item with quantity 1 and rate 0. *)
Theorem C8_filter_subtotals_exact (items : list Item.t) :
  Forall complete items ->
  _filter_subtotals items
  = Ok (filter (fun item => negb (Spec.dropped_by_subtotal_rule item)) items)
  /\ (forall qty rate amount confidence row_idx,
         _filter_subtotals
           [Item.mk (Some "GST 18%") (Some qty) (Some rate) (Some amount)
                    confidence row_idx] = Ok [])
  /\ (forall name amount confidence row_idx,
         _filter_subtotals
           [Item.mk (Some name) (Some PyFloat.one) (Some PyFloat.zero)
                    (Some amount) confidence row_idx] = Ok []).
Proof.
  intros Hall. split; [| split].
  - unfold _filter_subtotals. rewrite filter_loop_spec by assumption.
    cbn [app]. f_equal. apply filter_ext. intros item.
    unfold kept. now rewrite is_subtotal_rule.
  - intros. reflexivity.
  - intros name amount confidence row_idx.
    unfold _filter_subtotals. rewrite filter_loop_spec.
    + cbn [app filter]. unfold kept.
      replace (is_subtotal _) with true; [reflexivity |].
      unfold is_subtotal. cbn [Item.item_name Item.item_quantity Item.item_rate].
      symmetry. apply orb_true_iff. right. reflexivity.
    + repeat constructor. exists name, PyFloat.one, PyFloat.zero. auto.
Qed.

Lemma C8_filter_subtotals_exact_witness :
  Forall complete [Examples.gst_item; Examples.paracetamol]
  /\ _filter_subtotals [Examples.gst_item; Examples.paracetamol]
     = Ok [Examples.paracetamol].
Proof.
  assert (H : Forall complete [Examples.gst_item; Examples.paracetamol]).
  { repeat constructor; do 3 eexists; repeat split; reflexivity. }
  split; [exact H |].
  rewrite (proj1 (C8_filter_subtotals_exact _ H)). reflexivity.
Defined.

Lemma subseq_app_l {A : Type} (p l1 l2 : list A) :
  subseq l1 l2 -> subseq l1 (p ++ l2).
Proof.
  intros H. induction p as [| x p IH]; simpl; [assumption | now constructor].
Qed.

Lemma subseq_app_r {A : Type} (l1 l2 s : list A) :
  subseq l1 l2 -> subseq l1 (l2 ++ s).
Proof.
  induction 1 as [| x l1 l2 H IH | x l1 l2 H IH]; simpl.
  - induction s; constructor; assumption.
  - now constructor.
  - now constructor.
Qed.

Lemma reason_is_drop_line (item : Item.t) :
  invalid item = true -> Spec.is_drop_line (reason item) = true.
Proof.
  unfold invalid, valid, reason, _validate_item, _validate_item_try.
  destruct (Item.item_name item) as [name|]; [| reflexivity].
  destruct (Item.item_quantity item) as [qty|]; [| reflexivity].
  destruct (Item.item_rate item) as [rate|]; [| reflexivity].
  destruct (Item.item_amount item) as [amount|]; [| reflexivity].
  destruct (PyFloat.eqb amount PyFloat.zero && PyFloat.eqb qty PyFloat.zero);
    [reflexivity |].
  destruct (PyFloat.gtb qty PyFloat.zero && PyFloat.gtb rate PyFloat.zero);
    [| discriminate].
  destruct (PyFloat.truediv _ _); [discriminate | reflexivity].
Qed.

Lemma valid_invalid_length (items : list Item.t) :
  List.length (validated items) + List.length (filter invalid items)
  = List.length items.
Proof.
  unfold validated, invalid.
  induction items as [| item rest IH]; simpl; [reflexivity |].
  destruct (valid item); simpl; lia.
Qed.



End ValidatorClaims.

(** ** The field/amount check: the division *)

Section DivisionClaims.
Import BillValidator.

(** The try block of [_validate_item] raises only at the division, and then
    quantity and rate are positive and the denominator compares equal to
    zero. *)
Lemma validate_item_try_raises (item : Item.t) (e : exn) :
  _validate_item_try item = Raise e ->
  e = ZeroDivisionError
  /\ exists qty rate amount,
       Item.item_quantity item = Some qty
       /\ Item.item_rate item = Some rate
       /\ Item.item_amount item = Some amount
       /\ PyFloat.gtb qty PyFloat.zero = true
       /\ PyFloat.gtb rate PyFloat.zero = true
       /\ PyFloat.eqb (PyFloat.max amount (PyFloat.mul qty rate)) PyFloat.zero = true.
Proof.
  unfold _validate_item_try.
  destruct (Item.item_name item) as [name|]; [| discriminate].
  destruct (Item.item_quantity item) as [qty|]; [| discriminate].
  destruct (Item.item_rate item) as [rate|]; [| discriminate].
  destruct (Item.item_amount item) as [amount|]; [| discriminate].
  destruct (PyFloat.eqb amount PyFloat.zero && PyFloat.eqb qty PyFloat.zero);
    [discriminate |].
  destruct (PyFloat.gtb qty PyFloat.zero) eqn:Hq; [| discriminate].
  destruct (PyFloat.gtb rate PyFloat.zero) eqn:Hr; [| discriminate].
  cbn [andb]. unfold PyFloat.truediv.
  destruct (PyFloat.eqb (PyFloat.max amount (PyFloat.mul qty rate)) PyFloat.zero)
    eqn:Hd; cbn [bind]; [| discriminate].
  intros H. inversion H. split; [reflexivity |].
  exists qty, rate, amount. repeat split; reflexivity || assumption.
Qed.

(** C10: the guard [qty > 0 and rate > 0] does not keep the denominator away
    from zero.  On the item parsed from the row x, 1e-200, 1e-200, 0 the
    quantity and the rate are positive, their product underflows to 0.0, the
    denominator [max(amount, qty * rate)] is 0.0, the division raises
    ZeroDivisionError, and the item is rejected with a validation error. *)
Theorem C10_division_by_zero_reached :
  TableParser._parse_row Examples.underflow_row 0
  = Ok (Some Examples.underflow_item)
  /\ PyFloat.gtb (Examples.fl "1e-200") PyFloat.zero = true
  /\ PyFloat.mul (Examples.fl "1e-200") (Examples.fl "1e-200") = PyFloat.zero
  /\ PyFloat.max (Examples.fl "0")
                 (PyFloat.mul (Examples.fl "1e-200") (Examples.fl "1e-200"))
     = PyFloat.zero
  /\ _validate_item_try Examples.underflow_item = Raise ZeroDivisionError
  /\ _validate_item Examples.underflow_item
     = (false, MsgValidationError ZeroDivisionError)
  /\ validate_and_clean [Examples.underflow_item]
     = Ok ([], [MsgStarting 1; MsgValidationError ZeroDivisionError;
                MsgAfterAmount 0; MsgAfterSubtotal 0]).
Proof. repeat split; vm_compute; reflexivity. Qed.

End DivisionClaims.

(** ** The table parser: numeric tokens *)

Section NumericClaims.
Import TableParser.

(** C2: [_is_numeric] does not take the marker Rs out, while [_parse_float]
    does.  The text Rs500 is numeric by the rule of the specification and
    parses to 500.0, yet [_is_numeric] rejects it; in a row the figures
    written with Rs are then taken for words. *)
Theorem C2_is_numeric_rejects_Rs :
  _is_numeric "Rs500" = false
  /\ Spec.numeric_rule "Rs500" = true
  /\ _parse_float "Rs500" = Examples.fl "500"
  /\ _parse_row Examples.rs_row 0
     = Ok (Some (Item.mk (Some "Consultation 1 Rs500") (Some PyFloat.one)
                         (Some PyFloat.one) (Some PyFloat.one) half 0)).
Proof. repeat split; vm_compute; reflexivity. Qed.

(** *** Indexing *)

Lemma index_nat {A : Type} (l : list A) (i : nat) (d : A) :
  i < List.length l -> PyList.index l (Z.of_nat i) = Ok (nth i l d).
Proof.
  intros Hi. unfold PyList.index.
  destruct (Z.of_nat i <? 0)%Z eqn:Hneg; [apply Z.ltb_lt in Hneg; lia |].
  replace ((Z.of_nat i <? 0) || (Z.of_nat (List.length l) <=? Z.of_nat i))%Z
    with false.
  - rewrite Nat2Z.id. rewrite (nth_error_nth' l d Hi). reflexivity.
  - symmetry. apply orb_false_iff. split; [assumption |].
    apply Z.leb_gt. lia.
Qed.

(** [l[k - len(back)]] for a list [l] that ends with [back]. *)
Lemma index_from_end {A : Type} (front back : list A) (k : nat) (x : A) :
  nth_error back k = Some x ->
  PyList.index (front ++ back) (Z.of_nat k - Z.of_nat (List.length back)) = Ok x.
Proof.
  intros Hk.
  assert (Hlt : k < List.length back) by (apply nth_error_Some; congruence).
  unfold PyList.index. rewrite length_app.
  destruct (Z.of_nat k - Z.of_nat (List.length back) <? 0)%Z eqn:Hneg;
    [| apply Z.ltb_ge in Hneg; lia].
  replace (Z.of_nat k - Z.of_nat (List.length back)
           + Z.of_nat (List.length front + List.length back))%Z
    with (Z.of_nat (List.length front + k)) by lia.
  destruct ((Z.of_nat (List.length front + k) <? 0)
            || (Z.of_nat (List.length front + List.length back)
                <=? Z.of_nat (List.length front + k)))%Z eqn:Hrange.
  - apply orb_true_iff in Hrange. destruct Hrange as [H | H].
    + apply Z.ltb_lt in H. lia.
    + apply Z.leb_le in H. lia.
  - rewrite Nat2Z.id, nth_error_app2 by lia.
    replace (List.length front + k - List.length front) with k by lia.
    now rewrite Hk.
Qed.

Lemma slice_to_nat {A : Type} (l : list A) (k : nat) :
  PyList.slice_to l (Z.of_nat k) = firstn k l.
Proof.
  unfold PyList.slice_to.
  destruct (Z.of_nat k <? 0)%Z eqn:Hneg; [apply Z.ltb_lt in Hneg; lia |].
  now rewrite Nat2Z.id.
Qed.

(** *** The numeric columns *)

Lemma numeric_cols_from_spec (i : nat) (texts : list string) :
  numeric_cols_from i texts
  = filter (fun j => _is_numeric (nth (j - i) texts ""))
           (seq i (List.length texts)).
Proof.
  revert i. induction texts as [| text rest IH]; intros i.
  - reflexivity.
  - assert (Hrest : filter (fun j => _is_numeric (nth (j - i) (text :: rest) ""))
                           (seq (S i) (List.length rest))
                    = numeric_cols_from (S i) rest).
    { rewrite IH. apply filter_ext_in. intros j Hj. apply in_seq in Hj.
      replace (j - i) with (S (j - S i)) by lia. reflexivity. }
    change (seq i (List.length (text :: rest)))
      with (i :: seq (S i) (List.length rest)).
    cbn [filter]. rewrite Hrest, Nat.sub_diag. reflexivity.
Qed.

Lemma numeric_cols_positions (texts : list string) :
  numeric_cols_from 0 texts = Spec.numeric_positions texts.
Proof.
  rewrite numeric_cols_from_spec. unfold Spec.numeric_positions.
  apply filter_ext. intros j. now rewrite Nat.sub_0_r.
Qed.

Lemma numeric_positions_bound (texts : list string) (j : nat) :
  In j (Spec.numeric_positions texts) ->
  j < List.length texts /\ _is_numeric (nth j texts "") = true.
Proof.
  unfold Spec.numeric_positions. intros H. apply filter_In in H.
  destruct H as [H1 H2]. apply in_seq in H1. split; [lia | assumption].
Qed.

Lemma numeric_positions_length (texts : list string) :
  List.length (Spec.numeric_positions texts) <= List.length texts.
Proof.
  unfold Spec.numeric_positions.
  etransitivity; [apply filter_length_le |]. now rewrite length_seq.
Qed.

(** A list of three or more elements ends with three of them. *)
Lemma last_three {A : Type} (l : list A) :
  3 <= List.length l -> exists front a b c, l = front ++ [a; b; c].
Proof.
  induction l as [| x l IH]; simpl; intros H; [lia |].
  destruct (Nat.le_gt_cases 3 (List.length l)) as [Hl | Hl].
  - destruct (IH Hl) as (front & a & b & c & ->).
    exists (x :: front), a, b, c. reflexivity.
  - destruct l as [| a [| b [| c l]]]; simpl in *; try lia.
    exists [], x, a, b. reflexivity.
Qed.

(** What [_parse_row] returns on a row whose numeric positions end with
    [qty_idx], [rate_idx], [amount_idx]. *)
Lemma parse_row_three_columns (row : Row) (row_idx : nat)
      (front : list nat) (qty_idx rate_idx amount_idx : nat) :
  Spec.numeric_positions (map Token.text row)
  = front ++ [qty_idx; rate_idx; amount_idx] ->
  _parse_row row row_idx
  = Ok (Some (Spec.three_column_item
                row row_idx
                (PyStr.strip (PyStr.join " " (firstn qty_idx (map Token.text row))))
                qty_idx rate_idx amount_idx)).
Proof.
  intros Hpos.
  assert (Hin : forall j, In j [qty_idx; rate_idx; amount_idx] ->
                          j < List.length (map Token.text row)).
  { intros j Hj. apply (numeric_positions_bound (map Token.text row)).
    rewrite Hpos. apply in_or_app. now right. }
  assert (Hq := Hin qty_idx (or_introl eq_refl)).
  assert (Hr := Hin rate_idx (or_intror (or_introl eq_refl))).
  assert (Ha := Hin amount_idx (or_intror (or_intror (or_introl eq_refl)))).
  assert (Hlen : 3 <= List.length (Spec.numeric_positions (map Token.text row))).
  { rewrite Hpos, length_app. simpl. lia. }
  assert (Hrow : 3 <= List.length row).
  { pose proof (numeric_positions_length (map Token.text row)) as H.
    rewrite length_map in H. lia. }
  unfold _parse_row.
  destruct (List.length row <? 2)%nat eqn:Hshort;
    [apply Nat.ltb_lt in Hshort; lia |].
  unfold _parse_row_try. rewrite numeric_cols_positions.
  destruct (3 <=? List.length (Spec.numeric_positions (map Token.text row)))%nat
    eqn:H3; [| apply Nat.leb_gt in H3; lia].
  rewrite Hpos.
  pose proof (index_from_end front [qty_idx; rate_idx; amount_idx] 0 qty_idx eq_refl)
    as I3.
  pose proof (index_from_end front [qty_idx; rate_idx; amount_idx] 1 rate_idx eq_refl)
    as I2.
  pose proof (index_from_end front [qty_idx; rate_idx; amount_idx] 2 amount_idx eq_refl)
    as I1.
  change (Z.of_nat 0 - Z.of_nat (List.length [qty_idx; rate_idx; amount_idx]))%Z
    with (-3)%Z in I3.
  change (Z.of_nat 1 - Z.of_nat (List.length [qty_idx; rate_idx; amount_idx]))%Z
    with (-2)%Z in I2.
  change (Z.of_nat 2 - Z.of_nat (List.length [qty_idx; rate_idx; amount_idx]))%Z
    with (-1)%Z in I1.
  rewrite I3, I2, I1.
  cbn [bind]. rewrite slice_to_nat.
  rewrite !(index_nat (map Token.text row) _ "") by assumption.
  cbn [bind].
  rewrite length_map in Hq, Hr, Ha.
  rewrite !(index_nat (map Token.confidence row) _ PyFloat.zero)
    by (rewrite length_map; assumption).
  reflexivity.
Qed.

(** C1, as the specification states it, fails on a row whose first token is
    empty: the quantity stands at position 2, the tokens before it joined
    with a space give " A", and the name of the item is "A". *)
Lemma C1_counterexample :
  Spec.numeric_positions (map Token.text Examples.empty_first_row) = [2; 3; 4]
  /\ exists item,
       _parse_row Examples.empty_first_row 0 = Ok (Some item)
       /\ Item.item_name item = Some "A"
       /\ PyStr.join " " (firstn 2 (map Token.text Examples.empty_first_row)) = " A"
       /\ Item.item_name item
          <> Some (PyStr.join " " (firstn 2 (map Token.text Examples.empty_first_row))).
Proof.
  split; [vm_compute; reflexivity |].
  eexists. split; [vm_compute; reflexivity |].
  split; [reflexivity |]. split; [reflexivity |].
  cbn. discriminate.
Qed.

(** C1, amended: on a row with at least three numeric tokens, [_parse_row]
    returns an item whose quantity, rate and amount are the values parsed
    from the last three numeric tokens, in their order from left to right,
    whose name is the tokens before the quantity joined with single spaces
    and then stripped of leading and trailing white space, and whose
    confidence is the mean of the confidences of those three tokens.  The
    row Consultation, Fee, 1, 500, 500 gives the name "Consultation Fee",
    quantity 1.0, rate 500.0 and amount 500.0. *)
Theorem C1_three_numeric_columns :
  (forall (row : Row) (row_idx : nat),
      3 <= List.length (Spec.numeric_positions (map Token.text row)) ->
      exists front qty_idx rate_idx amount_idx,
        Spec.numeric_positions (map Token.text row)
        = front ++ [qty_idx; rate_idx; amount_idx]
        /\ _parse_row row row_idx
           = Ok (Some (Spec.three_column_item
                         row row_idx
                         (PyStr.strip
                            (PyStr.join " " (firstn qty_idx (map Token.text row))))
                         qty_idx rate_idx amount_idx)))
  /\ (forall (row : Row) (row_idx : nat),
         map Token.text row = ["Consultation"; "Fee"; "1"; "500"; "500"] ->
         _parse_row row row_idx
         = Ok (Some (Item.mk (Some "Consultation Fee")
                             (Some (PyFloat.of_Z 1))
                             (Some (PyFloat.of_Z 500))
                             (Some (PyFloat.of_Z 500))
                             (PyFloat.np_mean
                                [nth 2 (map Token.confidence row) PyFloat.zero;
                                 nth 3 (map Token.confidence row) PyFloat.zero;
                                 nth 4 (map Token.confidence row) PyFloat.zero])
                             row_idx))).
Proof.
  split.
  - intros row row_idx Hlen.
    destruct (last_three _ Hlen) as (front & q & r & a & Hpos).
    exists front, q, r, a. split; [assumption |].
    now apply parse_row_three_columns with (front := front).
  - intros row row_idx Htexts.
    rewrite (parse_row_three_columns row row_idx [] 2 3 4)
      by (rewrite Htexts; vm_compute; reflexivity).
    unfold Spec.three_column_item. rewrite Htexts.
    assert (E1 : _parse_float (nth 2 ["Consultation"; "Fee"; "1"; "500"; "500"] "")
                 = PyFloat.of_Z 1) by (vm_compute; reflexivity).
    assert (E2 : _parse_float (nth 3 ["Consultation"; "Fee"; "1"; "500"; "500"] "")
                 = PyFloat.of_Z 500) by (vm_compute; reflexivity).
    assert (E3 : _parse_float (nth 4 ["Consultation"; "Fee"; "1"; "500"; "500"] "")
                 = PyFloat.of_Z 500) by (vm_compute; reflexivity).
    assert (E4 : PyStr.strip
                   (PyStr.join " " (firstn 2 ["Consultation"; "Fee"; "1"; "500"; "500"]))
                 = "Consultation Fee") by (vm_compute; reflexivity).
    rewrite E1, E2, E3, E4. reflexivity.
Qed.

Lemma C1_three_numeric_columns_witness :
  3 <= List.length (Spec.numeric_positions (map Token.text Examples.consultation_row))
  /\ (exists front qty_idx rate_idx amount_idx,
       Spec.numeric_positions (map Token.text Examples.consultation_row)
       = front ++ [qty_idx; rate_idx; amount_idx]
       /\ _parse_row Examples.consultation_row 0
          = Ok (Some (Spec.three_column_item
                        Examples.consultation_row 0
                        (PyStr.strip
                           (PyStr.join " "
                              (firstn qty_idx (map Token.text Examples.consultation_row))))
                        qty_idx rate_idx amount_idx)))
     /\ _parse_row Examples.consultation_row 0
        = Ok (Some (Item.mk (Some "Consultation Fee")
                            (Some (PyFloat.of_Z 1))
                            (Some (PyFloat.of_Z 500))
                            (Some (PyFloat.of_Z 500))
                            (PyFloat.np_mean
                               [Examples.fl "0.9"; Examples.fl "0.9"; Examples.fl "0.9"])
                            0)).
Proof.
  assert (H : 3 <= List.length
                     (Spec.numeric_positions (map Token.text Examples.consultation_row))).
  { vm_compute. repeat constructor. }
  split; [exact H |].
  split; [exact (proj1 C1_three_numeric_columns Examples.consultation_row 0 H) |].
  exact (proj2 C1_three_numeric_columns Examples.consultation_row 0 eq_refl).
Defined.

End NumericClaims.

(** ** Exceptions stay inside the core *)

Section ErrorClaims.
Import BillValidator ValidatorStages ValidatorFacts.

(** What one row contributes to the result of [parse_rows]. *)
Lemma parse_rows_from_spec (parse : Row -> nat -> result (option Item.t))
      (row_idx : nat) (rows : list Row) :
  TableParser.parse_rows_from parse row_idx rows
  = flat_map (fun p => match parse (snd p) (fst p) with
                       | Ok (Some item) => [item]
                       | Ok None => []
                       | Raise _ => []
                       end)
             (combine (seq row_idx (List.length rows)) rows).
Proof.
  revert row_idx. induction rows as [| row rest IH]; intros row_idx.
  - reflexivity.
  - cbn [TableParser.parse_rows_from List.length seq combine flat_map fst snd].
    rewrite <- IH.
    destruct (parse row row_idx) as [[item|] | e]; reflexivity.
Qed.

Lemma parse_row_total (row : Row) (row_idx : nat) :
  exists r, TableParser._parse_row row row_idx = Ok r.
Proof.
  unfold TableParser._parse_row.
  destruct (List.length row <? 2)%nat; [now exists None |].
  destruct (TableParser._parse_row_try row row_idx) as [r | e];
    [now exists r | now exists None].
Qed.

(** With the per-item fingerprint as the source computes it, the validator
    agrees with [BillValidator.validate_and_clean] on every bill whose names
    hold no lone surrogate. *)
Lemma raw_dedup_loop (items : list Item.t) :
  Forall (fun item => match Item.item_name item with
                      | Some name =>
                          PyStr.has_surrogate (PyStr.strip (PyStr.lower name))
                          = false
                      | None => True
                      end) items ->
  forall st, RawValidator.dedup_loop st items = dedup_loop st items.
Proof.
  induction 1 as [| item rest Hitem _ IH]; intros st; [reflexivity |].
  cbn [RawValidator.dedup_loop dedup_loop].
  assert (Hstep : RawValidator.dedup_step st item = dedup_step st item).
  { unfold RawValidator.dedup_step, dedup_step.
    destruct (Item.item_name item) as [name |]; [| reflexivity].
    destruct (Item.item_quantity item) as [qty |]; [| reflexivity].
    destruct (Item.item_rate item) as [rate |]; [| reflexivity].
    cbn [get bind]. unfold RawValidator._create_hash, PyStr.encode.
    rewrite Hitem. reflexivity. }
  rewrite Hstep. destruct (dedup_step st item) as [st' | e]; [apply IH | reflexivity].
Qed.

Lemma raw_validate_and_clean (items : list Item.t) :
  Forall (fun item => match Item.item_name item with
                      | Some name =>
                          PyStr.has_surrogate (PyStr.strip (PyStr.lower name))
                          = false
                      | None => True
                      end) items ->
  RawValidator.validate_and_clean items = validate_and_clean items.
Proof.
  intros Hall. unfold RawValidator.validate_and_clean, validate_and_clean.
  rewrite validate_loop_spec. cbn [app].
  assert (Hr : RawValidator._remove_duplicates (filter valid items)
               = _remove_duplicates (filter valid items)).
  { unfold RawValidator._remove_duplicates, _remove_duplicates.
    rewrite raw_dedup_loop; [reflexivity |].
    apply Forall_forall. intros item Hin. apply filter_In in Hin.
    rewrite Forall_forall in Hall. apply Hall. tauto. }
  now rewrite Hr.
Qed.

Lemma raw_dedup_step_complete (st : dedup_state) (item : Item.t) :
  complete item ->
  (exists st', RawValidator.dedup_step st item = Ok st')
  \/ RawValidator.dedup_step st item = Raise UnicodeEncodeError.
Proof.
  intros (name & qty & rate & Hn & Hq & Hr).
  unfold RawValidator.dedup_step. rewrite Hn, Hq, Hr. cbn [get bind].
  unfold RawValidator._create_hash, PyStr.encode.
  destruct (PyStr.has_surrogate _); [now right |]. cbn [bind].
  destruct (negb _); left; eexists; reflexivity.
Qed.

(** Once an item whose name cannot be encoded is reached, the loop of
    [_remove_duplicates] is left. *)
Lemma raw_dedup_loop_raises (x : Item.t) (l2 : list Item.t) :
  (forall st, RawValidator.dedup_step st x = Raise UnicodeEncodeError) ->
  forall (l1 : list Item.t) (st : dedup_state),
    Forall complete l1 ->
    RawValidator.dedup_loop st (l1 ++ x :: l2) = Raise UnicodeEncodeError.
Proof.
  intros Hx. induction l1 as [| a l1 IH]; intros st Hall;
    cbn [app RawValidator.dedup_loop].
  - now rewrite Hx.
  - inversion Hall as [| ? ? Ha Hall']; subst.
    destruct (raw_dedup_step_complete st a Ha) as [[st' ->] | ->];
      [cbn [bind]; now apply IH | reflexivity].
Qed.

(** C7: an exception leaves the core.  The row Caf\udce9, 2, 15, 30 is one
    row for the grouping and parses to an item that passes the field/amount
    check; [key.encode()] raises UnicodeEncodeError on its name in
    [_create_hash]; the exception leaves [_remove_duplicates],
    [validate_and_clean] and the core, whatever items stand before and
    after: no item is returned and no trail. *)
Theorem C7_encode_error_leaves_the_core :
  OCRExtractor.group_by_row Examples.surrogate_tokens
                            OCRExtractor.default_y_tolerance
  = [Examples.surrogate_tokens]
  /\ TableParser.parse_rows [Examples.surrogate_tokens]
     = [Examples.surrogate_item]
  /\ _validate_item Examples.surrogate_item
     = (true, MsgValid Examples.surrogate_name)
  /\ PyStr.encode (PyStr.strip (PyStr.lower Examples.surrogate_name))
     = Raise UnicodeEncodeError
  /\ RawValidator._create_hash Examples.surrogate_name (Examples.fl "2")
                               (Examples.fl "15")
     = Raise UnicodeEncodeError
  /\ (forall before rest : list Item.t,
         RawValidator._remove_duplicates
           (validated before ++ Examples.surrogate_item :: rest)
         = Raise UnicodeEncodeError)
  /\ (forall before rest : list Item.t,
         RawValidator.validate_and_clean
           (before ++ Examples.surrogate_item :: rest)
         = Raise UnicodeEncodeError)
  /\ RawValidator.extract_core Examples.surrogate_tokens
     = Raise UnicodeEncodeError.
Proof.
  assert (Hg : OCRExtractor.group_by_row Examples.surrogate_tokens
                                         OCRExtractor.default_y_tolerance
               = [Examples.surrogate_tokens]) by (vm_compute; reflexivity).
  assert (Hp : TableParser.parse_rows [Examples.surrogate_tokens]
               = [Examples.surrogate_item]) by (vm_compute; reflexivity).
  assert (Hv : _validate_item Examples.surrogate_item
               = (true, MsgValid Examples.surrogate_name))
    by (vm_compute; reflexivity).
  assert (Hs : forall st, RawValidator.dedup_step st Examples.surrogate_item
                          = Raise UnicodeEncodeError) by reflexivity.
  assert (Hr : forall before rest,
             RawValidator._remove_duplicates
               (validated before ++ Examples.surrogate_item :: rest)
             = Raise UnicodeEncodeError).
  { intros before rest. unfold RawValidator._remove_duplicates.
    rewrite (raw_dedup_loop_raises _ _ Hs) by apply validated_complete.
    reflexivity. }
  assert (Hc : forall before rest,
             RawValidator.validate_and_clean
               (before ++ Examples.surrogate_item :: rest)
             = Raise UnicodeEncodeError).
  { intros before rest. unfold RawValidator.validate_and_clean.
    rewrite validate_loop_spec. cbn [app].
    rewrite filter_app. cbn [filter].
    fold (valid Examples.surrogate_item). unfold valid at 2. rewrite Hv.
    cbn [fst]. fold (validated before). now rewrite Hr. }
  split; [exact Hg |]. split; [exact Hp |]. split; [exact Hv |].
  split; [reflexivity |]. split; [reflexivity |].
  split; [exact Hr |]. split; [exact Hc |].
  unfold RawValidator.extract_core. rewrite Hg, Hp. apply (Hc [] []).
Qed.

End ErrorClaims.

(** ** Row grouping *)

Section GroupingClaims.
Import OCRExtractor.

(** *** Comparison of floats *)

Lemma ltb_leb (x y : PyFloat.float) :
  PyFloat.ltb x y = true -> PyFloat.leb x y = true.
Proof.
  unfold PyFloat.ltb, PyFloat.leb, SFltb, SFleb.
  destruct (SFcompare x y) as [[| |]|]; congruence.
Qed.

Lemma SFcompare_antisym (x y : PyFloat.float) (c : comparison) :
  SFcompare x y = Some c -> SFcompare y x = Some (CompOpp c).
Proof.
  destruct x as [sx|sx| |sx mx ex], y as [sy|sy| |sy my ey]; simpl;
    try discriminate;
    try (intros H; inversion H; subst; clear H;
         try destruct sx; try destruct sy; reflexivity).
  intros H; inversion H; subst; clear H.
  assert (E : Pos.compare_cont Eq my mx = CompOpp (Pos.compare_cont Eq mx my))
    by (symmetry; apply (Pos.compare_cont_antisym mx my Eq)).
  rewrite (Z.compare_antisym ex ey), E.
  destruct sx, sy; try reflexivity;
    destruct (ex ?= ey)%Z; simpl; rewrite ?CompOpp_involutive; reflexivity.
Qed.

Lemma SFcompare_defined (x y : PyFloat.float) :
  x <> PyFloat.nan -> y <> PyFloat.nan -> exists c, SFcompare x y = Some c.
Proof.
  unfold PyFloat.nan.
  destruct x, y; simpl; intros Hx Hy; try congruence; eexists; reflexivity.
Qed.

(** Without NaN the order is total. *)
Lemma not_ltb_leb (x y : PyFloat.float) :
  x <> PyFloat.nan -> y <> PyFloat.nan ->
  PyFloat.ltb y x = false -> PyFloat.leb x y = true.
Proof.
  intros Hx Hy. unfold PyFloat.ltb, PyFloat.leb, SFltb, SFleb.
  destruct (SFcompare_defined x y Hx Hy) as [c Hc].
  rewrite (SFcompare_antisym _ _ _ Hc), Hc.
  destruct c; simpl; congruence.
Qed.

(** *** Sorting *)

Lemma insert_perm {A : Type} (key : A -> PyFloat.float) (x : A) (l : list A) :
  Permutation (PyList.insert key x l) (x :: l).
Proof.
  induction l as [| y l IH]; simpl.
  - apply Permutation_refl.
  - destruct (PyFloat.ltb (key y) (key x)).
    + eapply Permutation_trans; [apply perm_skip, IH | apply perm_swap].
    + apply Permutation_refl.
Qed.

Lemma sorted_perm {A : Type} (key : A -> PyFloat.float) (l : list A) :
  Permutation (PyList.sorted key l) l.
Proof.
  induction l as [| x l IH]; simpl.
  - constructor.
  - eapply Permutation_trans; [apply insert_perm | now apply perm_skip].
Qed.

Lemma insert_sorted {A : Type} (key : A -> PyFloat.float) (x : A) (l : list A) :
  key x <> PyFloat.nan ->
  (forall y, In y l -> key y <> PyFloat.nan) ->
  Sorted (fun a b => PyFloat.leb (key a) (key b) = true) l ->
  Sorted (fun a b => PyFloat.leb (key a) (key b) = true) (PyList.insert key x l).
Proof.
  intros Hx. induction l as [| y l IH]; intros Hl Hs; simpl.
  - repeat constructor.
  - inversion Hs as [| ? ? Hs' Hhd]; subst.
    destruct (PyFloat.ltb (key y) (key x)) eqn:Hlt.
    + constructor.
      * apply IH; [intros z Hz; apply Hl; now right | assumption].
      * destruct l as [| z l]; simpl.
        -- constructor. now apply ltb_leb.
        -- destruct (PyFloat.ltb (key z) (key x)).
           ++ constructor. now inversion Hhd.
           ++ constructor. now apply ltb_leb.
    + constructor; [assumption |]. constructor.
      apply not_ltb_leb; [assumption | apply Hl; now left | assumption].
Qed.

Lemma sorted_sorted {A : Type} (key : A -> PyFloat.float) (l : list A) :
  (forall y, In y l -> key y <> PyFloat.nan) ->
  Sorted (fun a b => PyFloat.leb (key a) (key b) = true) (PyList.sorted key l).
Proof.
  induction l as [| x l IH]; intros Hl; simpl.
  - constructor.
  - apply insert_sorted.
    + apply Hl. now left.
    + intros y Hy. apply Hl. right.
      apply (Permutation_in _ (sorted_perm key l) Hy).
    + apply IH. intros y Hy. apply Hl. now right.
Qed.

(** *** The loop *)

Lemma group_loop_one_row (mean : list PyFloat.float -> PyFloat.float)
      (y_tolerance : PyFloat.float) (rows : list Row)
      (current_row : Row) (rest : list Token.t) :
  current_row <> [] ->
  Spec.within_running_mean mean y_tolerance current_row rest = true ->
  group_loop mean y_tolerance rows current_row rest = rows ++ [current_row ++ rest].
Proof.
  revert current_row. induction rest as [| item rest IH]; intros current Hne Hall.
  - simpl. rewrite app_nil_r. destruct current; [congruence | reflexivity].
  - simpl in Hall. apply andb_true_iff in Hall. destruct Hall as [Hb Hrest].
    simpl. rewrite Hb. rewrite IH.
    + now rewrite <- app_assoc.
    + destruct current; discriminate.
    + assumption.
Qed.


End GroupingClaims.

(** ** Signs of the parsed figures *)

Section SignClaims.
Import TableParser.

(** *** Rounding keeps the sign *)

Lemma positive_or_zero_non_negative (x : PyFloat.float) :
  Spec.positive_or_zero x -> Spec.non_negative x = true.
Proof.
  destruct x as [s|s| |s m e]; simpl; intros H; subst; try reflexivity.
  contradiction.
Qed.

Lemma iter_pos_invariant {A : Type} (P : A -> Prop) (f : A -> A) :
  (forall a, P a -> P (f a)) ->
  forall (n : positive) (a : A), P a -> P (iter_pos f n a).
Proof.
  intros Hf. induction n as [n IH | n IH |]; intros a Ha; simpl.
  - apply IH, IH, Hf, Ha.
  - apply IH, IH, Ha.
  - apply Hf, Ha.
Qed.

Lemma shr_1_nonneg (mrs : shr_record) :
  (0 <= shr_m mrs)%Z -> (0 <= shr_m (shr_1 mrs))%Z.
Proof.
  destruct mrs as [m r s]. simpl.
  destruct m as [| p | p]; simpl; intros H; try lia.
  - destruct p; simpl; lia.
Qed.

Lemma shr_fexp_nonneg (m e : Z) (l : location) :
  (0 <= m)%Z ->
  (0 <= shr_m (fst (shr_fexp PyFloat.prec PyFloat.emax m e l)))%Z.
Proof.
  intros Hm. unfold shr_fexp, shr.
  assert (H0 : (0 <= shr_m (shr_record_of_loc m l))%Z).
  { destruct l as [| []]; simpl; assumption. }
  destruct (fexp PyFloat.prec PyFloat.emax (Zdigits2 m + e) - e)%Z; simpl;
    try assumption.
  apply (iter_pos_invariant (fun mrs => (0 <= shr_m mrs)%Z)); [| assumption].
  apply shr_1_nonneg.
Qed.

Lemma round_nearest_even_nonneg (m : Z) (l : location) :
  (0 <= m)%Z -> (0 <= round_nearest_even m l)%Z.
Proof.
  intros Hm. destruct l as [| []]; simpl; try lia.
  destruct (Z.even m); lia.
Qed.

Lemma binary_round_aux_sign (mx ex : Z) (lx : location) :
  (0 <= mx)%Z ->
  Spec.positive_or_zero (binary_round_aux PyFloat.prec PyFloat.emax false mx ex lx).
Proof.
  intros Hm. unfold binary_round_aux.
  pose proof (shr_fexp_nonneg mx ex lx Hm) as H1.
  destruct (shr_fexp PyFloat.prec PyFloat.emax mx ex lx) as [mrs' e'].
  simpl in H1.
  pose proof (shr_fexp_nonneg
                (round_nearest_even (shr_m mrs') (loc_of_shr_record mrs')) e'
                loc_Exact (round_nearest_even_nonneg _ _ H1)) as H2.
  destruct (shr_fexp PyFloat.prec PyFloat.emax
                     (round_nearest_even (shr_m mrs') (loc_of_shr_record mrs'))
                     e' loc_Exact) as [mrs'' e''].
  simpl in H2.
  destruct (shr_m mrs'') as [| p | p]; simpl.
  - reflexivity.
  - destruct (e'' <=? _)%Z; simpl; reflexivity.
  - lia.
Qed.

Lemma binary_round_sign (m : positive) (e : Z) :
  Spec.positive_or_zero (binary_round PyFloat.prec PyFloat.emax false m e).
Proof.
  unfold binary_round.
  destruct (shl_align m e _) as [mz ez].
  apply binary_round_aux_sign. lia.
Qed.

Lemma div_core_nonneg (m1 m2 : positive) (e1 e2 : Z) :
  (0 <= fst (fst (SFdiv_core_binary PyFloat.prec PyFloat.emax
                                    (Zpos m1) e1 (Zpos m2) e2)))%Z.
Proof.
  unfold SFdiv_core_binary.
  set (s := (e1 - e2 - _)%Z).
  set (m' := match s with
             | Z0 => Zpos m1
             | Zpos _ => Z.shiftl (Zpos m1) s
             | Zneg _ => 0%Z
             end).
  assert (Hm' : (0 <= m')%Z).
  { unfold m'. destruct s; try lia. apply Z.shiftl_nonneg. lia. }
  pose proof (Z.div_pos m' (Zpos m2) Hm' eq_refl) as Hq.
  unfold Z.div in Hq.
  destruct (Z.div_eucl m' (Zpos m2)) as [q r]. simpl. exact Hq.
Qed.

Lemma of_decimal_sign (m e : Z) :
  Spec.positive_or_zero (PyFloat.of_decimal false m e).
Proof.
  unfold PyFloat.of_decimal.
  destruct m as [| p | p]; try reflexivity.
  destruct e as [| k | k].
  - destruct (Zpos p * 10 ^ 0)%Z; try reflexivity. apply binary_round_sign.
  - destruct (Zpos p * 10 ^ Zpos k)%Z; try reflexivity. apply binary_round_sign.
  - pose proof (div_core_nonneg p (Pos.pow 10 k) 0 0) as Hq.
    replace (Z.pow_pos 10 k) with (Zpos (Pos.pow 10 k))
      by (apply Pos2Z.inj_pow_pos).
    destruct (SFdiv_core_binary PyFloat.prec PyFloat.emax (Zpos p) 0
                                (Zpos (Pos.pow 10 k)) 0) as [[q e'] l].
    simpl in Hq. now apply binary_round_aux_sign.
Qed.

(** *** The parsed floats *)

Lemma sign_of_other (c : ascii) (s : string) :
  c <> "-"%char -> fst (PyFloat.sign_of (String c s)) = false.
Proof.
  intros Hc. unfold PyFloat.sign_of.
  destruct c as [[] [] [] [] [] [] [] []]; try reflexivity.
  congruence.
Qed.

(** A text that does not start with a minus sign, white space apart, parses
    to a float with the sign bit clear, or to NaN. *)
Lemma of_string_sign (s : string) (x : PyFloat.float) :
  match PyStr.strip_by PyFloat.is_c_space s with
  | String "-" _ => true
  | _ => false
  end = false ->
  PyFloat.of_string s = Some x ->
  x = PyFloat.nan \/ Spec.positive_or_zero x.
Proof.
  intros Hlead. unfold PyFloat.of_string.
  destruct (PyFloat.underscores_ok Ascii.zero _) eqn:Hu; [| discriminate].
  assert (Hsg : fst (PyFloat.sign_of
                       (PyStr.replace "_" "" (PyStr.strip_by PyFloat.is_c_space s)))
                = false).
  { destruct (PyStr.strip_by PyFloat.is_c_space s) as [| c t]; [reflexivity |].
    unfold PyStr.replace. cbn [PyStr.replace_from prefix].
    destruct (ascii_dec "_" c) as [<- | Hne].
    - cbn in Hu. discriminate Hu.
    - apply sign_of_other. intros ->. discriminate Hlead. }
  destruct (PyFloat.sign_of _) as [sg u]. simpl in Hsg. subst sg.
  destruct (String.eqb (PyStr.lower u) "inf" || String.eqb (PyStr.lower u) "infinity").
  - intros H. inversion H. right. reflexivity.
  - destruct (String.eqb (PyStr.lower u) "nan").
    + intros H. inversion H. now left.
    + destruct (PyFloat.decimal u) as [[m e] |]; [| discriminate].
      intros H. inversion H. right. apply of_decimal_sign.
Qed.

Lemma parse_float_sign (text : string) :
  Spec.leading_minus text = false ->
  _parse_float text = PyFloat.nan \/ Spec.positive_or_zero (_parse_float text).
Proof.
  intros H. unfold _parse_float.
  destruct (PyFloat.of_string _) as [x |] eqn:E.
  - apply (of_string_sign _ _ H E).
  - right. reflexivity.
Qed.

(** *** The figures of a parsed row *)

Lemma index_In {A : Type} (l : list A) (i : Z) (a : A) :
  PyList.index l i = Ok a -> In a l.
Proof.
  unfold PyList.index.
  destruct (_ || _)%bool; [discriminate |].
  destruct (nth_error l _) eqn:E; [| discriminate].
  intros H. inversion H. subst. eapply nth_error_In. eassumption.
Qed.

(** The text at a numeric column is the text of a token of the row, and
    [_is_numeric] accepts it. *)
Lemma numeric_col_text (row : Row) (i : Z) (idx : nat) (text : string) :
  PyList.index (numeric_cols_from 0 (map Token.text row)) i = Ok idx ->
  PyList.index (map Token.text row) (Z.of_nat idx) = Ok text ->
  exists tok, In tok row /\ _is_numeric (Token.text tok) = true
              /\ text = Token.text tok.
Proof.
  intros Hidx Htext.
  apply index_In in Hidx. rewrite numeric_cols_positions in Hidx.
  apply numeric_positions_bound in Hidx. destruct Hidx as [Hlt Hnum].
  rewrite (index_nat _ _ "" Hlt) in Htext. inversion Htext as [Heq].
  rewrite Heq in Hnum.
  assert (Hin : In text (map Token.text row)).
  { rewrite <- Heq. now apply nth_In. }
  apply in_map_iff in Hin. destruct Hin as [tok [Ht Hin]].
  exists tok. subst text. rewrite Ht. auto.
Qed.

(** Each figure of a parsed item is the default quantity [1.0] or the value
    that [_parse_float] gives for the text of a numeric token of the row. *)
Lemma parse_row_figures (row : Row) (row_idx : nat) (item : Item.t) :
  _parse_row row row_idx = Ok (Some item) ->
  Forall (fun f => f = Some PyFloat.one
                   \/ exists tok, In tok row
                                  /\ _is_numeric (Token.text tok) = true
                                  /\ f = Some (_parse_float (Token.text tok)))
         (Spec.figures item).
Proof.
  unfold _parse_row. destruct (List.length row <? 2)%nat; [discriminate |].
  destruct (_parse_row_try row row_idx) as [r |] eqn:E; [| discriminate].
  intros H. inversion H. subst r. clear H. revert E.
  unfold _parse_row_try.
  destruct (3 <=? _)%nat.
  - destruct (PyList.index _ (-3)) as [qty_idx |] eqn:Iq; [| discriminate].
    destruct (PyList.index _ (-2)) as [rate_idx |] eqn:Ir; [| discriminate].
    destruct (PyList.index _ (-1)) as [amount_idx |] eqn:Ia; [| discriminate].
    cbn [bind].
    destruct (PyList.index (map Token.text row) (Z.of_nat qty_idx))
      as [tq |] eqn:Eq; [| discriminate].
    destruct (PyList.index (map Token.text row) (Z.of_nat rate_idx))
      as [tr |] eqn:Er; [| discriminate].
    destruct (PyList.index (map Token.text row) (Z.of_nat amount_idx))
      as [ta |] eqn:Ea; [| discriminate].
    cbn [bind].
    destruct (PyList.index (map Token.confidence row) (Z.of_nat qty_idx));
      [| discriminate].
    destruct (PyList.index (map Token.confidence row) (Z.of_nat rate_idx));
      [| discriminate].
    destruct (PyList.index (map Token.confidence row) (Z.of_nat amount_idx));
      [| discriminate].
    cbn [bind]. intros H. inversion H. clear H. try subst item.
    destruct (numeric_col_text _ _ _ _ Iq Eq) as (t1 & ? & ? & ->).
    destruct (numeric_col_text _ _ _ _ Ir Er) as (t2 & ? & ? & ->).
    destruct (numeric_col_text _ _ _ _ Ia Ea) as (t3 & ? & ? & ->).
    unfold Spec.figures. cbn.
    constructor; [right; eauto |].
    constructor; [right; eauto |].
    constructor; [right; eauto | constructor].
  - destruct (1 <=? _)%nat; [| discriminate].
    destruct (PyList.index _ (-1)) as [last_idx |] eqn:Ia; [| discriminate].
    cbn [bind].
    destruct (PyList.index (map Token.text row) (Z.of_nat last_idx))
      as [ta |] eqn:Ea; [| discriminate].
    cbn [bind]. intros H. inversion H. clear H. try subst item.
    destruct (numeric_col_text _ _ _ _ Ia Ea) as (t3 & ? & ? & ->).
    unfold Spec.figures. cbn.
    constructor; [now left |].
    constructor; [right; eauto |].
    constructor; [right; eauto | constructor].
Qed.

Lemma parse_rows_In (rows : list Row) (item : Item.t) :
  In item (parse_rows rows) ->
  exists row row_idx, In row rows /\ _parse_row row row_idx = Ok (Some item).
Proof.
  unfold parse_rows. rewrite parse_rows_from_spec. intros H.
  apply in_flat_map in H. destruct H as [[i row] [Hin Hitem]].
  exists row, i. split; [eapply in_combine_r; eassumption |].
  simpl in Hitem.
  destruct (_parse_row row i) as [[it |] | e]; simpl in Hitem; try contradiction.
  destruct Hitem as [-> | []]. reflexivity.
Qed.

(** C4, as the specification states it, fails on a row whose figures carry a
    minus sign: the quantity is -1.0 and the amount -5.0. *)
Lemma C4_counterexample :
  exists item,
    parse_rows [Examples.negative_row] = [item]
    /\ Item.item_quantity item = Some (PyFloat.of_Z (-1))
    /\ Spec.non_negative (PyFloat.of_Z (-1)) = false
    /\ Item.item_amount item = Some (PyFloat.of_Z (-5))
    /\ Spec.non_negative (PyFloat.of_Z (-5)) = false.
Proof.
  eexists. split; [vm_compute; reflexivity |].
  repeat split; vm_compute; reflexivity.
Qed.

(** C4, amended: when no numeric token of the rows has a leading minus
    sign, every item that the parser produces has a quantity, a rate and an
    amount, and each of them is greater than or equal to zero, or is NaN
    (the value of a token that spells nan). *)
Theorem C4_figures_not_negative (rows : list Row) (item : Item.t) :
  (forall row tok, In row rows -> In tok row ->
                   _is_numeric (Token.text tok) = true ->
                   Spec.leading_minus (Token.text tok) = false) ->
  In item (parse_rows rows) ->
  Forall (fun f => exists x, f = Some x
                             /\ (x = PyFloat.nan \/ Spec.non_negative x = true))
         (Spec.figures item).
Proof.
  intros Hno Hin.
  destruct (parse_rows_In _ _ Hin) as (row & row_idx & Hrow & Hparse).
  apply parse_row_figures in Hparse.
  eapply Forall_impl; [| exact Hparse].
  intros f [-> | (tok & Htok & Hnum & ->)].
  - exists PyFloat.one. split; [reflexivity | right; reflexivity].
  - exists (_parse_float (Token.text tok)). split; [reflexivity |].
    destruct (parse_float_sign (Token.text tok) (Hno row tok Hrow Htok Hnum))
      as [H | H].
    + now left.
    + right. now apply positive_or_zero_non_negative.
Qed.

Lemma C4_figures_not_negative_witness :
  (forall row tok, In row [Examples.consultation_row] -> In tok row ->
                   _is_numeric (Token.text tok) = true ->
                   Spec.leading_minus (Token.text tok) = false)
  /\ In (Spec.three_column_item Examples.consultation_row 0 "Consultation Fee" 2 3 4)
        (parse_rows [Examples.consultation_row])
  /\ Forall (fun f => exists x, f = Some x
                                /\ (x = PyFloat.nan \/ Spec.non_negative x = true))
            (Spec.figures
               (Spec.three_column_item Examples.consultation_row 0
                                       "Consultation Fee" 2 3 4)).
Proof.
  assert (H1 : forall row tok, In row [Examples.consultation_row] -> In tok row ->
                               _is_numeric (Token.text tok) = true ->
                               Spec.leading_minus (Token.text tok) = false).
  { intros row tok [<- | []] Htok _. simpl in Htok.
    repeat (destruct Htok as [<- | Htok]; [reflexivity |]). destruct Htok. }
  assert (H2 : In (Spec.three_column_item Examples.consultation_row 0
                                          "Consultation Fee" 2 3 4)
                  (parse_rows [Examples.consultation_row])).
  { left. vm_compute. reflexivity. }
  split; [exact H1 |]. split; [exact H2 |].
  exact (C4_figures_not_negative _ _ H1 H2).
Defined.

End SignClaims.

(** * Further properties of the code *)

(** ** Row grouping: what every grouping keeps *)

Section GroupingStructure.
Import OCRExtractor.

Variable mean : list PyFloat.float -> PyFloat.float.

(** The loop only cuts the list of tokens: the rows, end to end, are the
    rows so far, the current row and the tokens to come. *)
Lemma group_loop_concat (y_tolerance : PyFloat.float) (rest : list Token.t) :
  forall (rows : list Row) (current_row : Row),
    List.concat (group_loop mean y_tolerance rows current_row rest)
    = List.concat rows ++ current_row ++ rest.
Proof.
  induction rest as [| item rest IH]; intros rows current; simpl.
  - rewrite app_nil_r. destruct current as [| c cs].
    + now rewrite app_nil_r.
    + rewrite concat_app. simpl. now rewrite app_nil_r.
  - destruct (belongs mean y_tolerance current item); rewrite IH.
    + now rewrite <- app_assoc.
    + rewrite concat_app. simpl. now rewrite app_nil_r, <- app_assoc.
Qed.

Lemma group_loop_nonempty (y_tolerance : PyFloat.float) (rest : list Token.t) :
  forall (rows : list Row) (current_row : Row),
    Forall (fun row => row <> []) rows ->
    current_row <> [] ->
    Forall (fun row => row <> []) (group_loop mean y_tolerance rows current_row rest).
Proof.
  induction rest as [| item rest IH]; intros rows current Hrows Hcur; simpl.
  - destruct current; [congruence |].
    apply Forall_app. split; [assumption | repeat constructor; discriminate].
  - destruct (belongs mean y_tolerance current item); apply IH.
    + assumption.
    + destruct current; discriminate.
    + apply Forall_app. split; [assumption | repeat constructor; assumption].
    + discriminate.
Qed.

(** The rows are the sorted token list cut into non-empty segments, each
    segment then sorted by [center.x]. *)
Lemma group_by_row_segments (items : list Token.t) (y_tolerance : PyFloat.float) :
  exists segments,
    List.concat segments = PyList.sorted center_y items
    /\ Forall (fun row => row <> []) segments
    /\ group_by_row_with mean items y_tolerance
       = map (PyList.sorted center_x) segments.
Proof.
  unfold group_by_row_with. destruct items as [| item0 items0].
  - exists []. repeat split; constructor.
  - destruct (PyList.sorted center_y (item0 :: items0)) as [| first others] eqn:Hs.
    + exists []. repeat split; constructor.
    + exists (group_loop mean y_tolerance [] [first] others). repeat split.
      * now rewrite group_loop_concat.
      * apply group_loop_nonempty; [constructor | discriminate].
Qed.

Lemma concat_map_perm {A : Type} (f : list A -> list A) (ls : list (list A)) :
  (forall l, Permutation (f l) l) ->
  Permutation (List.concat (map f ls)) (List.concat ls).
Proof.
  intros Hf. induction ls as [| l ls IH]; simpl.
  - constructor.
  - apply Permutation_app; [apply Hf | apply IH].
Qed.

Lemma nonempty_rows_length {A : Type} (ls : list (list A)) :
  Forall (fun l => l <> []) ls -> List.length ls <= List.length (List.concat ls).
Proof.
  induction 1 as [| l ls Hl Hls IH]; simpl; [lia |].
  rewrite length_app. destruct l; [congruence | simpl; lia].
Qed.

Lemma sorted_nonempty {A : Type} (key : A -> PyFloat.float) (l : list A) :
  l <> [] -> PyList.sorted key l <> [].
Proof.
  intros Hl Hs. pose proof (sorted_perm key l) as Hp. rewrite Hs in Hp.
  apply Permutation_nil in Hp. congruence.
Qed.

(** X1: whatever the tolerance and however the mean is computed, the rows
    returned by [group_by_row] hold every input token exactly once; no row is
    empty, there are at most as many rows as tokens, and there is no row
    exactly when there is no token. *)
Theorem X1_rows_partition_the_tokens (items : list Token.t)
        (y_tolerance : PyFloat.float) :
  Permutation (List.concat (group_by_row_with mean items y_tolerance)) items
  /\ Forall (fun row => row <> []) (group_by_row_with mean items y_tolerance)
  /\ List.length (group_by_row_with mean items y_tolerance) <= List.length items
  /\ (group_by_row_with mean items y_tolerance = [] <-> items = []).
Proof.
  destruct (group_by_row_segments items y_tolerance) as (segs & Hcat & Hne & ->).
  assert (Hperm : Permutation (List.concat (map (PyList.sorted center_x) segs)) items).
  { eapply Permutation_trans; [apply concat_map_perm; intros; apply sorted_perm |].
    rewrite Hcat. apply sorted_perm. }
  assert (Hne' : Forall (fun row : Row => row <> [])
                        (map (PyList.sorted center_x) segs)).
  { apply Forall_forall. intros row Hrow. apply in_map_iff in Hrow.
    destruct Hrow as [seg [<- Hseg]]. apply sorted_nonempty.
    rewrite Forall_forall in Hne. now apply Hne. }
  split; [exact Hperm |]. split; [exact Hne' |]. split.
  - rewrite <- (Permutation_length Hperm). now apply nonempty_rows_length.
  - split.
    + intros Hnil. rewrite Hnil in Hperm. simpl in Hperm.
      now apply Permutation_nil in Hperm.
    + intros ->. destruct segs as [| seg segs]; [reflexivity |].
      exfalso. inversion Hne as [| ? ? Hseg _]; subst.
      simpl in Hcat. destruct seg; [congruence | discriminate].
Qed.

(** X2: when no [center.x] of the input is NaN, every row returned by
    [group_by_row] lists its tokens in ascending order of [center.x]. *)
Theorem X2_every_row_ascending (items : list Token.t)
        (y_tolerance : PyFloat.float) :
  (forall item, In item items -> center_x item <> PyFloat.nan) ->
  Forall Spec.ascending_x (group_by_row_with mean items y_tolerance).
Proof.
  intros Hnan.
  destruct (group_by_row_segments items y_tolerance) as (segs & Hcat & Hne & ->).
  apply Forall_forall. intros row Hrow. apply in_map_iff in Hrow.
  destruct Hrow as [seg [<- Hseg]]. apply sorted_sorted.
  intros y Hy. apply Hnan.
  apply (Permutation_in _ (sorted_perm center_y items)).
  rewrite <- Hcat. apply in_concat. exists seg. auto.
Qed.

End GroupingStructure.

Lemma X2_every_row_ascending_witness :
  (forall item, In item Examples.two_line_tokens ->
                OCRExtractor.center_x item <> PyFloat.nan)
  /\ Forall Spec.ascending_x
            (OCRExtractor.group_by_row Examples.two_line_tokens
                                       OCRExtractor.default_y_tolerance)
  /\ map (map Token.text)
         (OCRExtractor.group_by_row Examples.two_line_tokens
                                    OCRExtractor.default_y_tolerance)
     = [["Paracetamol"; "10"; "5"; "50"]; ["Syringe"; "2"; "15"; "30"]].
Proof.
  assert (H : forall item, In item Examples.two_line_tokens ->
                           OCRExtractor.center_x item <> PyFloat.nan).
  { intros item Hin. simpl in Hin.
    repeat (destruct Hin as [<- | Hin]; [vm_compute; discriminate |]).
    destruct Hin. }
  split; [exact H |]. split.
  - exact (X2_every_row_ascending PyFloat.np_mean Examples.two_line_tokens
                                  OCRExtractor.default_y_tolerance H).
  - vm_compute. reflexivity.
Defined.

(** ** Row grouping: rows from top to bottom *)

Section GroupingOrder.
Import OCRExtractor.

Lemma compare_cont_spec (p q : positive) :
  CompareSpec (p = q) (p < q)%positive (q < p)%positive (Pos.compare_cont Eq p q).
Proof. apply Pos.compare_spec. Qed.

(** [<=] on floats is transitive. *)
Lemma leb_trans (x y z : PyFloat.float) :
  PyFloat.leb x y = true -> PyFloat.leb y z = true -> PyFloat.leb x z = true.
Proof.
  unfold PyFloat.leb, SFleb.
  destruct x as [sx|sx| |sx mx ex], y as [sy|sy| |sy my ey],
           z as [sz|sz| |sz mz ez];
    simpl; try discriminate; try reflexivity;
    try (destruct sx; discriminate || reflexivity);
    try (destruct sx, sy; discriminate || reflexivity);
    try (destruct sx, sz; discriminate || reflexivity);
    try (destruct sy, sz; discriminate || reflexivity);
    try (destruct sx, sy, sz; discriminate || reflexivity).
  destruct sx, sy, sz; try discriminate; try reflexivity;
    destruct (Z.compare_spec ex ey); try discriminate;
    destruct (Z.compare_spec ey ez); try discriminate;
    destruct (Z.compare_spec ex ez); try reflexivity; try lia;
    subst;
    destruct (compare_cont_spec mx my); try discriminate;
    destruct (compare_cont_spec my mz); try discriminate;
    destruct (compare_cont_spec mx mz); try reflexivity; simpl; lia.
Qed.

Lemma insert_strongly_sorted {A : Type} (key : A -> PyFloat.float) (x : A)
      (l : list A) :
  key x <> PyFloat.nan ->
  (forall y, In y l -> key y <> PyFloat.nan) ->
  StronglySorted (fun a b => PyFloat.leb (key a) (key b) = true) l ->
  StronglySorted (fun a b => PyFloat.leb (key a) (key b) = true)
                 (PyList.insert key x l).
Proof.
  intros Hx. induction l as [| y l IH]; intros Hl Hs; simpl.
  - repeat constructor.
  - inversion Hs as [| ? ? Hs' Hall]; subst.
    destruct (PyFloat.ltb (key y) (key x)) eqn:Hlt.
    + constructor.
      * apply IH; [intros z Hz; apply Hl; now right | assumption].
      * apply Forall_forall. intros z Hz.
        apply (Permutation_in _ (insert_perm key x l)) in Hz.
        destruct Hz as [<- | Hz]; [now apply ltb_leb |].
        rewrite Forall_forall in Hall. now apply Hall.
    + assert (Hxy : PyFloat.leb (key x) (key y) = true)
        by (apply not_ltb_leb; [assumption | apply Hl; now left | assumption]).
      constructor; [assumption |].
      constructor; [assumption |].
      apply Forall_forall. intros z Hz. rewrite Forall_forall in Hall.
      apply leb_trans with (y := key y); [assumption | now apply Hall].
Qed.

Lemma sorted_strongly_sorted {A : Type} (key : A -> PyFloat.float) (l : list A) :
  (forall y, In y l -> key y <> PyFloat.nan) ->
  StronglySorted (fun a b => PyFloat.leb (key a) (key b) = true)
                 (PyList.sorted key l).
Proof.
  induction l as [| x l IH]; intros Hl; simpl.
  - constructor.
  - apply insert_strongly_sorted.
    + apply Hl. now left.
    + intros y Hy. apply Hl. right.
      apply (Permutation_in _ (sorted_perm key l) Hy).
    + apply IH. intros y Hy. apply Hl. now right.
Qed.

Lemma strongly_sorted_app {A : Type} (R : A -> A -> Prop) (l1 l2 : list A) :
  StronglySorted R (l1 ++ l2) ->
  forall a b, In a l1 -> In b l2 -> R a b.
Proof.
  induction l1 as [| x l1 IH]; simpl; intros Hs a b Ha Hb; [contradiction |].
  inversion Hs as [| ? ? Hs' Hall]; subst.
  destruct Ha as [<- | Ha].
  - rewrite Forall_forall in Hall. apply Hall. apply in_or_app. now right.
  - now apply IH.
Qed.

Lemma strongly_sorted_tail {A : Type} (R : A -> A -> Prop) (l1 l2 : list A) :
  StronglySorted R (l1 ++ l2) -> StronglySorted R l2.
Proof.
  induction l1 as [| x l1 IH]; simpl; intros Hs; [assumption |].
  inversion Hs; subst. now apply IH.
Qed.

(** X3: when no [center.y] of the input is NaN, the rows come from top to
    bottom: every token of a row has a [center.y] less than or equal to that
    of every token of any row after it. *)
Theorem X3_rows_top_to_bottom (mean : list PyFloat.float -> PyFloat.float)
        (items : list Token.t) (y_tolerance : PyFloat.float)
        (before : list Row) (upper : Row) (after : list Row) (lower : Row)
        (a b : Token.t) :
  (forall item, In item items -> center_y item <> PyFloat.nan) ->
  group_by_row_with mean items y_tolerance = before ++ upper :: after ->
  In lower after ->
  In a upper -> In b lower ->
  PyFloat.leb (center_y a) (center_y b) = true.
Proof.
  intros Hnan Hrows Hlower Ha Hb.
  destruct (group_by_row_segments mean items y_tolerance) as (segs & Hcat & _ & Heq).
  rewrite Heq in Hrows.
  apply map_eq_app in Hrows. destruct Hrows as (s1 & s2 & -> & _ & Hs2).
  destruct s2 as [| useg s2]; [discriminate |].
  simpl in Hs2. inversion Hs2 as [[Hu Hafter]]. subst upper after.
  apply in_map_iff in Hlower. destruct Hlower as [lseg [<- Hlseg]].
  apply (Permutation_in _ (sorted_perm center_x useg)) in Ha.
  apply (Permutation_in _ (sorted_perm center_x lseg)) in Hb.
  pose proof (sorted_strongly_sorted center_y items Hnan) as Hs.
  rewrite <- Hcat, concat_app in Hs. simpl in Hs.
  apply strongly_sorted_tail in Hs.
  apply (strongly_sorted_app _ useg (List.concat s2) Hs a b Ha).
  apply in_concat. exists lseg. auto.
Qed.

Lemma X3_rows_top_to_bottom_witness :
  (forall item, In item Examples.two_line_tokens ->
                center_y item <> PyFloat.nan)
  /\ PyFloat.leb (center_y (Examples.tok "50" "200" "51"))
                 (center_y (Examples.tok "15" "150" "79")) = true.
Proof.
  assert (H : forall item, In item Examples.two_line_tokens ->
                           center_y item <> PyFloat.nan).
  { intros item Hin. simpl in Hin.
    repeat (destruct Hin as [<- | Hin]; [vm_compute; discriminate |]).
    destruct Hin. }
  split; [exact H |].
  apply (X3_rows_top_to_bottom
           PyFloat.np_mean Examples.two_line_tokens default_y_tolerance []
           (PyList.sorted center_x
              [Examples.tok "5" "150" "49"; Examples.tok "10" "100" "50";
               Examples.tok "Paracetamol" "10" "50"; Examples.tok "50" "200" "51"])
           [PyList.sorted center_x
              [Examples.tok "15" "150" "79"; Examples.tok "2" "100" "80";
               Examples.tok "Syringe" "10" "80"; Examples.tok "30" "200" "81"]]
           (PyList.sorted center_x
              [Examples.tok "15" "150" "79"; Examples.tok "2" "100" "80";
               Examples.tok "Syringe" "10" "80"; Examples.tok "30" "200" "81"])
           _ _ H).
  - vm_compute. reflexivity.
  - left. reflexivity.
  - vm_compute. auto 10.
  - vm_compute. auto 10.
Defined.

End GroupingOrder.

(** ** Row grouping: tokens of one band make one row *)

Section FloatTheory.
Import Reals Lra FloatValue.
Local Open Scope R_scope.

Lemma bpow_pos (e : Z) : 0 < bpow e.
Proof. apply powerRZ_lt. lra. Qed.

Lemma bpow_add (a b : Z) : bpow (a + b) = bpow a * bpow b.
Proof. apply powerRZ_add. lra. Qed.

Lemma bpow_Z (n : Z) : (0 <= n)%Z -> bpow n = IZR (2 ^ n).
Proof.
  intros Hn. unfold bpow. rewrite <- (Z2Nat.id n Hn) at 1.
  rewrite <- pow_powerRZ. rewrite pow_IZR. now rewrite Z2Nat.id.
Qed.

Lemma bpow_le (a b : Z) : (a <= b)%Z -> bpow a <= bpow b.
Proof.
  intros H. replace b with (a + (b - a))%Z by lia. rewrite bpow_add.
  rewrite (bpow_Z (b - a)) by lia.
  assert (1 <= IZR (2 ^ (b - a))).
  { apply IZR_le. assert (0 < 2 ^ (b - a))%Z by (apply Z.pow_pos_nonneg; lia). lia. }
  pose proof (bpow_pos a). nra.
Qed.

Lemma bpow_succ (a : Z) : bpow (a + 1) = 2 * bpow a.
Proof. rewrite bpow_add. unfold bpow at 2. simpl. lra. Qed.

(** An integer times a power of two, seen from a lower exponent. *)
Lemma scale_down (m : Z) (e t : Z) :
  (t <= e)%Z -> IZR m * bpow e = IZR (m * 2 ^ (e - t)) * bpow t.
Proof.
  intros H. rewrite mult_IZR, <- bpow_Z by lia.
  rewrite Rmult_assoc, <- bpow_add. f_equal. f_equal. lia.
Qed.

(** *** Binary digits *)

Lemma digits2_pos_bounds (m : positive) :
  (2 ^ (Zpos (digits2_pos m) - 1) <= Zpos m < 2 ^ Zpos (digits2_pos m))%Z.
Proof.
  induction m as [m IH | m IH |]; cbn [digits2_pos].
  - rewrite Pos2Z.inj_succ.
    replace (Z.succ (Z.pos (digits2_pos m)) - 1)%Z
      with (Z.succ (Z.pos (digits2_pos m) - 1))%Z by lia.
    rewrite !Z.pow_succ_r by lia. lia.
  - rewrite Pos2Z.inj_succ.
    replace (Z.succ (Z.pos (digits2_pos m)) - 1)%Z
      with (Z.succ (Z.pos (digits2_pos m) - 1))%Z by lia.
    rewrite !Z.pow_succ_r by lia. lia.
  - simpl. lia.
Qed.

Lemma Zdigits2_bounds (m : Z) :
  (0 < m)%Z -> (2 ^ (Zdigits2 m - 1) <= m < 2 ^ Zdigits2 m)%Z.
Proof.
  destruct m as [| p | p]; try lia. intros _. apply digits2_pos_bounds.
Qed.

Lemma Zdigits2_nonneg (m : Z) : (0 <= Zdigits2 m)%Z.
Proof. destruct m; simpl; lia. Qed.

Lemma Zdigits2_pos (m : Z) : (0 < m)%Z -> (0 < Zdigits2 m)%Z.
Proof. destruct m; simpl; lia. Qed.

Lemma Zdigits2_unique (m d : Z) :
  (0 < m)%Z -> (2 ^ (d - 1) <= m < 2 ^ d)%Z -> Zdigits2 m = d.
Proof.
  intros Hm [Hlo Hhi]. pose proof (Zdigits2_bounds m Hm) as [Hlo' Hhi'].
  pose proof (Zdigits2_pos m Hm) as Hd.
  assert (Hd0 : (0 < d)%Z).
  { destruct (Z.lt_ge_cases 0 d) as [|H0]; [assumption |].
    rewrite (Z.pow_neg_r 2 d) in Hhi by lia || (destruct (Z.eq_dec d 0); subst; simpl in Hhi; lia).
    lia. }
  destruct (Z.lt_trichotomy (Zdigits2 m) d) as [H | [H | H]]; [| assumption |].
  - assert (2 ^ Zdigits2 m <= 2 ^ (d - 1))%Z by (apply Z.pow_le_mono_r; lia). lia.
  - assert (2 ^ d <= 2 ^ (Zdigits2 m - 1))%Z by (apply Z.pow_le_mono_r; lia). lia.
Qed.

Lemma Zdigits2_mono (a b : Z) :
  (0 <= a <= b)%Z -> (Zdigits2 a <= Zdigits2 b)%Z.
Proof.
  intros [Ha Hab]. destruct (Z.eq_dec a 0) as [-> | Hne].
  - apply Zdigits2_nonneg.
  - pose proof (Zdigits2_bounds a ltac:(lia)) as [Hlo _].
    pose proof (Zdigits2_bounds b ltac:(lia)) as [_ Hhi].
    destruct (Z.le_gt_cases (Zdigits2 a) (Zdigits2 b)) as [| H]; [assumption |].
    assert (2 ^ Zdigits2 b <= 2 ^ (Zdigits2 a - 1))%Z
      by (apply Z.pow_le_mono_r; lia).
    lia.
Qed.

(** *** Canonical mantissas *)

Lemma canonical_facts (m e : Z) :
  (0 < m)%Z -> canonical m e ->
  (m < 2 ^ 53)%Z /\ (-1074 <= e)%Z /\ (-1074 < e -> 2 ^ 52 <= m)%Z.
Proof.
  intros Hm Hc. unfold canonical, fexp, emin, PyFloat.prec, PyFloat.emax in Hc.
  pose proof (Zdigits2_bounds m Hm) as [Hlo Hhi].
  pose proof (Zdigits2_pos m Hm) as Hd.
  assert (Hd53 : (Zdigits2 m <= 53)%Z) by lia.
  split; [| split; [lia |]].
  - assert (2 ^ Zdigits2 m <= 2 ^ 53)%Z by (apply Z.pow_le_mono_r; lia). lia.
  - intros He. assert (Hd' : Zdigits2 m = 53%Z) by lia.
    rewrite Hd' in Hlo. exact Hlo.
Qed.

Lemma canonical_zero (e : Z) : canonical 0 e -> e = (-1074)%Z.
Proof.
  unfold canonical, fexp, emin, PyFloat.prec, PyFloat.emax. simpl. lia.
Qed.

Lemma bounded_canonical (m : positive) (e : Z) :
  SpecFloat.bounded PyFloat.prec PyFloat.emax m e = true ->
  canonical (Zpos m) e /\ (e <= 971)%Z.
Proof.
  unfold SpecFloat.bounded, canonical_mantissa, canonical. intros H.
  apply andb_true_iff in H. destruct H as [H1 H2].
  apply Z.eqb_eq in H1. apply Z.leb_le in H2.
  unfold PyFloat.prec, PyFloat.emax in *. simpl Zdigits2. split; [exact H1 | lia].
Qed.

Lemma value_nonneg (w : PyFloat.float) : nonneg_finite w -> 0 <= value w.
Proof.
  destruct w as [s | s | | [] m e]; simpl; try tauto; try lra.
  intros _. pose proof (bpow_pos e).
  assert (0 < IZR (Z.pos m)) by (apply IZR_lt; lia). nra.
Qed.

(** No binary64 number lies strictly between two neighbours. *)
Lemma no_number_between (m t : Z) (w : PyFloat.float) :
  (0 <= m)%Z -> canonical m t -> nonneg_finite w ->
  IZR m * bpow t < value w -> IZR (m + 1) * bpow t <= value w.
Proof.
  intros Hm Hc Hw Hlt.
  destruct w as [s | s | | [] mw ew]; simpl in Hw; try tauto.
  - simpl in Hlt. pose proof (bpow_pos t).
    assert (0 <= IZR m) by (apply IZR_le; lia). nra.
  - simpl in Hlt |- *. apply bounded_canonical in Hw. destruct Hw as [Hcw Hew].
    destruct (canonical_facts (Zpos mw) ew ltac:(lia) Hcw) as (Hmw & Hemin & _).
    destruct (Z.le_gt_cases t ew) as [Hle | Hgt].
    + rewrite (scale_down (Zpos mw) ew t Hle) in Hlt |- *.
      pose proof (bpow_pos t) as Hb.
      assert (Hi : (m < Z.pos mw * 2 ^ (ew - t))%Z).
      { apply lt_IZR. nra. }
      assert (IZR (m + 1) <= IZR (Z.pos mw * 2 ^ (ew - t))) by (apply IZR_le; lia).
      nra.
    + exfalso. assert (Hm0 : (0 < m)%Z).
      { destruct (Z.eq_dec m 0) as [-> | ]; [| lia].
        apply canonical_zero in Hc. lia. }
      destruct (canonical_facts m t Hm0 Hc) as (_ & _ & Hbig).
      specialize (Hbig ltac:(lia)).
      assert (H1 : IZR (Z.pos mw) * bpow ew <= IZR (2 ^ 53) * bpow ew).
      { pose proof (bpow_pos ew). assert (IZR (Z.pos mw) <= IZR (2 ^ 53)) by (apply IZR_le; lia). nra. }
      assert (H2 : bpow (ew + 1) <= bpow t) by (apply bpow_le; lia).
      rewrite bpow_succ in H2.
      assert (H3 : IZR (2 ^ 52) <= IZR m) by (apply IZR_le; lia).
      replace (IZR (2 ^ 53)) with (2 * IZR (2 ^ 52)) in H1
        by (rewrite <- mult_IZR; f_equal).
      pose proof (bpow_pos ew). pose proof (bpow_pos t).
      assert (0 < IZR (2 ^ 52)) by (apply IZR_lt; lia).
      nra.
Qed.

Lemma number_below (m t : Z) (w : PyFloat.float) :
  (0 <= m)%Z -> canonical m t -> nonneg_finite w ->
  value w < IZR (m + 1) * bpow t -> value w <= IZR m * bpow t.
Proof.
  intros Hm Hc Hw Hlt.
  destruct (Rle_or_lt (value w) (IZR m * bpow t)) as [| H]; [assumption |].
  pose proof (no_number_between m t w Hm Hc Hw H). lra.
Qed.

(** *** The order of binary64 numbers is the order of their values *)

Lemma leb_value (x y : PyFloat.float) :
  nonneg_finite x -> nonneg_finite y ->
  (PyFloat.leb x y = true <-> value x <= value y).
Proof.
  intros Hx Hy. unfold PyFloat.leb, SFleb.
  destruct x as [sx | sx | | [] mx ex], y as [sy | sy | | [] my ey];
    simpl in Hx, Hy; try tauto; cbn [SFcompare value].
  - split; [lra | reflexivity].
  - split; [| reflexivity]. intros _.
    apply (value_nonneg (S754_finite false my ey) Hy).
  - split; [discriminate |]. intros H. exfalso.
    pose proof (bpow_pos ex). assert (0 < IZR (Z.pos mx)) by (apply IZR_lt; lia).
    nra.
  - apply bounded_canonical in Hx, Hy. destruct Hx as [Hcx _], Hy as [Hcy _].
    destruct (canonical_facts (Zpos mx) ex ltac:(lia) Hcx) as (Hx1 & Hx2 & Hx3).
    destruct (canonical_facts (Zpos my) ey ltac:(lia) Hcy) as (Hy1 & Hy2 & Hy3).
    assert (Hlt : forall m1 e1 m2 e2,
               (0 < m1 < 2 ^ 53)%Z -> (2 ^ 52 <= m2)%Z -> (e1 < e2)%Z ->
               IZR m1 * bpow e1 < IZR m2 * bpow e2).
    { intros m1 e1 m2 e2 H1 H2 He.
      assert (Hb : bpow (e1 + 1) <= bpow e2) by (apply bpow_le; lia).
      rewrite bpow_succ in Hb. pose proof (bpow_pos e1). pose proof (bpow_pos e2).
      assert (IZR m1 < IZR (2 ^ 53)) by (apply IZR_lt; lia).
      assert (IZR (2 ^ 52) <= IZR m2) by (apply IZR_le; lia).
      replace (IZR (2 ^ 53)) with (2 * IZR (2 ^ 52)) in *
        by (rewrite <- mult_IZR; f_equal).
      assert (0 < IZR (2 ^ 52)) by (apply IZR_lt; lia).
      nra. }
    destruct (Z.compare_spec ex ey) as [-> | He | He].
    + fold (Pos.compare mx my). pose proof (bpow_pos ey) as Hb.
      destruct (Pos.compare_spec mx my) as [-> | Hm | Hm].
      * split; [lra | reflexivity].
      * split; [| reflexivity]. intros _.
        assert (IZR (Z.pos mx) <= IZR (Z.pos my)) by (apply IZR_le; lia). nra.
      * split; [discriminate |]. intros H. exfalso.
        assert (IZR (Z.pos my) < IZR (Z.pos mx)) by (apply IZR_lt; lia). nra.
    + split; [| reflexivity]. intros _.
      apply Rlt_le, Hlt; lia.
    + split; [discriminate |]. intros H. exfalso.
      assert (IZR (Z.pos my) * bpow ey < IZR (Z.pos mx) * bpow ex)
        by (apply Hlt; lia).
      lra.
Qed.

(** *** Shifting a mantissa to the right *)

Lemma shr_m_of_loc (m : Z) (l : location) : shr_m (shr_record_of_loc m l) = m.
Proof. destruct l as [| []]; reflexivity. Qed.

Lemma shr_1_spec (mrs : shr_record) (e : Z) (v : R) :
  encloses mrs e v ->
  encloses (shr_1 mrs) (e + 1) v /\ shr_m (shr_1 mrs) = (shr_m mrs / 2)%Z.
Proof.
  destruct mrs as [m r s]. unfold encloses. cbn [shr_m shr_r shr_s].
  intros (Hm & [Hlo Hhi] & Hloc). rewrite bpow_succ. pose proof (bpow_pos e) as Hb.
  destruct m as [| [p | p |] |]; try lia; cbn [shr_1 shr_m shr_r shr_s].
  - (* 0 *)
    cbn [orb]. simpl in Hlo, Hhi, Hloc. simpl.
    repeat split; try lia; try nra.
    destruct (r || s); nra.
  - (* 2p + 1 *)
    replace (Z.pos p~1) with (2 * Z.pos p + 1)%Z in * by lia.
    replace (2 * Z.pos p + 1 + 1)%Z with (2 * (Z.pos p + 1))%Z in Hhi by lia.
    repeat (rewrite mult_IZR in * || rewrite plus_IZR in *). cbn [orb].
    repeat split; try lia; try nra.
    apply Z.div_unique with (r := 1%Z); lia.
  - (* 2p *)
    replace (Z.pos p~0) with (2 * Z.pos p)%Z in * by lia.
    repeat (rewrite mult_IZR in * || rewrite plus_IZR in *). cbn [orb].
    repeat split; try lia; try nra.
    + destruct (r || s); nra.
    + apply Z.div_unique with (r := 0%Z); lia.
  - (* 1 *)
    cbn [orb]. simpl in Hlo, Hhi. simpl.
    repeat split; try lia; try nra.
Qed.

Lemma shr_iter_spec (v : R) (p : positive) :
  forall (mrs : shr_record) (e : Z),
    encloses mrs e v ->
    encloses (SpecFloat.iter_pos shr_1 p mrs) (e + Zpos p) v
    /\ shr_m (SpecFloat.iter_pos shr_1 p mrs) = (shr_m mrs / 2 ^ Zpos p)%Z.
Proof.
  assert (Hpow : forall n : positive, (0 < 2 ^ Z.pos n)%Z)
    by (intros; apply Z.pow_pos_nonneg; lia).
  induction p as [n IH | n IH |]; intros mrs e H; cbn [SpecFloat.iter_pos].
  - destruct (shr_1_spec mrs e v H) as [H1 E1].
    destruct (IH _ _ H1) as [H2 E2]. destruct (IH _ _ H2) as [H3 E3].
    split.
    + replace (e + Z.pos n~1)%Z with (e + 1 + Z.pos n + Z.pos n)%Z by lia.
      exact H3.
    + rewrite E3, E2, E1.
      rewrite !Z.div_div by (try lia; apply Hpow).
      f_equal. replace (Z.pos n~1) with (1 + Z.pos n + Z.pos n)%Z by lia.
      rewrite !Z.pow_add_r by lia. change (2 ^ 1)%Z with 2%Z. ring.
  - destruct (IH _ _ H) as [H2 E2]. destruct (IH _ _ H2) as [H3 E3].
    split.
    + replace (e + Z.pos n~0)%Z with (e + Z.pos n + Z.pos n)%Z by lia.
      exact H3.
    + rewrite E3, E2.
      rewrite !Z.div_div by (try lia; apply Hpow).
      f_equal. replace (Z.pos n~0) with (Z.pos n + Z.pos n)%Z by lia.
      rewrite !Z.pow_add_r by lia. ring.
  - destruct (shr_1_spec mrs e v H) as [H1 E1]. split; [exact H1 |].
    now rewrite E1.
Qed.

Lemma Zdigits2_shift (m n : Z) :
  (0 < m)%Z -> (0 <= n < Zdigits2 m)%Z ->
  (0 < m / 2 ^ n)%Z /\ Zdigits2 (m / 2 ^ n) = (Zdigits2 m - n)%Z.
Proof.
  intros Hm Hn. pose proof (Zdigits2_bounds m Hm) as [Hlo Hhi].
  assert (Hp : (0 < 2 ^ n)%Z) by (apply Z.pow_pos_nonneg; lia).
  assert (H1 : (2 ^ (Zdigits2 m - n - 1) <= m / 2 ^ n)%Z).
  { apply Z.div_le_lower_bound; [assumption |].
    rewrite <- Z.pow_add_r by lia.
    replace (n + (Zdigits2 m - n - 1))%Z with (Zdigits2 m - 1)%Z by lia.
    assumption. }
  assert (H2 : (m / 2 ^ n < 2 ^ (Zdigits2 m - n))%Z).
  { apply Z.div_lt_upper_bound; [assumption |].
    rewrite <- Z.pow_add_r by lia.
    replace (n + (Zdigits2 m - n))%Z with (Zdigits2 m) by lia. assumption. }
  assert (H0 : (0 < 2 ^ (Zdigits2 m - n - 1))%Z) by (apply Z.pow_pos_nonneg; lia).
  split; [lia |]. apply Zdigits2_unique; [lia |]. split; assumption.
Qed.

Lemma Zdigits2_shift_out (m n : Z) :
  (0 <= m)%Z -> (Zdigits2 m <= n)%Z -> (m / 2 ^ n = 0)%Z.
Proof.
  intros Hm Hn. destruct (Z.eq_dec m 0) as [-> | Hne].
  - apply Z.div_0_l. pose proof (Zdigits2_nonneg 0).
    assert (0 < 2 ^ n)%Z by (apply Z.pow_pos_nonneg; simpl in *; lia). lia.
  - pose proof (Zdigits2_bounds m ltac:(lia)) as [_ Hhi].
    pose proof (Zdigits2_pos m ltac:(lia)).
    apply Z.div_small. split; [lia |].
    assert (2 ^ Zdigits2 m <= 2 ^ n)%Z by (apply Z.pow_le_mono_r; lia). lia.
Qed.

(** [shr_fexp] brings a mantissa with digits enough to the exponent of the
    format, and keeps track of the real it locates. *)
Lemma shr_fexp_spec (m e : Z) (l : location) (v : R) :
  (0 <= m)%Z ->
  (e <= fexp PyFloat.prec PyFloat.emax (Zdigits2 m + e))%Z ->
  encloses (shr_record_of_loc m l) e v ->
  exists mrs t,
    shr_fexp PyFloat.prec PyFloat.emax m e l = (mrs, t)
    /\ encloses mrs t v
    /\ canonical (shr_m mrs) t.
Proof.
  intros Hm Hpre Henc. unfold shr_fexp, shr.
  remember (fexp PyFloat.prec PyFloat.emax (Zdigits2 m + e)) as t eqn:Ht.
  destruct (t - e)%Z as [| p | p] eqn:Hn; try lia.
  - exists (shr_record_of_loc m l), e. split; [reflexivity |].
    split; [assumption |]. unfold canonical. rewrite shr_m_of_loc.
    rewrite <- Ht. lia.
  - destruct (shr_iter_spec v p _ e Henc) as [H1 H2].
    rewrite shr_m_of_loc in H2.
    exists (SpecFloat.iter_pos shr_1 p (shr_record_of_loc m l)), (e + Z.pos p)%Z.
    split; [reflexivity |]. split; [assumption |].
    unfold canonical. rewrite H2.
    replace (e + Z.pos p)%Z with t by lia.
    unfold fexp, emin, PyFloat.prec, PyFloat.emax in *.
    destruct (Z.eq_dec m 0) as [-> | Hne].
    + rewrite Z.div_0_l by (assert (0 < 2 ^ Z.pos p)%Z by (apply Z.pow_pos_nonneg; lia); lia).
      simpl Zdigits2 in *. lia.
    + destruct (Z.lt_ge_cases (Z.pos p) (Zdigits2 m)) as [Hlt | Hge].
      * destruct (Zdigits2_shift m (Z.pos p) ltac:(lia) ltac:(lia)) as [_ Hd].
        rewrite Hd. lia.
      * rewrite (Zdigits2_shift_out m (Z.pos p)) by lia. simpl Zdigits2. lia.
Qed.

(** *** Rounding to nearest *)

Lemma fexp_mono (a b : Z) :
  (a <= b)%Z ->
  (fexp PyFloat.prec PyFloat.emax a <= fexp PyFloat.prec PyFloat.emax b)%Z.
Proof. unfold fexp, emin, PyFloat.prec, PyFloat.emax. lia. Qed.

Lemma value_below_top (w : PyFloat.float) :
  nonneg_finite w -> value w < IZR (2 ^ 52) * bpow 972.
Proof.
  intros Hw. destruct w as [s | s | | [] mw ew]; simpl in Hw; try tauto; simpl value.
  - pose proof (bpow_pos 972). assert (0 < IZR (2 ^ 52)) by (apply IZR_lt; lia). nra.
  - apply bounded_canonical in Hw. destruct Hw as [Hc He].
    destruct (canonical_facts (Zpos mw) ew ltac:(lia) Hc) as (Hm & _ & _).
    assert (Hb : bpow (ew + 1) <= bpow 972) by (apply bpow_le; lia).
    rewrite bpow_succ in Hb. pose proof (bpow_pos ew).
    assert (IZR (Z.pos mw) < IZR (2 ^ 53)) by (apply IZR_lt; lia).
    replace (IZR (2 ^ 53)) with (2 * IZR (2 ^ 52)) in *
      by (rewrite <- mult_IZR; f_equal).
    assert (0 < IZR (2 ^ 52)) by (apply IZR_lt; lia).
    assert (0 < IZR (Z.pos mw)) by (apply IZR_lt; lia).
    nra.
Qed.

Lemma round_nearest_even_cases (mrs : shr_record) (t : Z) (v : R) :
  encloses mrs t v ->
  round_nearest_even (shr_m mrs) (loc_of_shr_record mrs) = shr_m mrs
  \/ (round_nearest_even (shr_m mrs) (loc_of_shr_record mrs) = (shr_m mrs + 1)%Z
      /\ IZR (shr_m mrs) * bpow t < v).
Proof.
  destruct mrs as [m [] []]; unfold encloses; cbn [shr_m shr_r shr_s orb
    loc_of_shr_record round_nearest_even]; intros (_ & _ & Hloc).
  - right. auto.
  - destruct (Z.even m); [now left | right; auto].
  - now left.
  - now left.
Qed.

(** The float that [binary_round_aux] returns is the real it is given,
    rounded. *)
Lemma binary_round_aux_spec (m e : Z) (l : location) (v : R) :
  (0 <= m)%Z ->
  (e <= fexp PyFloat.prec PyFloat.emax (Zdigits2 m + e))%Z ->
  encloses (shr_record_of_loc m l) e v ->
  rounds_to v (binary_round_aux PyFloat.prec PyFloat.emax false m e l).
Proof.
  intros Hm Hpre Henc. unfold binary_round_aux.
  destruct (shr_fexp_spec m e l v Hm Hpre Henc) as (mrs1 & t1 & E1 & Henc1 & Hc1).
  rewrite E1.
  set (m2 := round_nearest_even (shr_m mrs1) (loc_of_shr_record mrs1)).
  assert (Hm1 : (0 <= shr_m mrs1)%Z) by (destruct Henc1; assumption).
  assert (Hcases : m2 = shr_m mrs1
                   \/ (m2 = (shr_m mrs1 + 1)%Z /\ IZR (shr_m mrs1) * bpow t1 < v))
    by (apply round_nearest_even_cases; assumption).
  assert (Hm2 : (shr_m mrs1 <= m2)%Z) by (destruct Hcases as [-> | [-> _]]; lia).
  assert (Henc2 : encloses (shr_record_of_loc m2 loc_Exact) t1 (IZR m2 * bpow t1)).
  { unfold encloses. cbn [shr_record_of_loc shr_m shr_r shr_s orb].
    pose proof (bpow_pos t1). rewrite plus_IZR. repeat split; try lia; nra. }
  assert (Hpre2 : (t1 <= fexp PyFloat.prec PyFloat.emax (Zdigits2 m2 + t1))%Z).
  { unfold canonical in Hc1. rewrite <- Hc1 at 1. apply fexp_mono.
    pose proof (Zdigits2_mono (shr_m mrs1) m2 ltac:(lia)). lia. }
  destruct (shr_fexp_spec m2 t1 loc_Exact _ ltac:(lia) Hpre2 Henc2)
    as (mrs2 & t2 & E2 & Henc2' & Hc2).
  rewrite E2. destruct Henc2' as (Hm3 & [Hlo3 Hhi3] & _).
  destruct Henc1 as (_ & [Hlo1 Hhi1] & _).
  (* what the rounded mantissa stands for, against any binary64 number *)
  assert (Hup : forall w, nonneg_finite w -> v <= value w ->
                          IZR (shr_m mrs2) * bpow t2 <= value w).
  { intros w Hw Hv. apply Rle_trans with (IZR m2 * bpow t1); [assumption |].
    destruct Hcases as [-> | [-> Hlt]]; [lra |].
    apply no_number_between; try assumption. lra. }
  assert (Hdown : forall w, nonneg_finite w -> value w <= v ->
                            value w <= IZR (shr_m mrs2) * bpow t2).
  { intros w Hw Hv. apply number_below; try assumption.
    apply Rle_lt_trans with (IZR m2 * bpow t1); [| assumption].
    destruct Hcases as [-> | [-> Hlt]].
    - apply number_below; try assumption. lra.
    - lra. }
  destruct (shr_m mrs2) as [| p | p] eqn:Em; [| | lia].
  - (* zero *)
    split; [right; exact I |]. split.
    + intros w Hw Hv. split; [exact I |]. simpl. now apply value_nonneg.
    + intros w Hw Hv. right. specialize (Hdown w Hw Hv). simpl in *. lra.
  - destruct (t2 <=? PyFloat.emax - PyFloat.prec)%Z eqn:Et.
    + (* a finite number *)
      assert (Hfin : nonneg_finite (S754_finite false p t2)).
      { simpl. unfold SpecFloat.bounded, canonical_mantissa.
        unfold canonical in Hc2. simpl Zdigits2 in Hc2.
        rewrite Hc2, Z.eqb_refl, Et. reflexivity. }
      split; [right; exact Hfin |]. split.
      * intros w Hw Hv. split; [exact Hfin |]. simpl. now apply Hup.
      * intros w Hw Hv. right. simpl. now apply Hdown.
    + (* overflow *)
      split; [now left |]. split.
      * intros w Hw Hv. exfalso. specialize (Hup w Hw Hv).
        pose proof (value_below_top w Hw) as Htop.
        apply Z.leb_gt in Et. unfold PyFloat.emax, PyFloat.prec in Et.
        destruct (canonical_facts (Zpos p) t2 ltac:(lia) Hc2) as (_ & _ & Hbig).
        specialize (Hbig ltac:(lia)).
        assert (Hb : bpow 972 <= bpow t2) by (apply bpow_le; lia).
        assert (IZR (2 ^ 52) <= IZR (Z.pos p)) by (apply IZR_le; lia).
        pose proof (bpow_pos 972).
        assert (0 < IZR (2 ^ 52)) by (apply IZR_lt; lia).
        nra.
      * intros w Hw Hv. now left.
Qed.

Lemma rounds_to_exact (r : PyFloat.float) :
  nonneg_finite r -> rounds_to (value r) r.
Proof.
  intros Hr. split; [now right |]. split.
  - intros w _ Hv. now split.
  - intros w _ Hv. now right.
Qed.

Lemma rounds_to_abs (v : R) (r : PyFloat.float) :
  rounds_to v r -> rounds_to v (PyFloat.abs r).
Proof.
  intros H. destruct r as [s | [] | | [] m e]; try exact H;
    try (destruct H as ([H | H] & _); [discriminate | contradiction]).
  destruct H as (_ & Hup & Hdown). split; [right; exact I |]. split.
  - intros w Hw Hv. destruct (Hup w Hw Hv) as [_ H]. now split.
  - intros w Hw Hv. destruct (Hdown w Hw Hv) as [H | H]; [discriminate |].
    now right.
Qed.

Lemma rounds_to_finite (v : R) (r w : PyFloat.float) :
  rounds_to v r -> nonneg_finite w -> v <= value w -> nonneg_finite r.
Proof. intros (_ & Hup & _) Hw Hv. now destruct (Hup w Hw Hv). Qed.

(** *** Aligning mantissas to the left *)

Lemma iter_xO (m : positive) (d : positive) :
  Zpos (Pos.iter xO m d) = (Zpos m * 2 ^ Zpos d)%Z.
Proof.
  apply (Pos.iter_ind _ xO m (fun d a => Zpos a = (Zpos m * 2 ^ Zpos d)%Z)).
  - rewrite Z.pow_1_r. lia.
  - intros p a Ha. rewrite Pos2Z.inj_succ, Z.pow_succ_r by lia.
    rewrite Pos2Z.inj_xO, Ha. ring.
Qed.

Lemma shl_align_spec (mx : positive) (ex ex' : Z) :
  exists mz ez,
    shl_align mx ex ex' = (mz, ez)
    /\ ez = Z.min ex ex'
    /\ Zpos mz = (Zpos mx * 2 ^ (ex - ez))%Z.
Proof.
  unfold shl_align. destruct (ex' - ex)%Z as [| p | p] eqn:E.
  - exists mx, ex. split; [reflexivity |]. split; [lia |].
    replace (ex - ex)%Z with 0%Z by lia. simpl. lia.
  - exists mx, ex. split; [reflexivity |]. split; [lia |].
    replace (ex - ex)%Z with 0%Z by lia. simpl. lia.
  - exists (Pos.iter xO mx p), ex'. split; [reflexivity |]. split; [lia |].
    rewrite iter_xO. f_equal. f_equal. lia.
Qed.

Lemma Zdigits2_mul_pow (m k : Z) :
  (0 < m)%Z -> (0 <= k)%Z -> Zdigits2 (m * 2 ^ k) = (Zdigits2 m + k)%Z.
Proof.
  intros Hm Hk. pose proof (Zdigits2_bounds m Hm) as [Hlo Hhi].
  pose proof (Zdigits2_pos m Hm) as Hd.
  assert (Hp : (0 < 2 ^ k)%Z) by (apply Z.pow_pos_nonneg; lia).
  apply Zdigits2_unique; [nia |]. split.
  - replace (Zdigits2 m + k - 1)%Z with (Zdigits2 m - 1 + k)%Z by lia.
    rewrite Z.pow_add_r by lia. nia.
  - rewrite Z.pow_add_r by lia. nia.
Qed.

Lemma value_scaled (m : positive) (e ez : Z) (mz : positive) :
  (ez <= e)%Z -> Zpos mz = (Zpos m * 2 ^ (e - ez))%Z ->
  IZR (Zpos mz) * bpow ez = IZR (Zpos m) * bpow e.
Proof.
  intros He Hmz. rewrite Hmz. symmetry. now apply scale_down.
Qed.

(** [binary_round] rounds the number that its mantissa and exponent stand
    for. *)
Lemma binary_round_spec (m : positive) (e : Z) :
  rounds_to (IZR (Zpos m) * bpow e)
            (binary_round PyFloat.prec PyFloat.emax false m e).
Proof.
  unfold binary_round.
  destruct (shl_align_spec m e (fexp PyFloat.prec PyFloat.emax
                                     (Z.pos (digits2_pos m) + e)))
    as (mz & ez & E & Hez & Hmz).
  rewrite E. rewrite <- (value_scaled m e ez mz) by (try lia; assumption).
  apply binary_round_aux_spec.
  - lia.
  - assert (Hd : Zdigits2 (Zpos mz) = (Zdigits2 (Zpos m) + (e - ez))%Z).
    { rewrite Hmz. apply Zdigits2_mul_pow; lia. }
    rewrite Hd. replace (Zdigits2 (Z.pos m) + (e - ez) + ez)%Z
      with (Z.pos (digits2_pos m) + e)%Z by (cbn [Zdigits2]; lia).
    lia.
  - unfold encloses. cbn [shr_record_of_loc shr_m shr_r shr_s orb].
    pose proof (bpow_pos ez). rewrite plus_IZR. repeat split; try lia; nra.
Qed.

Lemma abs_round_sign (m e : Z) (l : location) :
  PyFloat.abs (binary_round_aux PyFloat.prec PyFloat.emax true m e l)
  = PyFloat.abs (binary_round_aux PyFloat.prec PyFloat.emax false m e l).
Proof.
  unfold binary_round_aux.
  destruct (shr_fexp _ _ m e l) as [mrs1 t1].
  destruct (shr_fexp _ _ _ t1 loc_Exact) as [mrs2 t2].
  destruct (shr_m mrs2); [reflexivity | | reflexivity].
  destruct (t2 <=? _)%Z; reflexivity.
Qed.

(** *** Whole numbers *)

Lemma int_repr (B : Z) :
  (0 <= B < 2 ^ 53)%Z -> exists w, nonneg_finite w /\ value w = IZR B.
Proof.
  intros [H0 H53]. destruct (Z.eq_dec B 0) as [-> | Hne].
  - exists (S754_zero false). now split.
  - assert (HB : (0 < B)%Z) by lia.
    pose proof (Zdigits2_bounds B HB) as [Hlo Hhi].
    pose proof (Zdigits2_pos B HB) as Hd.
    assert (Hd53 : (Zdigits2 B <= 53)%Z).
    { destruct (Z.le_gt_cases (Zdigits2 B) 53) as [| H]; [assumption |].
      assert (2 ^ 53 <= 2 ^ (Zdigits2 B - 1))%Z by (apply Z.pow_le_mono_r; lia).
      lia. }
    set (k := (53 - Zdigits2 B)%Z).
    assert (Hp : (0 < 2 ^ k)%Z) by (apply Z.pow_pos_nonneg; lia).
    assert (HM : (0 < B * 2 ^ k)%Z) by nia.
    exists (S754_finite false (Z.to_pos (B * 2 ^ k)) (- k)). split.
    + simpl. unfold SpecFloat.bounded, canonical_mantissa.
      assert (Hdig : Z.pos (digits2_pos (Z.to_pos (B * 2 ^ k))) = 53%Z).
      { change (Z.pos (digits2_pos (Z.to_pos (B * 2 ^ k))))
          with (Zdigits2 (Z.pos (Z.to_pos (B * 2 ^ k)))).
        rewrite Z2Pos.id by assumption.
        rewrite Zdigits2_mul_pow by lia. lia. }
      rewrite Hdig. unfold fexp, emin, PyFloat.prec, PyFloat.emax.
      apply andb_true_iff. split; [apply Z.eqb_eq | apply Z.leb_le]; lia.
    + simpl. rewrite Z2Pos.id by assumption.
      rewrite mult_IZR, <- bpow_Z by lia.
      rewrite Rmult_assoc, <- bpow_add.
      replace (k + - k)%Z with 0%Z by lia. unfold bpow. simpl. lra.
Qed.

Lemma rounds_to_whole (v : R) (r : PyFloat.float) (lo hi : Z) :
  rounds_to v r -> (0 <= lo)%Z -> (hi < 2 ^ 53)%Z ->
  IZR lo <= v <= IZR hi ->
  nonneg_finite r /\ IZR lo <= value r <= IZR hi.
Proof.
  intros (_ & Hup & Hdown) Hlo Hhi [Hv1 Hv2].
  assert (Hle : (lo <= hi)%Z) by (apply le_IZR; lra).
  destruct (int_repr lo ltac:(lia)) as (wl & Hwl & El).
  destruct (int_repr hi ltac:(lia)) as (wh & Hwh & Eh).
  destruct (Hup wh Hwh ltac:(lra)) as [Hr Hr2].
  split; [assumption |]. split; [| lra].
  destruct (Hdown wl Hwl ltac:(lra)) as [-> | H]; [contradiction | lra].
Qed.

Lemma of_Z_value (B : Z) :
  (0 <= B < 2 ^ 53)%Z ->
  nonneg_finite (PyFloat.of_Z B) /\ value (PyFloat.of_Z B) = IZR B.
Proof.
  intros HB. unfold PyFloat.of_Z, binary_normalize.
  destruct B as [| p | p]; [now split | | lia].
  pose proof (binary_round_spec p 0) as Hr.
  unfold bpow at 1 in Hr. simpl powerRZ in Hr. rewrite Rmult_1_r in Hr.
  destruct (rounds_to_whole _ _ (Z.pos p) (Z.pos p) Hr) as [H1 H2];
    try lia; try lra.
  split; [assumption | lra].
Qed.

(** *** Addition, distance and division *)

Lemma aligned_value (m : positive) (e e' : Z) :
  IZR (Zpos (fst (shl_align m e (Z.min e e')))) * bpow (Z.min e e')
  = IZR (Zpos m) * bpow e.
Proof.
  destruct (shl_align_spec m e (Z.min e e')) as (mz & ez & E & Hez & Hmz).
  rewrite E. cbn [fst]. replace (Z.min e e') with ez by lia.
  apply value_scaled; [lia | assumption].
Qed.

Lemma add_spec (x y : PyFloat.float) :
  nonneg_finite x -> nonneg_finite y ->
  rounds_to (value x + value y) (PyFloat.add x y).
Proof.
  intros Hx Hy. unfold PyFloat.add.
  destruct x as [sx | sx | | [] mx ex], y as [sy | sy | | [] my ey];
    simpl in Hx, Hy; try tauto.
  - replace (value (S754_zero sx) + value (S754_zero sy)) with 0 by (simpl; lra).
    destruct sx, sy; exact (rounds_to_exact (S754_zero _) I).
  - replace (value (S754_zero sx) + value (S754_finite false my ey))
      with (value (S754_finite false my ey)) by (simpl; lra).
    now apply rounds_to_exact.
  - replace (value (S754_finite false mx ex) + value (S754_zero sy))
      with (value (S754_finite false mx ex)) by (simpl; lra).
    now apply rounds_to_exact.
  - cbn [SFadd cond_Zopp value].
    rewrite <- (aligned_value mx ex ey), <- (aligned_value my ey ex).
    rewrite (Z.min_comm ey ex), <- Rmult_plus_distr_r, <- plus_IZR.
    cbn [Z.add binary_normalize]. apply binary_round_spec.
Qed.

Lemma abs_binary_round_sign (m : positive) (e : Z) :
  PyFloat.abs (binary_round PyFloat.prec PyFloat.emax true m e)
  = PyFloat.abs (binary_round PyFloat.prec PyFloat.emax false m e).
Proof.
  unfold binary_round. destruct (shl_align m e _) as [mz ez].
  apply abs_round_sign.
Qed.

(** [abs(x - y)] is the distance of the two numbers, rounded. *)
Lemma abs_sub_spec (x y : PyFloat.float) :
  nonneg_finite x -> nonneg_finite y ->
  rounds_to (Rabs (value x - value y)) (PyFloat.abs (PyFloat.sub x y)).
Proof.
  intros Hx Hy. unfold PyFloat.sub.
  destruct x as [sx | sx | | [] mx ex], y as [sy | sy | | [] my ey];
    simpl in Hx, Hy; try tauto.
  - replace (Rabs (value (S754_zero sx) - value (S754_zero sy))) with 0
      by (simpl; rewrite Rminus_0_r, Rabs_R0; reflexivity).
    destruct sx, sy; exact (rounds_to_exact (S754_zero false) I).
  - replace (Rabs (value (S754_zero sx) - value (S754_finite false my ey)))
      with (value (S754_finite false my ey)).
    + now apply (rounds_to_exact (S754_finite false my ey)).
    + pose proof (value_nonneg (S754_finite false my ey) Hy) as H.
      cbn [value] in *. rewrite Rminus_0_l, Rabs_Ropp, Rabs_pos_eq; lra.
  - replace (Rabs (value (S754_finite false mx ex) - value (S754_zero sy)))
      with (value (S754_finite false mx ex)).
    + now apply (rounds_to_exact (S754_finite false mx ex)).
    + pose proof (value_nonneg (S754_finite false mx ex) Hx) as H.
      cbn [value] in *. rewrite Rminus_0_r, Rabs_pos_eq; lra.
  - cbn [SFsub cond_Zopp value].
    rewrite <- (aligned_value mx ex ey), <- (aligned_value my ey ex).
    rewrite (Z.min_comm ey ex), <- Rmult_minus_distr_r, <- minus_IZR.
    set (a := fst (shl_align mx ex (Z.min ex ey))).
    set (b := fst (shl_align my ey (Z.min ex ey))).
    pose proof (bpow_pos (Z.min ex ey)) as Hb.
    rewrite Rabs_mult, (Rabs_pos_eq (bpow _)) by lra.
    destruct (Z.pos a - Z.pos b)%Z as [| p | p] eqn:E; cbn [binary_normalize].
    + rewrite Rabs_R0, Rmult_0_l. exact (rounds_to_exact (S754_zero false) I).
    + rewrite Rabs_pos_eq by (apply IZR_le; lia).
      apply rounds_to_abs, binary_round_spec.
    + rewrite abs_binary_round_sign.
      replace (Rabs (IZR (Z.neg p))) with (IZR (Z.pos p)).
      * apply rounds_to_abs, binary_round_spec.
      * rewrite <- Rabs_Ropp, <- opp_IZR. simpl Z.opp.
        rewrite Rabs_pos_eq; [reflexivity | apply IZR_le; lia].
Qed.

Lemma Zdigits2_pow (k : Z) : (0 <= k)%Z -> Zdigits2 (2 ^ k) = (k + 1)%Z.
Proof.
  intros Hk. assert (0 < 2 ^ k)%Z by (apply Z.pow_pos_nonneg; lia).
  apply Zdigits2_unique; [assumption |].
  replace (k + 1 - 1)%Z with k by lia. rewrite Z.pow_add_r by lia. lia.
Qed.

(** The quotient of two mantissas has digits enough. *)
Lemma quotient_digits (m1 m2 s : Z) :
  (0 < m1)%Z -> (0 < m2)%Z -> (0 <= s)%Z ->
  (Zdigits2 m1 + s - Zdigits2 m2 <= Zdigits2 (m1 * 2 ^ s / m2))%Z.
Proof.
  intros H1 H2 Hs.
  pose proof (Zdigits2_bounds m1 H1) as [Hlo1 _].
  pose proof (Zdigits2_bounds m2 H2) as [_ Hhi2].
  pose proof (Zdigits2_pos m1 H1). pose proof (Zdigits2_pos m2 H2).
  set (k := (Zdigits2 m1 + s - Zdigits2 m2)%Z).
  destruct (Z.le_gt_cases k 0) as [Hk | Hk].
  - pose proof (Zdigits2_nonneg (m1 * 2 ^ s / m2)). lia.
  - assert (Hq : (2 ^ (k - 1) <= m1 * 2 ^ s / m2)%Z).
    { apply Z.div_le_lower_bound; [assumption |].
      assert (Hp : (0 < 2 ^ (k - 1))%Z) by (apply Z.pow_pos_nonneg; lia).
      assert (Hp2 : (0 < 2 ^ s)%Z) by (apply Z.pow_pos_nonneg; lia).
      apply Z.le_trans with (2 ^ Zdigits2 m2 * 2 ^ (k - 1))%Z; [nia |].
      rewrite <- Z.pow_add_r by lia.
      replace (Zdigits2 m2 + (k - 1))%Z with (Zdigits2 m1 - 1 + s)%Z
        by (unfold k; lia).
      rewrite Z.pow_add_r by lia. nia. }
    assert (Hp : (0 < 2 ^ (k - 1))%Z) by (apply Z.pow_pos_nonneg; lia).
    pose proof (Zdigits2_mono (2 ^ (k - 1)) (m1 * 2 ^ s / m2) ltac:(lia)) as Hm.
    rewrite Zdigits2_pow in Hm by lia. lia.
Qed.

Lemma new_location_encloses (m2 q r : Z) :
  (0 < m2)%Z -> (0 <= r < m2)%Z ->
  shr_r (shr_record_of_loc q (new_location m2 r))
  || shr_s (shr_record_of_loc q (new_location m2 r))
  = negb (r =? 0)%Z.
Proof.
  intros H2 Hr. unfold new_location, new_location_even, new_location_odd.
  destruct (Z.even m2); destruct (r =? 0)%Z; try reflexivity.
  - destruct (2 * r ?= m2)%Z; reflexivity.
  - destruct (2 * r + 1 ?= m2)%Z; reflexivity.
Qed.

(** [x / y] of numpy is the quotient of the two numbers, rounded. *)
Lemma div_spec (mx : positive) (ex : Z) (my : positive) (ey : Z) :
  rounds_to (IZR (Zpos mx) * bpow ex / (IZR (Zpos my) * bpow ey))
            (PyFloat.np_div (S754_finite false mx ex) (S754_finite false my ey)).
Proof.
  unfold PyFloat.np_div. cbn [SFdiv xorb]. unfold SFdiv_core_binary.
  set (d1 := Zdigits2 (Z.pos mx)). set (d2 := Zdigits2 (Z.pos my)).
  set (e' := Z.min (fexp PyFloat.prec PyFloat.emax (d1 + ex - (d2 + ey))) (ex - ey)).
  set (s := (ex - ey - e')%Z).
  assert (Hs : (0 <= s)%Z) by (unfold s, e'; lia).
  set (m' := match s with
             | 0%Z => Z.pos mx
             | Z.pos _ => Z.shiftl (Z.pos mx) s
             | Z.neg _ => 0%Z
             end).
  assert (Hm' : m' = (Z.pos mx * 2 ^ s)%Z).
  { unfold m'. destruct s as [| p | p] eqn:Es; [simpl; lia | | lia].
    apply Z.shiftl_mul_pow2. lia. }
  pose proof (Z.div_eucl_eq m' (Z.pos my) ltac:(lia)) as Heq.
  pose proof (Z.mod_pos_bound m' (Z.pos my) ltac:(lia)) as Hmod.
  assert (Hq0 : (0 <= m' / Z.pos my)%Z).
  { apply Z.div_pos; [| lia]. rewrite Hm'.
    assert (0 < 2 ^ s)%Z by (apply Z.pow_pos_nonneg; lia). nia. }
  unfold Z.div, Z.modulo in *.
  destruct (Z.div_eucl m' (Z.pos my)) as [q r].
  pose proof (bpow_pos e') as Hbe. pose proof (bpow_pos ey) as Hby.
  assert (Hmy : 0 < IZR (Z.pos my)) by (apply IZR_lt; lia).
  assert (Hv : IZR (Z.pos mx) * bpow ex / (IZR (Z.pos my) * bpow ey)
               = IZR m' / IZR (Z.pos my) * bpow e').
  { rewrite Hm', mult_IZR, <- bpow_Z by assumption.
    replace ex with (s + e' + ey)%Z at 1 by (unfold s; lia).
    rewrite !bpow_add. field. split; lra. }
  rewrite Hv.
  assert (Hqr : IZR m' = IZR (Z.pos my) * IZR q + IZR r).
  { rewrite <- mult_IZR, <- plus_IZR. now f_equal. }
  assert (Hr0 : 0 <= IZR r < IZR (Z.pos my)).
  { split; [apply IZR_le | apply IZR_lt]; lia. }
  assert (Hquot : IZR m' / IZR (Z.pos my) = IZR q + IZR r / IZR (Z.pos my)).
  { rewrite Hqr. field. lra. }
  assert (Hfrac : 0 <= IZR r / IZR (Z.pos my) < 1).
  { split.
    - apply Rmult_le_pos; [lra |]. apply Rlt_le, Rinv_0_lt_compat. lra.
    - apply (Rmult_lt_reg_r (IZR (Z.pos my))); [lra |].
      unfold Rdiv. rewrite Rmult_assoc, Rinv_l by lra. lra. }
  apply binary_round_aux_spec.
  - assumption.
  - pose proof (quotient_digits (Z.pos mx) (Z.pos my) s ltac:(lia) ltac:(lia) Hs)
      as Hd.
    rewrite <- Hm' in Hd.
    assert (Hqq : (m' / Z.pos my)%Z = q).
    { symmetry. apply Z.div_unique with (r := r); [lia | assumption]. }
    rewrite Hqq in Hd. fold d1 d2 in Hd.
    unfold e', s, fexp, emin, PyFloat.prec, PyFloat.emax in *. lia.
  - unfold encloses. rewrite shr_m_of_loc, new_location_encloses by lia.
    rewrite Hquot, plus_IZR. split; [assumption |]. split; [split; nra |].
    destruct (Z.eqb_spec r 0) as [-> | Hr]; cbn [negb].
    + unfold Rdiv. rewrite Rmult_0_l. lra.
    + assert (0 < IZR r).
      { apply IZR_lt. lia. }
      assert (0 < IZR r / IZR (Z.pos my)).
      { apply Rmult_lt_0_compat; [lra |]. apply Rinv_0_lt_compat. lra. }
      nra.
Qed.

(** *** Sums and means of numbers in a band *)

Section Band.

Variables lo hi : Z.
Hypothesis Hlo : (0 <= lo)%Z.
Hypothesis Hlohi : (lo <= hi)%Z.

Lemma within_band_in_band (y : PyFloat.float) :
  (hi < 2 ^ 53)%Z -> within_band lo hi y = true -> in_band lo hi y.
Proof.
  intros Hhi H. unfold within_band in H.
  apply andb_true_iff in H. destruct H as [H H3].
  apply andb_true_iff in H. destruct H as [H1 H2].
  destruct (of_Z_value lo ltac:(lia)) as [Hl El].
  destruct (of_Z_value hi ltac:(lia)) as [Hh Eh].
  assert (Hy : nonneg_finite y).
  { destruct y as [s | s | | s m e]; simpl; trivial.
    - destruct s.
      + destruct (PyFloat.of_Z lo) as [? | ? | | [] ? ?]; simpl in Hl; try tauto;
          discriminate H2.
      + destruct (PyFloat.of_Z hi) as [? | ? | | [] ? ?]; simpl in Hh; try tauto;
          discriminate H3.
    - destruct (PyFloat.of_Z lo) as [? | ? | | [] ? ?]; simpl in Hl; try tauto;
        discriminate H2.
    - destruct s; [| exact H1].
      destruct (PyFloat.of_Z lo) as [? | ? | | [] ? ?]; simpl in Hl; try tauto;
        discriminate H2. }
  split; [assumption |].
  apply (leb_value _ _ Hl Hy) in H2. apply (leb_value _ _ Hy Hh) in H3. lra.
Qed.

Lemma summed_in_band (ys : list PyFloat.float) (s : PyFloat.float) :
  summed ys s ->
  Forall (in_band lo hi) ys ->
  (Z.of_nat (List.length ys) * hi < 2 ^ 53)%Z ->
  nonneg_finite s
  /\ IZR (Z.of_nat (List.length ys) * lo) <= value s
     <= IZR (Z.of_nat (List.length ys) * hi).
Proof.
  induction 1 as [| y | l l1 l2 s1 s2 Hperm H1 IH1 H2 IH2]; intros Hall Hn.
  - simpl. split; [exact I | lra].
  - inversion Hall as [| ? ? [Hy Hyv] _]; subst. cbn [List.length].
    replace (Z.of_nat 1 * lo)%Z with lo by lia.
    replace (Z.of_nat 1 * hi)%Z with hi by lia. now split.
  - assert (Hlen : List.length l = (List.length l1 + List.length l2)%nat).
    { rewrite (Permutation_length Hperm). apply length_app. }
    assert (Hall' : Forall (in_band lo hi) (l1 ++ l2)).
    { apply Forall_forall. intros y Hy. rewrite Forall_forall in Hall.
      apply Hall. apply (Permutation_in _ (Permutation_sym Hperm) Hy). }
    apply Forall_app in Hall'. destruct Hall' as [Hall1 Hall2].
    rewrite Hlen, Nat2Z.inj_add in Hn |- *.
    destruct (IH1 Hall1 ltac:(nia)) as [Hs1 Hv1].
    destruct (IH2 Hall2 ltac:(nia)) as [Hs2 Hv2].
    apply (rounds_to_whole _ _ _ _ (add_spec s1 s2 Hs1 Hs2)).
    + nia.
    + assumption.
    + rewrite !mult_IZR, !plus_IZR in *. lra.
Qed.

Variable mean : list PyFloat.float -> PyFloat.float.
Hypothesis Hmean : sums_and_divides mean.

Lemma mean_in_band (ys : list PyFloat.float) :
  ys <> [] -> Forall (in_band lo hi) ys ->
  (Z.of_nat (List.length ys) < 2 ^ 53)%Z ->
  (Z.of_nat (List.length ys) * hi < 2 ^ 53)%Z ->
  in_band lo hi (mean ys).
Proof.
  intros Hne Hall Hn Hnh.
  destruct (Hmean ys Hne) as (s & Hsum & ->).
  set (n := Z.of_nat (List.length ys)) in *.
  assert (Hn1 : (1 <= n)%Z).
  { unfold n. destruct ys; [congruence | simpl List.length; lia]. }
  destruct (summed_in_band ys s Hsum Hall Hnh) as [Hs Hsv].
  fold n in Hsv.
  destruct (of_Z_value n ltac:(lia)) as [Hk Ek].
  unfold PyFloat.of_nat. fold n.
  rewrite !mult_IZR in Hsv.
  assert (Hnpos : 0 < IZR n) by (apply IZR_lt; lia).
  destruct (PyFloat.of_Z n) as [sk | sk | | [] mk ek] eqn:Ekf;
    simpl in Hk; try tauto.
  { simpl in Ek. lra. }
  destruct s as [ss | ss | | [] ms es]; simpl in Hs; try tauto.
  - (* the sum is zero *)
    simpl in Hsv. unfold PyFloat.np_div. cbn [SFdiv]. split; [exact I |].
    simpl. assert (0 <= IZR lo) by (apply IZR_le; lia).
    assert (IZR lo <= IZR hi) by (apply IZR_le; lia). nra.
  - apply (rounds_to_whole _ _ lo hi (div_spec ms es mk ek)); try lia.
    change (IZR (Z.pos mk) * bpow ek) with (value (S754_finite false mk ek)).
    rewrite Ek.
    change (IZR (Z.pos ms) * bpow es) with (value (S754_finite false ms es)).
    set (vs := value (S754_finite false ms es)) in *.
    assert (Hq : vs = vs / IZR n * IZR n) by (field; lra).
    split.
    + apply (Rmult_le_reg_r (IZR n)); [assumption |]. rewrite <- Hq. lra.
    + apply (Rmult_le_reg_r (IZR n)); [assumption |]. rewrite <- Hq. lra.
Qed.

(** A token of the band belongs to a row of tokens of the band, when the
    tolerance is at least the width of the band. *)
Lemma belongs_in_band (y_tolerance : PyFloat.float) (current_row : Row)
      (item : Token.t) :
  (hi < 2 ^ 53)%Z ->
  PyFloat.leb (PyFloat.of_Z (hi - lo)) y_tolerance = true ->
  current_row <> [] ->
  Forall (fun tok => in_band lo hi (OCRExtractor.center_y tok)) current_row ->
  in_band lo hi (OCRExtractor.center_y item) ->
  (Z.of_nat (List.length current_row) < 2 ^ 53)%Z ->
  (Z.of_nat (List.length current_row) * hi < 2 ^ 53)%Z ->
  OCRExtractor.belongs mean y_tolerance current_row item = true.
Proof.
  intros Hhi Htol Hne Hrow [Hy Hyv] Hn Hnh. unfold OCRExtractor.belongs.
  assert (Hmb : in_band lo hi (mean (map OCRExtractor.center_y current_row))).
  { apply mean_in_band.
    - destruct current_row; [congruence | discriminate].
    - apply Forall_forall. intros y Hin. apply in_map_iff in Hin.
      destruct Hin as [tok [<- Htok]]. rewrite Forall_forall in Hrow.
      now apply Hrow.
    - now rewrite length_map.
    - now rewrite length_map. }
  destruct Hmb as [Hm Hmv].
  set (m := mean (map OCRExtractor.center_y current_row)) in *.
  pose proof (abs_sub_spec (OCRExtractor.center_y item) m Hy Hm) as Hr.
  destruct (rounds_to_whole _ _ 0 (hi - lo) Hr) as [Hd Hdv]; try lia.
  { split; [apply Rabs_pos |]. rewrite minus_IZR. apply Rabs_le. lra. }
  destruct (of_Z_value (hi - lo) ltac:(lia)) as [Hw Ew].
  apply leb_trans with (PyFloat.of_Z (hi - lo)); [| assumption].
  apply leb_value; try assumption. lra.
Qed.

Lemma band_within_running_mean (y_tolerance : PyFloat.float)
      (rest : list Token.t) :
  forall current_row : Row,
    (hi < 2 ^ 53)%Z ->
    PyFloat.leb (PyFloat.of_Z (hi - lo)) y_tolerance = true ->
    current_row <> [] ->
    Forall (fun tok => in_band lo hi (OCRExtractor.center_y tok))
           (current_row ++ rest) ->
    (Z.of_nat (List.length (current_row ++ rest)) < 2 ^ 53)%Z ->
    (Z.of_nat (List.length (current_row ++ rest)) * hi < 2 ^ 53)%Z ->
    Spec.within_running_mean mean y_tolerance current_row rest = true.
Proof.
  induction rest as [| item rest IH]; intros current Hhi Htol Hne Hall Hn Hnh;
    [reflexivity |].
  cbn [Spec.within_running_mean]. apply andb_true_iff. split.
  - pose proof Hall as Hall'. apply Forall_app in Hall'.
    destruct Hall' as [Hcur Hrest]. inversion Hrest; subst.
    rewrite length_app in Hn, Hnh. cbn [List.length] in Hn, Hnh.
    apply belongs_in_band; try assumption; nia.
  - apply IH; try assumption.
    + destruct current; discriminate.
    + now rewrite <- app_assoc.
    + now rewrite <- app_assoc.
    + now rewrite <- app_assoc.
Qed.

End Band.

(** The sum that [np_mean] divides is a sum from left to right. *)
Lemma fold_summed (ys : list PyFloat.float) :
  forall (l0 : list PyFloat.float) (acc : PyFloat.float),
    summed l0 acc -> summed (l0 ++ ys) (fold_left PyFloat.add ys acc).
Proof.
  induction ys as [| y ys IH]; intros l0 acc H; cbn [fold_left].
  - now rewrite app_nil_r.
  - replace (l0 ++ y :: ys) with ((l0 ++ [y]) ++ ys)
      by (now rewrite <- app_assoc).
    apply IH. apply (summed_add _ l0 [y]); [apply Permutation_refl | assumption |].
    apply summed_one.
Qed.

Lemma np_mean_sums_and_divides : sums_and_divides PyFloat.np_mean.
Proof.
  intros ys _. exists (PyFloat.np_sum ys). split; [| reflexivity].
  apply (fold_summed ys [] PyFloat.zero). apply summed_nil.
Qed.



End FloatTheory.

(** ** White space at the ends of a text *)

Section StripFacts.

Variable sp : ascii -> bool.

Lemma lstrip_clean_start (s : string) : Spec.clean_start sp (PyStr.lstrip_by sp s).
Proof.
  induction s as [| c s IH]; simpl; [exact I |].
  destruct (sp c) eqn:Hc; [exact IH | exact Hc].
Qed.

Lemma lstrip_id (s : string) : Spec.clean_start sp s -> PyStr.lstrip_by sp s = s.
Proof. destruct s as [| c s]; simpl; [reflexivity | now intros ->]. Qed.

Lemma rstrip_clean_start (s : string) :
  Spec.clean_start sp s -> Spec.clean_start sp (PyStr.rstrip_by sp s).
Proof.
  destruct s as [| c s]; simpl; [trivial |]. intros Hc.
  destruct (PyStr.rstrip_by sp s); [rewrite Hc |]; exact Hc.
Qed.

Lemma rstrip_idempotent (s : string) :
  PyStr.rstrip_by sp (PyStr.rstrip_by sp s) = PyStr.rstrip_by sp s.
Proof.
  induction s as [| c s IH]; simpl; [reflexivity |].
  destruct (PyStr.rstrip_by sp s) as [| c' r] eqn:Hr.
  - destruct (sp c) eqn:Hc; simpl; [reflexivity | now rewrite Hc].
  - remember (String c' r) as t eqn:Ht. simpl. rewrite IH. subst t. reflexivity.
Qed.

Lemma strip_idempotent (s : string) :
  PyStr.strip_by sp (PyStr.strip_by sp s) = PyStr.strip_by sp s.
Proof.
  unfold PyStr.strip_by.
  rewrite (lstrip_id (PyStr.rstrip_by sp (PyStr.lstrip_by sp s))).
  - apply rstrip_idempotent.
  - apply rstrip_clean_start, lstrip_clean_start.
Qed.

End StripFacts.

(** ** The tokens that [extract] builds *)

Section ExtractFacts.
Import OCRExtractor.

(** X4: [extract] builds one token per line of the first page, in the order
    of the lines, and reads no other page; it keeps the box and the
    confidence of each line, and the text of every token is free of white
    space at both ends.  A first page that is [None] gives no token. *)
Theorem X4_extract_tokens :
  (forall results,
      Forall (fun tok => PyStr.strip (Token.text tok) = Token.text tok)
             (extract results))
  /\ (forall lines rest,
         map Token.bbox (extract (Some lines :: rest)) = map fst lines
         /\ map Token.confidence (extract (Some lines :: rest))
            = map (fun line => snd (snd line)) lines
         /\ map Token.text (extract (Some lines :: rest))
            = map (fun line => PyStr.strip (fst (snd line))) lines)
  /\ (forall rest, extract (None :: rest) = [])
  /\ extract [] = [].
Proof.
  split; [| split; [| split; reflexivity]].
  - intros results. apply Forall_forall. intros tok Hin.
    destruct results as [| [lines |] rest]; simpl in Hin; try contradiction.
    apply in_map_iff in Hin. destruct Hin as [[bbox [text conf]] [<- _]].
    simpl. apply strip_idempotent.
  - intros lines rest. simpl. rewrite !map_map.
    repeat split; apply map_ext; intros [bbox [text conf]]; reflexivity.
Qed.

End ExtractFacts.

(** ** Names of rows whose tokens are stripped and not empty *)

Section JoinFacts.
Import TableParser.
Local Open Scope string_scope.

Variable sp : ascii -> bool.

Lemma lstrip_length (s : string) :
  String.length (PyStr.lstrip_by sp s) <= String.length s.
Proof.
  induction s as [| c s IH]; simpl; [lia |].
  destruct (sp c); simpl; lia.
Qed.

Lemma rstrip_length (s : string) :
  String.length (PyStr.rstrip_by sp s) <= String.length s.
Proof.
  induction s as [| c s IH]; simpl; [lia |].
  destruct (PyStr.rstrip_by sp s); [destruct (sp c) |]; simpl in *; lia.
Qed.

Lemma lstrip_fixed (s : string) :
  String.length (PyStr.lstrip_by sp s) = String.length s ->
  PyStr.lstrip_by sp s = s.
Proof.
  destruct s as [| c s]; simpl; [reflexivity |].
  destruct (sp c); [| reflexivity].
  pose proof (lstrip_length s). lia.
Qed.

(** A text that [strip] leaves as it is, is left as it is from both ends. *)
Lemma strip_fixed (s : string) :
  PyStr.strip_by sp s = s ->
  PyStr.lstrip_by sp s = s /\ PyStr.rstrip_by sp s = s.
Proof.
  unfold PyStr.strip_by. intros H.
  assert (Hl : PyStr.lstrip_by sp s = s).
  { apply lstrip_fixed.
    pose proof (lstrip_length s).
    pose proof (rstrip_length (PyStr.lstrip_by sp s)) as Hr.
    rewrite H in Hr. lia. }
  rewrite Hl in H. auto.
Qed.

Lemma rstrip_app (a b : string) :
  PyStr.rstrip_by sp b = b -> b <> "" ->
  PyStr.rstrip_by sp (a ++ b) = a ++ b.
Proof.
  intros Hb Hne. induction a as [| c a IH]; simpl; [assumption |].
  rewrite IH. destruct (a ++ b) eqn:E; [| reflexivity].
  destruct a; simpl in E; [congruence | discriminate].
Qed.

Lemma lstrip_app (a b : string) :
  PyStr.lstrip_by sp a = a -> a <> "" ->
  PyStr.lstrip_by sp (a ++ b) = a ++ b.
Proof.
  destruct a as [| c a]; [congruence |]. simpl.
  destruct (sp c) eqn:Hc; [| reflexivity].
  intros H _. exfalso.
  pose proof (lstrip_length a) as Hlen. rewrite H in Hlen. simpl in Hlen. lia.
Qed.

(** Joining stripped, non-empty parts gives a stripped text. *)
Lemma join_stripped (sep : string) (parts : list string) :
  Forall (fun p => PyStr.strip_by sp p = p /\ p <> "") parts ->
  PyStr.strip_by sp (PyStr.join sep parts) = PyStr.join sep parts.
Proof.
  intros Hall.
  assert (H : parts <> [] ->
              PyStr.lstrip_by sp (PyStr.join sep parts) = PyStr.join sep parts
              /\ PyStr.rstrip_by sp (PyStr.join sep parts) = PyStr.join sep parts
              /\ PyStr.join sep parts <> "").
  { induction Hall as [| p parts [Hp Hne] Hrest IH]; [congruence |]. intros _.
    destruct (strip_fixed p Hp) as [Hl Hr].
    destruct parts as [| q parts].
    - simpl. auto.
    - destruct IH as (IHl & IHr & IHne); [discriminate |].
      change (PyStr.join sep (p :: q :: parts))
        with (p ++ sep ++ PyStr.join sep (q :: parts)).
      split; [now apply lstrip_app | split].
      + replace (p ++ sep ++ PyStr.join sep (q :: parts))
          with ((p ++ sep) ++ PyStr.join sep (q :: parts)).
        * now apply rstrip_app.
        * clear. induction p; simpl; [reflexivity | now f_equal].
      + destruct p; [congruence | discriminate]. }
  destruct parts as [| p parts]; [reflexivity |].
  destruct H as (Hl & Hr & _); [discriminate |].
  unfold PyStr.strip_by. now rewrite Hl, Hr.
Qed.

End JoinFacts.

Section CleanRows.
Import TableParser.

Lemma in_firstn {A : Type} (n : nat) (l : list A) (x : A) :
  In x (firstn n l) -> In x l.
Proof.
  intros H. rewrite <- (firstn_skipn n l). apply in_or_app. now left.
Qed.

(** X5: on a row whose token texts are stripped and not empty, as [extract]
    delivers them when the engine reads something, and whose numeric tokens
    end with the positions [qty_idx], [rate_idx], [amount_idx], the name of
    the parsed item is the plain single-space join of the tokens before
    [qty_idx]: the final [strip] changes nothing. *)
Theorem X5_name_is_plain_join (row : Row) (row_idx : nat)
        (front : list nat) (qty_idx rate_idx amount_idx : nat) :
  Forall (fun tok => PyStr.strip (Token.text tok) = Token.text tok
                     /\ Token.text tok <> "") row ->
  Spec.numeric_positions (map Token.text row)
  = front ++ [qty_idx; rate_idx; amount_idx] ->
  _parse_row row row_idx
  = Ok (Some (Spec.three_column_item
                row row_idx
                (PyStr.join " " (firstn qty_idx (map Token.text row)))
                qty_idx rate_idx amount_idx)).
Proof.
  intros Hclean Hpos.
  rewrite (parse_row_three_columns row row_idx front qty_idx rate_idx amount_idx Hpos).
  unfold PyStr.strip. rewrite join_stripped; [reflexivity |].
  apply Forall_forall. intros p Hp. apply in_firstn in Hp.
  apply in_map_iff in Hp. destruct Hp as [tok [<- Htok]].
  rewrite Forall_forall in Hclean. apply (Hclean tok Htok).
Qed.

Lemma X5_name_is_plain_join_witness :
  Forall (fun tok => PyStr.strip (Token.text tok) = Token.text tok
                     /\ Token.text tok <> "") Examples.consultation_row
  /\ Spec.numeric_positions (map Token.text Examples.consultation_row)
     = [] ++ [2; 3; 4]
  /\ _parse_row Examples.consultation_row 0
     = Ok (Some (Spec.three_column_item
                   Examples.consultation_row 0
                   (PyStr.join " " (firstn 2 (map Token.text Examples.consultation_row)))
                   2 3 4)).
Proof.
  assert (H1 : Forall (fun tok => PyStr.strip (Token.text tok) = Token.text tok
                                  /\ Token.text tok <> "")
                      Examples.consultation_row).
  { repeat constructor; discriminate. }
  assert (H2 : Spec.numeric_positions (map Token.text Examples.consultation_row)
               = [] ++ [2; 3; 4]) by (vm_compute; reflexivity).
  split; [exact H1 |]. split; [exact H2 |].
  exact (X5_name_is_plain_join Examples.consultation_row 0 [] 2 3 4 H1 H2).
Defined.

End CleanRows.

(** ** The table parser: incomplete rows, rejected rows, row numbers *)

Section ParserCases.
Import TableParser.

Lemma slice_to_last {A : Type} (l : list A) :
  PyList.slice_to l (-1) = removelast l.
Proof.
  unfold PyList.slice_to. cbn [Z.ltb Z.compare].
  rewrite removelast_firstn_len. f_equal. lia.
Qed.

Lemma parse_row_incomplete (row : Row) (row_idx : nat)
      (front : list nat) (last_idx : nat) :
  2 <= List.length row ->
  Spec.numeric_positions (map Token.text row) = front ++ [last_idx] ->
  List.length front < 2 ->
  _parse_row row row_idx = Ok (Some (Spec.fallback_item row row_idx last_idx)).
Proof.
  intros Hrow Hpos Hfront.
  assert (Hlast : last_idx < List.length (map Token.text row)).
  { apply (numeric_positions_bound (map Token.text row)).
    rewrite Hpos. apply in_or_app. right. now left. }
  unfold _parse_row.
  destruct (List.length row <? 2)%nat eqn:Hshort;
    [apply Nat.ltb_lt in Hshort; lia |].
  unfold _parse_row_try. rewrite numeric_cols_positions, Hpos.
  rewrite length_app. cbn [List.length].
  destruct (3 <=? List.length front + 1)%nat eqn:H3;
    [apply Nat.leb_le in H3; lia |].
  destruct (1 <=? List.length front + 1)%nat eqn:H1;
    [| apply Nat.leb_gt in H1; lia].
  pose proof (index_from_end front [last_idx] 0 last_idx eq_refl) as I1.
  change (Z.of_nat 0 - Z.of_nat (List.length [last_idx]))%Z with (-1)%Z in I1.
  rewrite I1. cbn [bind].
  rewrite (index_nat (map Token.text row) _ "" Hlast). cbn [bind].
  rewrite slice_to_last. reflexivity.
Qed.

(** X6: a row of at least two tokens with one or two numeric tokens gives an
    item with quantity 1.0, with rate and amount both parsed from the last
    numeric token, with confidence 0.5, and with the name made of all the
    tokens but the last one of the row, numeric or not. *)
Theorem X6_incomplete_row (row : Row) (row_idx : nat)
        (front : list nat) (last_idx : nat) :
  2 <= List.length row ->
  Spec.numeric_positions (map Token.text row) = front ++ [last_idx] ->
  List.length front < 2 ->
  _parse_row row row_idx = Ok (Some (Spec.fallback_item row row_idx last_idx)).
Proof. apply parse_row_incomplete. Qed.

Lemma X6_incomplete_row_witness :
  2 <= List.length Examples.incomplete_row
  /\ Spec.numeric_positions (map Token.text Examples.incomplete_row) = [] ++ [1]
  /\ List.length (@nil nat) < 2
  /\ _parse_row Examples.incomplete_row 0
     = Ok (Some (Spec.fallback_item Examples.incomplete_row 0 1))
  /\ Item.item_name (Spec.fallback_item Examples.incomplete_row 0 1)
     = Some "Dressing 250".
Proof.
  assert (H1 : 2 <= List.length Examples.incomplete_row) by (simpl; lia).
  assert (H2 : Spec.numeric_positions (map Token.text Examples.incomplete_row)
               = [] ++ [1]) by (vm_compute; reflexivity).
  assert (H3 : List.length (@nil nat) < 2) by (simpl; lia).
  split; [exact H1 |]. split; [exact H2 |]. split; [exact H3 |].
  split; [exact (X6_incomplete_row Examples.incomplete_row 0 [] 1 H1 H2 H3) |].
  vm_compute. reflexivity.
Defined.

(** The three outcomes of [_parse_row]. *)
Lemma parse_row_cases (row : Row) (row_idx : nat) :
  (_parse_row row row_idx = Ok None
   /\ (List.length row < 2 \/ Spec.numeric_positions (map Token.text row) = []))
  \/ (exists front q r a,
         Spec.numeric_positions (map Token.text row) = front ++ [q; r; a]
         /\ _parse_row row row_idx
            = Ok (Some (Spec.three_column_item
                          row row_idx
                          (PyStr.strip (PyStr.join " " (firstn q (map Token.text row))))
                          q r a)))
  \/ (exists front last_idx,
         2 <= List.length row
         /\ Spec.numeric_positions (map Token.text row) = front ++ [last_idx]
         /\ List.length front < 2
         /\ _parse_row row row_idx
            = Ok (Some (Spec.fallback_item row row_idx last_idx))).
Proof.
  destruct (Nat.lt_ge_cases (List.length row) 2) as [Hshort | Hlong].
  - left. split; [| now left]. unfold _parse_row.
    apply Nat.ltb_lt in Hshort. now rewrite Hshort.
  - destruct (Spec.numeric_positions (map Token.text row)) as [| p ps] eqn:Hpos.
    + left. split; [| now right]. unfold _parse_row.
      destruct (List.length row <? 2)%nat eqn:Hs;
        [apply Nat.ltb_lt in Hs; lia |].
      unfold _parse_row_try. rewrite numeric_cols_positions, Hpos. reflexivity.
    + destruct (Nat.le_gt_cases 3 (List.length (p :: ps))) as [H3 | H3].
      * right. left. rewrite <- Hpos in H3.
        destruct (last_three _ H3) as (front & q & r & a & Hdec).
        exists front, q, r, a. split; [now rewrite <- Hpos |].
        now apply parse_row_three_columns with (front := front).
      * right. right.
        destruct (exists_last (l := p :: ps)) as (front & last_idx & Hdec);
          [discriminate |].
        exists front, last_idx.
        assert (Hfront : List.length front < 2).
        { rewrite Hdec, length_app in H3. simpl in H3. lia. }
        rewrite <- Hpos in Hdec.
        split; [assumption |]. split; [now rewrite <- Hpos |].
        split; [assumption |].
        now apply parse_row_incomplete with (front := front).
Qed.

(** X7: [_parse_row] rejects a row exactly when the row has fewer than two
    tokens or no numeric token; every other row gives an item. *)
Theorem X7_rejected_rows (row : Row) (row_idx : nat) :
  _parse_row row row_idx = Ok None
  <-> (List.length row < 2 \/ Spec.numeric_positions (map Token.text row) = []).
Proof.
  split.
  - intros Hnone.
    destruct (parse_row_cases row row_idx)
      as [[_ H] | [(f & q & r & a & _ & H) | (f & l & _ & _ & _ & H)]];
      [assumption | congruence | congruence].
  - intros H.
    destruct (parse_row_cases row row_idx)
      as [[Hn _] | [(f & q & r & a & Hpos & _) | (f & l & Hlen & Hpos & _)]].
    + assumption.
    + exfalso. destruct H as [H | H].
      * pose proof (numeric_positions_length (map Token.text row)) as Hle.
        rewrite Hpos, length_app, length_map in Hle. simpl in Hle. lia.
      * rewrite Hpos in H. destruct f; discriminate.
    + exfalso. destruct H as [H | H]; [lia |].
      rewrite Hpos in H. destruct f; discriminate.
Qed.

Lemma parse_row_row_idx (row : Row) (row_idx : nat) (item : Item.t) :
  _parse_row row row_idx = Ok (Some item) -> Item.row_idx item = row_idx.
Proof.
  intros H.
  destruct (parse_row_cases row row_idx)
    as [[Hs _] | [(f & q & r & a & _ & Hs) | (f & l & _ & _ & _ & Hs)]];
    rewrite H in Hs; inversion Hs; reflexivity.
Qed.

Lemma parse_rows_from_trace (rows : list Row) :
  forall start : nat,
    Forall (fun item =>
              start <= Item.row_idx item
              /\ exists row,
                   nth_error rows (Item.row_idx item - start) = Some row
                   /\ _parse_row row (Item.row_idx item) = Ok (Some item))
           (parse_rows_from _parse_row start rows).
Proof.
  induction rows as [| row rest IH]; intros start; simpl; [constructor |].
  assert (Hrest : Forall (fun item =>
              start <= Item.row_idx item
              /\ exists row0,
                   nth_error (row :: rest) (Item.row_idx item - start) = Some row0
                   /\ _parse_row row0 (Item.row_idx item) = Ok (Some item))
           (parse_rows_from _parse_row (S start) rest)).
  { eapply Forall_impl; [| apply (IH (S start))].
    intros item [Hle (row0 & Hnth & Hp)]. split; [lia |].
    exists row0. split; [| assumption].
    replace (Item.row_idx item - start) with (S (Item.row_idx item - S start))
      by lia. exact Hnth. }
  destruct (_parse_row row start) as [[item |] | e] eqn:Hp; try exact Hrest.
  constructor; [| exact Hrest].
  pose proof (parse_row_row_idx _ _ _ Hp) as Hidx. rewrite Hidx.
  split; [lia |]. exists row. rewrite Nat.sub_diag. auto.
Qed.

Lemma parse_rows_from_increasing (rows : list Row) :
  forall start : nat,
    StronglySorted lt (map Item.row_idx (parse_rows_from _parse_row start rows)).
Proof.
  induction rows as [| row rest IH]; intros start; simpl; [constructor |].
  destruct (_parse_row row start) as [[item |] | e] eqn:Hp; try apply IH.
  simpl. constructor; [apply IH |].
  rewrite (parse_row_row_idx _ _ _ Hp).
  apply Forall_forall. intros i Hi. apply in_map_iff in Hi.
  destruct Hi as [it [<- Hit]].
  pose proof (parse_rows_from_trace rest (S start)) as Ht.
  rewrite Forall_forall in Ht. destruct (Ht it Hit) as [Hle _]. lia.
Qed.

Lemma parse_rows_from_length (parse : Row -> nat -> result (option Item.t))
      (rows : list Row) :
  forall start : nat,
    List.length (parse_rows_from parse start rows) <= List.length rows.
Proof.
  induction rows as [| row rest IH]; intros start; simpl; [lia |].
  specialize (IH (S start)).
  destruct (parse row start) as [[item |] | e]; simpl; lia.
Qed.

(** X8: every item returned by [parse_rows] carries in [row_idx] the
    position, in the input, of the row it is parsed from; the items come in
    the order of their rows, one at most per row. *)
Theorem X8_row_idx_traces_the_row (rows : list Row) :
  Forall (fun item =>
            exists row,
              nth_error rows (Item.row_idx item) = Some row
              /\ _parse_row row (Item.row_idx item) = Ok (Some item))
         (parse_rows rows)
  /\ StronglySorted lt (map Item.row_idx (parse_rows rows))
  /\ List.length (parse_rows rows) <= List.length rows.
Proof.
  split; [| split].
  - eapply Forall_impl; [| apply (parse_rows_from_trace rows 0)].
    intros item [_ (row & Hnth & Hp)]. exists row.
    rewrite Nat.sub_0_r in Hnth. auto.
  - apply parse_rows_from_increasing.
  - apply parse_rows_from_length.
Qed.

End ParserCases.

(** ** The validator: what is accepted, what is returned, what is reported *)

Section ValidatorProperties.
Import BillValidator ValidatorStages ValidatorFacts.

(** With a positive first argument the builtin [max] never gives a zero,
    whatever the second argument, a NaN included. *)
Lemma max_positive_not_zero (amount calculated : PyFloat.float) :
  PyFloat.gtb amount PyFloat.zero = true ->
  PyFloat.eqb (PyFloat.max amount calculated) PyFloat.zero = false.
Proof.
  unfold PyFloat.max, PyFloat.gtb, PyFloat.eqb, PyFloat.zero. intros Hpos.
  destruct (SFltb amount calculated) eqn:Hlt.
  - destruct amount as [sa | sa | | sa ma ea], calculated as [sc | sc | | sc mc ec];
      try destruct sa; try destruct sc; try discriminate; reflexivity.
  - destruct amount as [sa | sa | | sa ma ea];
      try destruct sa; try discriminate; reflexivity.
Qed.

Lemma positive_not_zero (amount : PyFloat.float) :
  PyFloat.gtb amount PyFloat.zero = true ->
  PyFloat.eqb amount PyFloat.zero = false.
Proof.
  unfold PyFloat.gtb, PyFloat.eqb, PyFloat.zero.
  destruct amount as [sa | sa | | sa ma ea];
    try destruct sa; try discriminate; reflexivity.
Qed.

Lemma validate_item_positive (item : Item.t) (name : string)
      (qty rate amount : PyFloat.float) :
  Item.item_name item = Some name ->
  Item.item_quantity item = Some qty ->
  Item.item_rate item = Some rate ->
  Item.item_amount item = Some amount ->
  PyFloat.gtb amount PyFloat.zero = true ->
  _validate_item item = (true, MsgValid name).
Proof.
  intros Hn Hq Hr Ha Hpos.
  unfold _validate_item, _validate_item_try. rewrite Hn, Hq, Hr, Ha.
  rewrite (positive_not_zero _ Hpos). cbn [andb].
  destruct (PyFloat.gtb qty PyFloat.zero && PyFloat.gtb rate PyFloat.zero);
    [| reflexivity].
  unfold PyFloat.truediv. rewrite (max_positive_not_zero _ _ Hpos).
  reflexivity.
Qed.

(** X9: an item that carries its four fields and a positive amount passes
    the field/amount check with the line "Valid", whatever its quantity and
    its rate: a mismatch between the amount and quantity times rate never
    rejects, and the division of the check cannot raise. *)
Theorem X9_positive_amount_accepted (item : Item.t) (name : string)
        (qty rate amount : PyFloat.float) :
  Item.item_name item = Some name ->
  Item.item_quantity item = Some qty ->
  Item.item_rate item = Some rate ->
  Item.item_amount item = Some amount ->
  PyFloat.gtb amount PyFloat.zero = true ->
  _validate_item item = (true, MsgValid name).
Proof.
  apply validate_item_positive.
Qed.

Lemma X9_positive_amount_accepted_witness :
  PyFloat.gtb (Examples.fl "500") PyFloat.zero = true
  /\ _validate_item Examples.mismatch_item = (true, MsgValid "Consultation").
Proof.
  split; [reflexivity |].
  exact (X9_positive_amount_accepted
           Examples.mismatch_item "Consultation" (Examples.fl "2")
           (Examples.fl "100") (Examples.fl "500")
           eq_refl eq_refl eq_refl eq_refl eq_refl).
Defined.

Lemma validate_item_fallback (row : Row) (row_idx last_idx : nat) :
  _validate_item (Spec.fallback_item row row_idx last_idx)
  = (true, MsgValid (PyStr.strip (PyStr.join " " (removelast (map Token.text row))))).
Proof.
  unfold Spec.fallback_item.
  set (amount := TableParser._parse_float _). set (name := PyStr.strip _).
  unfold _validate_item, _validate_item_try. cbn [Item.item_name Item.item_quantity
    Item.item_rate Item.item_amount].
  replace (PyFloat.eqb PyFloat.one PyFloat.zero) with false by reflexivity.
  rewrite andb_false_r.
  replace (PyFloat.gtb PyFloat.one PyFloat.zero) with true by reflexivity.
  cbn [andb]. destruct (PyFloat.gtb amount PyFloat.zero) eqn:Hpos; [| reflexivity].
  unfold PyFloat.truediv. rewrite (max_positive_not_zero _ _ Hpos). reflexivity.
Qed.


Lemma valid_fields (item : Item.t) :
  valid item = true ->
  exists name qty rate amount,
    Item.item_name item = Some name
    /\ Item.item_quantity item = Some qty
    /\ Item.item_rate item = Some rate
    /\ Item.item_amount item = Some amount
    /\ _validate_item item = (true, MsgValid name).
Proof.
  unfold valid, _validate_item, _validate_item_try.
  destruct (Item.item_name item) as [name |]; [| discriminate].
  destruct (Item.item_quantity item) as [qty |]; [| discriminate].
  destruct (Item.item_rate item) as [rate |]; [| discriminate].
  destruct (Item.item_amount item) as [amount |]; [| discriminate].
  intros H. exists name, qty, rate, amount. repeat split.
  destruct (PyFloat.eqb amount PyFloat.zero && PyFloat.eqb qty PyFloat.zero);
    [discriminate |].
  destruct (PyFloat.gtb qty PyFloat.zero && PyFloat.gtb rate PyFloat.zero);
    [| reflexivity].
  destruct (PyFloat.truediv _ _); [reflexivity | discriminate].
Qed.

Lemma final_clean (items : list Item.t) (item : Item.t) :
  In item (final items) ->
  exists name qty rate amount,
    Item.item_name item = Some name
    /\ Item.item_quantity item = Some qty
    /\ Item.item_rate item = Some rate
    /\ Item.item_amount item = Some amount
    /\ _validate_item item = (true, MsgValid name)
    /\ Spec.subtotal_rule name qty rate = false
    /\ PyFloat.eqb qty PyFloat.zero = false.
Proof.
  unfold final. intros Hin. apply filter_In in Hin. destruct Hin as [Hin Hkept].
  assert (Hv : valid item = true).
  { pose proof (subseq_In _ _ _ (dedup_keep_subseq [] (validated items)) Hin)
      as Hin'.
    unfold validated in Hin'. apply filter_In in Hin'. tauto. }
  destruct (valid_fields _ Hv) as (name & qty & rate & amount & Hn & Hq & Hr & Ha & Hm).
  exists name, qty, rate, amount. repeat (split; [assumption |]).
  unfold kept in Hkept. rewrite is_subtotal_rule in Hkept.
  unfold Spec.dropped_by_subtotal_rule in Hkept. rewrite Hn, Hq, Hr in Hkept.
  apply negb_true_iff in Hkept. split; [assumption |].
  unfold Spec.subtotal_rule in Hkept.
  apply orb_false_iff in Hkept. destruct Hkept as [Hkept _].
  apply orb_false_iff in Hkept. tauto.
Qed.


Lemma filter_app_length {A : Type} (f : A -> bool) (l1 l2 : list A) :
  List.length (filter f (l1 ++ l2))
  = List.length (filter f l1) + List.length (filter f l2).
Proof. now rewrite filter_app, length_app. Qed.

Lemma drop_lines_all (msgs : list Msg) :
  Forall (fun m => Spec.is_drop_line m = true) msgs ->
  List.length (filter Spec.is_drop_line msgs) = List.length msgs
  /\ List.length (filter Spec.is_count_line msgs) = 0.
Proof.
  induction 1 as [| m msgs Hm _ [IH1 IH2]]; [split; reflexivity |].
  cbn [filter]. rewrite Hm.
  destruct m; try discriminate; cbn [Spec.is_count_line List.length];
    split; congruence.
Qed.


Lemma remove_duplicates_complete (items : list Item.t) :
  Forall complete items ->
  exists msgs, _remove_duplicates items = Ok (dedup_keep [] items, msgs).
Proof.
  intros Hc. unfold _remove_duplicates. rewrite dedup_loop_spec by assumption.
  cbn [bind messages seen_hashes deduplicated duplicates_found app Nat.add].
  eexists. reflexivity.
Qed.

Lemma dedup_seen_In (h : fingerprint) (items : list Item.t) :
  forall sn, In h (dedup_seen sn items) <-> In h sn \/ In h (map fp items).
Proof.
  induction items as [| a rest IH]; intros sn; cbn [dedup_seen map In].
  - tauto.
  - destruct (seen (fp a) sn) eqn:Hs; rewrite IH.
    + apply seen_In in Hs. split; [tauto |].
      intros [H | [<- | H]]; tauto.
    + cbn [In]. tauto.
Qed.

Lemma dedup_seen_keep (h : fingerprint) (items : list Item.t) :
  forall sn,
    In h (dedup_seen sn items) <-> In h sn \/ In h (map fp (dedup_keep sn items)).
Proof.
  induction items as [| a rest IH]; intros sn; cbn [dedup_seen dedup_keep map In].
  - tauto.
  - destruct (seen (fp a) sn) eqn:Hs; rewrite IH.
    + tauto.
    + cbn [In map]. tauto.
Qed.

Lemma dedup_keep_app (l1 l2 : list Item.t) :
  forall sn,
    dedup_keep sn (l1 ++ l2)
    = dedup_keep sn l1 ++ dedup_keep (dedup_seen sn l1) l2.
Proof.
  induction l1 as [| a rest IH]; intros sn; cbn [dedup_keep dedup_seen app].
  - reflexivity.
  - destruct (seen (fp a) sn); rewrite IH; reflexivity.
Qed.

Lemma seen_before (h : fingerprint) (items : list Item.t) :
  seen h (dedup_seen [] items)
  = existsb (fun item => fingerprint_eqb h (fp item)) items.
Proof.
  apply eq_iff_eq_true. rewrite seen_In, dedup_seen_In, existsb_exists.
  split.
  - intros [[] | H]. apply in_map_iff in H. destruct H as [item [<- Hitem]].
    exists item. split; [assumption |]. now apply fingerprint_eqb_eq.
  - intros [item [Hitem Heq]]. right. apply fingerprint_eqb_eq in Heq.
    rewrite Heq. now apply in_map.
Qed.



Lemma total_raise (items : list Item.t) (e : exn) :
  fold_left (fun acc item =>
               total <- acc ;;
               amount <- get "item_amount" (Item.item_amount item) ;;
               Ok (PyFloat.add total amount))
            items (Raise e)
  = Raise e.
Proof.
  induction items as [| item rest IH]; [reflexivity | exact IH].
Qed.

Lemma total_amounts (items : list Item.t) (amounts : list PyFloat.float) :
  map Item.item_amount items = map Some amounts ->
  forall total,
    fold_left (fun acc item =>
                 total <- acc ;;
                 amount <- get "item_amount" (Item.item_amount item) ;;
                 Ok (PyFloat.add total amount))
              items (Ok total)
    = Ok (fold_left PyFloat.add amounts total).
Proof.
  revert amounts. induction items as [| item rest IH]; intros amounts Hm total.
  - destruct amounts; [reflexivity | discriminate].
  - destruct amounts as [| amount amounts]; [discriminate |].
    cbn [map] in Hm. injection Hm as Ha Hm.
    cbn [fold_left bind]. rewrite Ha. cbn [get bind]. now apply IH.
Qed.

Lemma total_missing (items : list Item.t) (item : Item.t) :
  In item items -> Item.item_amount item = None ->
  forall acc, exists e,
    fold_left (fun acc item =>
                 total <- acc ;;
                 amount <- get "item_amount" (Item.item_amount item) ;;
                 Ok (PyFloat.add total amount))
              items acc
    = Raise e.
Proof.
  intros Hin Hnone. induction items as [| x rest IH]; [destruct Hin |].
  intros acc. cbn [fold_left]. destruct Hin as [-> | Hin].
  - rewrite Hnone. destruct acc as [total | e]; cbn [bind get];
      eexists; apply total_raise.
  - now apply IH.
Qed.

Lemma amounts_or_missing (items : list Item.t) :
  (exists amounts, map Item.item_amount items = map Some amounts)
  \/ (exists item, In item items /\ Item.item_amount item = None).
Proof.
  induction items as [| x rest [[amounts IH] | [item [Hin Hnone]]]].
  - left. now exists [].
  - destruct (Item.item_amount x) as [a |] eqn:Ha.
    + left. exists (a :: amounts). cbn [map]. now rewrite Ha, IH.
    + right. exists x. split; [now left | assumption].
  - right. exists item. split; [now right | assumption].
Qed.


End ValidatorProperties.

(** ** From the tokens to the items returned *)

Section Pipeline.
Import OCRExtractor TableParser BillValidator ValidatorStages ValidatorFacts.

Lemma parse_row_some_length (row : Row) (row_idx : nat) (item : Item.t) :
  _parse_row row row_idx = Ok (Some item) -> 2 <= List.length row.
Proof.
  unfold _parse_row. destruct (List.length row <? 2)%nat eqn:H; [discriminate |].
  intros _. now apply Nat.ltb_ge in H.
Qed.

Lemma parse_rows_from_tokens (rows : list Row) :
  forall start : nat,
    2 * List.length (parse_rows_from _parse_row start rows)
    <= List.length (List.concat rows).
Proof.
  induction rows as [| row rest IH]; intros start;
    cbn [parse_rows_from List.concat]; [simpl; lia |].
  rewrite length_app. specialize (IH (S start)).
  destruct (_parse_row row start) as [[item |] | e] eqn:Hp;
    cbn [List.length]; try lia.
  apply parse_row_some_length in Hp. lia.
Qed.

Lemma subseq_length {A : Type} (l1 l2 : list A) :
  subseq l1 l2 -> List.length l1 <= List.length l2.
Proof.
  induction 1; simpl; lia.
Qed.

Lemma group_by_row_perm (items : list Token.t) (y_tolerance : PyFloat.float) :
  Permutation (List.concat (group_by_row items y_tolerance)) items.
Proof.
  unfold group_by_row.
  destruct (group_by_row_segments PyFloat.np_mean items y_tolerance)
    as (segs & Hcat & _ & ->).
  eapply Permutation_trans; [apply concat_map_perm; intros; apply sorted_perm |].
  rewrite Hcat. apply sorted_perm.
Qed.


Lemma last_three_inj (f1 f2 : list nat) (q1 r1 a1 q2 r2 a2 : nat) :
  f1 ++ [q1; r1; a1] = f2 ++ [q2; r2; a2] -> q1 = q2 /\ r1 = r2 /\ a1 = a2.
Proof.
  intros H. apply (f_equal (@rev nat)) in H. rewrite !rev_app_distr in H.
  simpl in H. inversion H. auto.
Qed.

(** The fingerprint of a parsed item depends on the texts of its row only,
    not on where the tokens stand, how sure the reading is, or which row it
    is. *)
Lemma parse_row_fp (row1 row2 : Row) (idx1 idx2 : nat) (item1 item2 : Item.t) :
  map Token.text row1 = map Token.text row2 ->
  _parse_row row1 idx1 = Ok (Some item1) ->
  _parse_row row2 idx2 = Ok (Some item2) ->
  fp item1 = fp item2.
Proof.
  intros Ht H1 H2.
  destruct (parse_row_cases row1 idx1)
    as [[Hn _] | [(f1 & q1 & r1 & a1 & Hp1 & Hs1) | (f1 & l1 & _ & Hp1 & Hf1 & Hs1)]];
    [congruence | |];
    (destruct (parse_row_cases row2 idx2)
      as [[Hn _] | [(f2 & q2 & r2 & a2 & Hp2 & Hs2)
                   | (f2 & l2 & _ & Hp2 & Hf2 & Hs2)]];
     [congruence | |]);
    rewrite Ht in Hp1; rewrite Hp1 in Hp2;
    rewrite H1 in Hs1; rewrite H2 in Hs2;
    injection Hs1 as ->; injection Hs2 as ->.
  - destruct (last_three_inj _ _ _ _ _ _ _ _ Hp2) as (-> & -> & ->).
    unfold fp, Spec.three_column_item. cbn [Item.item_name Item.item_quantity
      Item.item_rate]. now rewrite Ht.
  - exfalso. apply (f_equal (@List.length nat)) in Hp2.
    rewrite !length_app in Hp2. simpl in Hp2. lia.
  - exfalso. apply (f_equal (@List.length nat)) in Hp2.
    rewrite !length_app in Hp2. simpl in Hp2. lia.
  - apply app_inj_tail in Hp2. destruct Hp2 as [_ ->].
    unfold fp, Spec.fallback_item. cbn [Item.item_name Item.item_quantity
      Item.item_rate]. now rewrite Ht.
Qed.

Lemma filter_at_most_one (P : Item.t -> bool) (l : list Item.t) :
  NoDup (map fp l) ->
  (forall a b, In a l -> In b l -> P a = true -> P b = true -> fp a = fp b) ->
  List.length (filter P l) <= 1.
Proof.
  induction l as [| a l IH]; intros Hnd Hsame; [simpl; lia |].
  cbn [map] in Hnd. inversion Hnd as [| ? ? Hnotin Hnd']. subst.
  cbn [filter]. destruct (P a) eqn:Pa.
  - destruct (filter P l) as [| b bs] eqn:Hf; [simpl; lia |].
    exfalso. apply Hnotin.
    assert (Hb : In b (filter P l)) by (rewrite Hf; now left).
    apply filter_In in Hb. destruct Hb as [Hb Pb].
    rewrite (Hsame a b); [now apply in_map | now left | now right | assumption
                          | assumption].
  - apply IH; [assumption |]. intros x y Hx Hy. apply Hsame; now right.
Qed.



(** X18: a row of three numeric tokens and nothing else gives an item with
    the empty name; when its amount is positive the item passes the
    field/amount check, which asks for a name but not for a name that is not
    empty. *)
Theorem X18_nameless_item_accepted (t1 t2 t3 : Token.t) (row_idx : nat) :
  _is_numeric (Token.text t1) = true ->
  _is_numeric (Token.text t2) = true ->
  _is_numeric (Token.text t3) = true ->
  PyFloat.gtb (_parse_float (Token.text t3)) PyFloat.zero = true ->
  exists item,
    _parse_row [t1; t2; t3] row_idx = Ok (Some item)
    /\ Item.item_name item = Some ""
    /\ Item.item_quantity item = Some (_parse_float (Token.text t1))
    /\ Item.item_rate item = Some (_parse_float (Token.text t2))
    /\ Item.item_amount item = Some (_parse_float (Token.text t3))
    /\ _validate_item item = (true, MsgValid "").
Proof.
  intros H1 H2 H3 Hpos.
  assert (Hp : Spec.numeric_positions (map Token.text [t1; t2; t3])
               = [] ++ [0; 1; 2]).
  { unfold Spec.numeric_positions. cbn [map List.length seq filter nth].
    now rewrite H1, H2, H3. }
  eexists. split; [apply (parse_row_three_columns _ row_idx [] 0 1 2 Hp) |].
  repeat split.
  eapply validate_item_positive; try reflexivity. exact Hpos.
Qed.

Lemma X18_nameless_item_accepted_witness :
  PyFloat.gtb (_parse_float "30") PyFloat.zero = true
  /\ exists item,
       _parse_row Examples.figures_row 0 = Ok (Some item)
       /\ Item.item_name item = Some ""
       /\ _validate_item item = (true, MsgValid "").
Proof.
  split; [vm_compute; reflexivity |].
  destruct (X18_nameless_item_accepted
              (Examples.tok "2" "100" "50") (Examples.tok "15" "150" "50")
              (Examples.tok "30" "200" "50") 0 eq_refl eq_refl eq_refl eq_refl)
    as (item & Hp & Hn & _ & _ & _ & Hv).
  exists item. auto.
Defined.

End Pipeline.

(** ** Numeric tokens: what [_parse_float] does with them *)

Section NumericTokens.
Import TableParser.

Lemma occurs_lstrip (sp : ascii -> bool) (c : ascii) (s : string) :
  sp c = false -> Spec.occurs c s -> Spec.occurs c (PyStr.lstrip_by sp s).
Proof.
  intros Hc. unfold Spec.occurs.
  induction s as [| a s IH]; cbn [PyStr.lstrip_by list_ascii_of_string]; [auto |].
  intros [<- | H].
  - rewrite Hc. now left.
  - destruct (sp a); [auto | now right].
Qed.

Lemma occurs_rstrip (sp : ascii -> bool) (c : ascii) (s : string) :
  sp c = false -> Spec.occurs c s -> Spec.occurs c (PyStr.rstrip_by sp s).
Proof.
  intros Hc. unfold Spec.occurs.
  induction s as [| a s IH]; cbn [PyStr.rstrip_by list_ascii_of_string]; [auto |].
  intros [<- | H].
  - destruct (PyStr.rstrip_by sp s); [rewrite Hc |]; now left.
  - specialize (IH H).
    destruct (PyStr.rstrip_by sp s) as [| b r]; [destruct IH | now right].
Qed.

Lemma occurs_strip_by (sp : ascii -> bool) (c : ascii) (s : string) :
  sp c = false -> Spec.occurs c s -> Spec.occurs c (PyStr.strip_by sp s).
Proof.
  intros Hc H. unfold PyStr.strip_by. now apply occurs_rstrip, occurs_lstrip.
Qed.

(** Taking a character out of a text leaves the other characters in. *)
Lemma occurs_remove_char (o c : ascii) (s : string) :
  c <> o -> Spec.occurs c s ->
  Spec.occurs c (PyStr.replace (String o "") "" s).
Proof.
  intros Hne. unfold Spec.occurs, PyStr.replace.
  induction s as [| a s IH]; [auto |].
  cbn [PyStr.replace_from prefix String.length Nat.sub append list_ascii_of_string].
  intros Hin. destruct (ascii_dec o a) as [<- | Hoa].
  - replace (prefix "" s) with true by (now destruct s).
    destruct Hin as [<- | Hin]; [congruence | now apply IH].
  - cbn [list_ascii_of_string]. destruct Hin as [<- | Hin];
      [now left | right; now apply IH].
Qed.

(** A text without the letter R holds no marker Rs. *)
Lemma replace_absent (s : string) :
  ~ Spec.occurs "R" s -> PyStr.replace "Rs" "" s = s.
Proof.
  unfold Spec.occurs, PyStr.replace.
  induction s as [| a s IH]; [reflexivity |].
  cbn [list_ascii_of_string]. intros H. cbn [PyStr.replace_from prefix].
  destruct (ascii_dec "R" a) as [<- | Hne].
  - exfalso. apply H. now left.
  - f_equal. apply IH. intros Hin. apply H. now right.
Qed.

Lemma occurs_lower (c : ascii) (s : string) :
  Spec.occurs c s -> Spec.occurs (PyStr.lower_char c) (PyStr.lower s).
Proof.
  unfold Spec.occurs.
  induction s as [| a s IH]; cbn [PyStr.lower list_ascii_of_string]; [auto |].
  intros [<- | H]; [now left | right; now apply IH].
Qed.

(** [digits] passes over digits only. *)
Lemma digits_rest (c : ascii) (s : string) :
  PyFloat.is_digit c = false ->
  forall (acc : Z) (n : nat) (v : Z) (k : nat) (r : string),
    PyFloat.digits acc n s = (v, k, r) -> Spec.occurs c s -> Spec.occurs c r.
Proof.
  intros Hc. unfold Spec.occurs.
  induction s as [| a s IH]; intros acc n v k r; cbn [PyFloat.digits].
  - intros H. inversion H. auto.
  - destruct (PyFloat.is_digit a) eqn:Ha.
    + cbn [list_ascii_of_string]. intros Hd [<- | Hin];
        [congruence | eapply IH; eassumption].
    + intros H. inversion H. auto.
Qed.

Lemma sign_of_rest (c : ascii) (s : string) :
  c <> "-"%char -> c <> "+"%char ->
  Spec.occurs c s -> Spec.occurs c (snd (PyFloat.sign_of s)).
Proof.
  intros Hm Hp. unfold Spec.occurs. destruct s as [| a s]; [auto |].
  cbn [list_ascii_of_string]. intros [<- | Hin].
  - unfold PyFloat.sign_of.
    destruct a as [[] [] [] [] [] [] [] []]; cbn [snd list_ascii_of_string];
      try (now left); congruence.
  - unfold PyFloat.sign_of.
    destruct a as [[] [] [] [] [] [] [] []]; cbn [snd list_ascii_of_string];
      first [assumption | now right].
Qed.

Lemma fraction_rest (c : ascii) (i : Z) (r1 : string)
      (m : Z) (nf : nat) (r2 : string) :
  PyFloat.is_digit c = false -> c <> "."%char ->
  match r1 with
  | String "." r => PyFloat.digits i 0 r
  | _ => (i, O, r1)
  end = (m, nf, r2) ->
  Spec.occurs c r1 -> Spec.occurs c r2.
Proof.
  intros Hd Hdot. destruct r1 as [| a r]; [intros H; inversion H; auto |].
  destruct a as [[] [] [] [] [] [] [] []];
    try (intros H; inversion H; auto; fail).
  intros H Hin. apply (digits_rest c r Hd _ _ _ _ _ H).
  destruct Hin as [<- | Hin]; [congruence | assumption].
Qed.

Lemma exponent_none (s : string) :
  Spec.occurs "R" s -> PyFloat.exponent s = None.
Proof.
  destruct s as [| c s']; [intros [] |]. intros Hin. unfold PyFloat.exponent.
  destruct (Ascii.eqb c "e" || Ascii.eqb c "E")%bool eqn:He; [| reflexivity].
  assert (Hin' : Spec.occurs "R" s').
  { destruct Hin as [-> | H]; [discriminate He | exact H]. }
  pose proof (sign_of_rest "R" s' ltac:(discriminate) ltac:(discriminate) Hin')
    as Hs.
  destruct (PyFloat.sign_of s') as [sg s'']. cbn [snd] in Hs.
  destruct (PyFloat.digits 0 0 s'') as [[v k] r] eqn:Hd.
  pose proof (digits_rest "R" s'' eq_refl _ _ _ _ _ Hd Hs) as Hr.
  destruct k; [reflexivity |]. destruct r; [destruct Hr | reflexivity].
Qed.

Lemma decimal_none (s : string) :
  Spec.occurs "R" s -> PyFloat.decimal s = None.
Proof.
  intros Hin. unfold PyFloat.decimal.
  destruct (PyFloat.digits 0 0 s) as [[i ni] r1] eqn:Hd.
  pose proof (digits_rest "R" s eq_refl _ _ _ _ _ Hd Hin) as H1.
  destruct (match r1 with
            | String "." r => PyFloat.digits i 0 r
            | _ => (i, O, r1)
            end) as [[m nf] r2] eqn:Hf.
  pose proof (fraction_rest "R" i r1 m nf r2 eq_refl ltac:(discriminate) Hf H1)
    as H2.
  destruct (ni + nf =? 0)%nat; [reflexivity |].
  now rewrite exponent_none.
Qed.

(** [float] raises on every text that holds the letter R. *)
Lemma of_string_none (s : string) :
  Spec.occurs "R" s -> PyFloat.of_string s = None.
Proof.
  intros Hin. unfold PyFloat.of_string.
  destruct (PyFloat.underscores_ok _ _); [| reflexivity].
  assert (Hu : Spec.occurs "R"
                 (snd (PyFloat.sign_of
                         (PyStr.replace "_" ""
                            (PyStr.strip_by PyFloat.is_c_space s))))).
  { apply sign_of_rest; try discriminate.
    apply occurs_remove_char; [discriminate |].
    apply occurs_strip_by; [reflexivity | assumption]. }
  destruct (PyFloat.sign_of _) as [sg u]. cbn [snd] in Hu.
  pose proof (occurs_lower _ _ Hu) as Hl.
  destruct (String.eqb (PyStr.lower u) "inf") eqn:E1.
  { apply String.eqb_eq in E1. rewrite E1 in Hl. exfalso.
    vm_compute in Hl. intuition discriminate. }
  destruct (String.eqb (PyStr.lower u) "infinity") eqn:E2.
  { apply String.eqb_eq in E2. rewrite E2 in Hl. exfalso.
    vm_compute in Hl. intuition discriminate. }
  destruct (String.eqb (PyStr.lower u) "nan") eqn:E3.
  { apply String.eqb_eq in E3. rewrite E3 in Hl. exfalso.
    vm_compute in Hl. intuition discriminate. }
  cbn [orb]. now rewrite decimal_none.
Qed.

(** X17: on a text that [_is_numeric] accepts, [_parse_float] returns what
    [float] gives for the text cleaned as in [_is_numeric] (white space at
    the ends, rupee signs, dollar signs and commas removed): [float] does
    not raise, the value 0.0 of the [except] branch is never returned, and
    the removal of Rs changes nothing. *)
Theorem X17_numeric_token_parses (text : string) :
  _is_numeric text = true ->
  PyFloat.of_string
    (PyStr.replace "," ""
       (PyStr.replace "$" "" (PyStr.replace rupee "" (PyStr.strip text))))
  = Some (_parse_float text).
Proof.
  intros H. unfold _is_numeric in H. unfold _parse_float.
  set (t0 := PyStr.strip text) in *.
  destruct (String.eqb t0 ""); [discriminate |].
  set (t1 := PyStr.replace "$" "" (PyStr.replace rupee "" t0)) in *.
  destruct (PyFloat.of_string (PyStr.replace "," "" t1)) as [x |] eqn:E;
    [| discriminate].
  assert (HnoR : ~ Spec.occurs "R" t1).
  { intros Hin. rewrite (of_string_none (PyStr.replace "," "" t1)) in E;
      [discriminate |].
    apply occurs_remove_char; [discriminate | assumption]. }
  rewrite (replace_absent t1 HnoR), E. reflexivity.
Qed.

Lemma X17_numeric_token_parses_witness :
  _is_numeric " $1,250.50" = true
  /\ PyFloat.of_string "1250.50" = Some (_parse_float " $1,250.50").
Proof.
  split; [vm_compute; reflexivity |].
  exact (X17_numeric_token_parses " $1,250.50" eq_refl).
Defined.

End NumericTokens.
